(** * conTEXT model registry: parser, fallback chain, lookup and query

    A shallow embedding of the TypeScript sources of the registry
    ([parser.ts], [fetcher.ts], [fallback.ts], [utils.ts], [types.ts]) and
    the properties its specification states about them.

    Conventions of the embedding:
    - token counts and context sizes are JSON integers and are modelled in
      [Z]; prices are IEEE-754 doubles and are modelled with Rocq's
      primitive binary64 [float];
    - strings are sequences of 8-bit characters; case mapping and the
      white-space class are the ASCII ones;
    - a plain JS object used as a dictionary is the [gmap] of its own
      properties; what a read [obj[key]] finds, the members inherited from
      [Object.prototype] included, is given by [JS.read];
    - [Date] values are kept as epoch milliseconds (their ISO-8601
      rendering is not modelled); [JS.validTime] tells the time values a
      [Date] can hold;
    - [Parser] gives each function of [parser.ts] by the value a call
      returns; the calls themselves, with the exceptions that end them,
      are in [Fetcher] ([Fetcher.transformModel], [Fetcher.buildRegistry]);
    - arrays that are mutated in place live in an explicit store. *)

From Stdlib Require Import ZArith Ascii String Floats Sorting.Permutation.
From stdpp Require Import gmap strings list sorting.

#[local] Set Warnings "-inexact-float".

Local Open Scope Z_scope.

(* ===================================================================== *)
(** * Host-language primitives *)
(* ===================================================================== *)

Module JS.

(** ** Values that may be missing *)

(** [T | null | undefined] *)
Inductive nullable (A : Type) : Type :=
| Undefined
| Null
| Value (a : A).
Arguments Undefined {A}.
Arguments Null {A}.
Arguments Value {A} a.

(** Truthiness of the values the sources test with [||], [!] and [if]. *)
Definition truthy_string (s : string) : bool :=
  match s with EmptyString => false | _ => true end.

Definition truthy_int (n : Z) : bool := negb (n =? 0).

(** [a || b] for an optional string and a string default. *)
Definition or_string (a : option string) (b : string) : string :=
  match a with
  | Some s => if truthy_string s then s else b
  | None => b
  end.

(** [a || b] for an optional integer on the left. *)
Definition or_int (a : option Z) (b : option Z) : option Z :=
  match a with
  | Some n => if truthy_int n then Some n else b
  | None => b
  end.

(** [a || b] for an optional integer on the left and an integer default. *)
Definition or_else_int (a : option Z) (b : Z) : Z :=
  match a with
  | Some n => if truthy_int n then n else b
  | None => b
  end.

(** ** Characters *)

Definition code (c : ascii) : Z := Z.of_N (N_of_ascii c).
Definition char_of (n : Z) : ascii := ascii_of_N (Z.to_N n).

(** The ASCII part of the [\s] class and of [String.prototype.trim]:
    TAB, LF, VT, FF, CR and SPACE. *)
Definition isWhiteSpace (c : ascii) : bool :=
  let n := code c in ((9 <=? n) && (n <=? 13)) || (n =? 32).

Definition lowerChar (c : ascii) : ascii :=
  let n := code c in
  if (65 <=? n) && (n <=? 90) then char_of (n + 32) else c.

Definition upperChar (c : ascii) : ascii :=
  let n := code c in
  if (97 <=? n) && (n <=? 122) then char_of (n - 32) else c.

(** ** Strings *)

Fixpoint mapChars (f : ascii -> ascii) (s : string) : string :=
  match s with
  | EmptyString => EmptyString
  | String c s' => String (f c) (mapChars f s')
  end.

Fixpoint filterChars (p : ascii -> bool) (s : string) : string :=
  match s with
  | EmptyString => EmptyString
  | String c s' => if p c then String c (filterChars p s') else filterChars p s'
  end.

Definition toLowerCase (s : string) : string := mapChars lowerChar s.

Fixpoint trimStart (s : string) : string :=
  match s with
  | String c s' => if isWhiteSpace c then trimStart s' else s
  | EmptyString => EmptyString
  end.

(** [trimEnd] keeps a character when it is not white space or when
    something is kept after it. *)
Fixpoint trimEnd (s : string) : string :=
  match s with
  | EmptyString => EmptyString
  | String c s' =>
      match trimEnd s' with
      | EmptyString => if isWhiteSpace c then EmptyString else String c EmptyString
      | t => String c t
      end
  end.

Definition trim (s : string) : string := trimEnd (trimStart s).

(** [s.startsWith(p)] *)
Fixpoint startsWith (s p : string) : bool :=
  match p, s with
  | EmptyString, _ => true
  | String _ _, EmptyString => false
  | String a p', String b s' => Ascii.eqb a b && startsWith s' p'
  end.

(** [s.includes(sub)] *)
Fixpoint includes (s sub : string) : bool :=
  startsWith s sub ||
  match s with
  | EmptyString => false
  | String _ s' => includes s' sub
  end.

(** [s.endsWith(suf)]: some suffix of [s] is [suf]. *)
Fixpoint endsWith (s suf : string) : bool :=
  String.eqb s suf ||
  match s with
  | EmptyString => false
  | String _ s' => endsWith s' suf
  end.

(** [s.split(sep)] for a one-character separator; never empty. *)
Fixpoint split (sep : ascii) (s : string) : list string :=
  match s with
  | EmptyString => [EmptyString]
  | String c s' =>
      if Ascii.eqb c sep then EmptyString :: split sep s'
      else match split sep s' with
           | [] => [String c EmptyString]
           | p :: ps => String c p :: ps
           end
  end.

(** [parts.join(sep)] *)
Fixpoint join (sep : string) (parts : list string) : string :=
  match parts with
  | [] => EmptyString
  | [p] => p
  | p :: ps => p +:+ sep +:+ join sep ps
  end.

(** [word.charAt(0).toUpperCase() + word.slice(1)] *)
Definition capitalize (word : string) : string :=
  match word with
  | EmptyString => EmptyString
  | String c w => String (upperChar c) w
  end.

(** ** Arrays *)

(** [Array.prototype.sort(cmp)].  ECMAScript (2019 and later) requires the
    sort to be stable; with a consistent comparator every stable sort
    returns the same array, here computed by straight insertion.  The
    comparator's result is used through its sign only. *)
Fixpoint sort_insert {A} (cmp : A -> A -> Z) (x : A) (l : list A) : list A :=
  match l with
  | [] => [x]
  | y :: l' => if cmp x y <=? 0 then x :: y :: l' else y :: sort_insert cmp x l'
  end.

Fixpoint sort {A} (cmp : A -> A -> Z) (l : list A) : list A :=
  match l with
  | [] => []
  | x :: l' => sort_insert cmp x (sort cmp l')
  end.

(** [arr.slice(0, end)]: a negative [end] counts from the end of the
    array. *)
Definition slice0 {A} (l : list A) (end_ : Z) : list A :=
  let len := Z.of_nat (length l) in
  let final := if end_ <? 0 then Z.max (len + end_) 0 else Z.min end_ len in
  take (Z.to_nat final) l.

(** ** Numbers *)

(** Falsy doubles are [+0], [-0] and [NaN]. *)
Definition truthy_float (x : float) : bool :=
  negb (PrimFloat.eqb x 0%float || PrimFloat.is_nan x).

(** [x || 0] *)
Definition or_zero (x : float) : float :=
  if truthy_float x then x else 0%float.

(** [x ? f(x) : undefined] for an optional double. *)
Definition when_truthy (x : option float) (f : float -> float) : option float :=
  match x with
  | Some v => if truthy_float v then Some (f v) else None
  | None => None
  end.

(** The sign of a comparator result that is a double ([NaN] counts as
    [0], as in [Array.prototype.sort]). *)
Definition sign_of_float (v : float) : Z :=
  if PrimFloat.ltb v 0%float then -1
  else if PrimFloat.ltb 0%float v then 1 else 0.

(** *** [parseFloat] *)

Definition digit (c : ascii) : option Z :=
  let n := code c in
  if (48 <=? n) && (n <=? 57) then Some (n - 48) else None.

(** Reads the longest run of decimal digits: the accumulated value, the
    number of digits read and the rest of the string. *)
Fixpoint readDigits (s : string) (acc count : Z) : Z * Z * string :=
  match s with
  | String c s' =>
      match digit c with
      | Some d => readDigits s' (acc * 10 + d) (count + 1)
      | None => (acc, count, s)
      end
  | EmptyString => (acc, count, s)
  end.

Definition readSign (s : string) : bool * string :=
  match s with
  | String "-"%char s' => (true, s')
  | String "+"%char s' => (false, s')
  | _ => (false, s)
  end.

(** An exponent part counts only when at least one digit follows the
    indicator and its optional sign. *)
Definition readExponent (s : string) : Z :=
  match s with
  | String c s' =>
      if Ascii.eqb c "e"%char || Ascii.eqb c "E"%char then
        let (neg, s'') := readSign s' in
        let '(v, n, _) := readDigits s'' 0 0 in
        if n =? 0 then 0 else if neg then - v else v
      else 0
  | EmptyString => 0
  end.

(** The longest prefix that is a [StrDecimalLiteral]: none, an infinity,
    or [(-1)^neg * m * 10^e]. *)
Inductive Literal : Type :=
| LitNone
| LitInfinity (neg : bool)
| LitDecimal (neg : bool) (m e : Z).

Definition scanLiteral (s : string) : Literal :=
  let (neg, s1) := readSign (trimStart s) in
  if startsWith s1 "Infinity" then LitInfinity neg
  else
    let '(ip, ni, s2) := readDigits s1 0 0 in
    let '(m, nf, s3) :=
      match s2 with
      | String "."%char s2' => readDigits s2' ip 0
      | _ => (ip, 0, s2)
      end in
    if ni + nf =? 0 then LitNone else LitDecimal neg m (readExponent s3 - nf).

(** The double nearest to [(-1)^neg * m * 10^e] (ties to even). *)
Definition roundDecimal (neg : bool) (m e : Z) : float :=
  match m with
  | Z0 => if neg then PrimFloat.neg_zero else 0%float
  | Zpos p =>
      if 0 <=? e then
        SF2Prim (binary_normalize prec emax
                   (if neg then - (m * 10 ^ e) else m * 10 ^ e) 0 false)
      else
        SF2Prim (SFdiv prec emax
                   (S754_finite neg p 0)
                   (S754_finite false (Z.to_pos (10 ^ (- e))) 0))
  | Zneg _ => PrimFloat.nan
  end.

Definition parseFloat (s : string) : float :=
  match scanLiteral s with
  | LitNone => PrimFloat.nan
  | LitInfinity neg => if neg then PrimFloat.neg_infinity else PrimFloat.infinity
  | LitDecimal neg m e => roundDecimal neg m e
  end.

(** ** Plain objects *)

(** The names of the members every object literal inherits from
    [Object.prototype]. *)
Definition objectPrototype : list string :=
  ["constructor"; "__defineGetter__"; "__defineSetter__"; "hasOwnProperty";
   "__lookupGetter__"; "__lookupSetter__"; "isPrototypeOf";
   "propertyIsEnumerable"; "toString"; "valueOf"; "__proto__";
   "toLocaleString"].

Definition inherited (key : string) : bool :=
  existsb (String.eqb key) objectPrototype.

(** What the read [obj[key]] finds in an object literal: the value of an
    own property, a member inherited from [Object.prototype] (a function,
    or the prototype itself for ["__proto__"]; truthy in both cases), or
    nothing ([undefined]). *)
Inductive Member (A : Type) : Type :=
| Own (a : A)
| Inherited
| Absent.
Arguments Own {A} a.
Arguments Inherited {A}.
Arguments Absent {A}.

(** [obj[key]], for the object whose own properties are [own]. *)
Definition read {A} (own : gmap string A) (key : string) : Member A :=
  match own !! key with
  | Some a => Own a
  | None => if inherited key then Inherited else Absent
  end.

(** ** Dates *)

(** The time values a [Date] can hold: at most 8.64e15 milliseconds from
    the epoch.  [new Date(t)] is an Invalid Date for any other [t], and
    [toISOString] throws a [RangeError] on an Invalid Date. *)
Definition validTime (t : Z) : bool :=
  (-8640000000000000 <=? t) && (t <=? 8640000000000000).

End JS.

(* ===================================================================== *)
(** * Data model ([types.ts]) *)
(* ===================================================================== *)

(** Instants, in milliseconds since the epoch. *)
Definition Timestamp : Type := Z.

(** ** Raw records of the upstream API *)

Module Raw.

Record Architecture : Type := {
  modality : string;
  input_modalities : option (list string);
  output_modalities : option (list string);
  tokenizer : string;
  instruct_type : JS.nullable string;
}.

Record Pricing : Type := {
  prompt : string;
  completion : string;
  request : option string;
  image : option string;
  web_search : option string;
  internal_reasoning : option string;
  input_cache_read : option string;
  input_cache_write : option string;
}.

Record TopProvider : Type := {
  tp_context_length : option Z;
  tp_max_completion_tokens : option Z;
  is_moderated : option bool;
}.

Record PerRequestLimits : Type := {
  prompt_tokens : option Z;
  completion_tokens : option Z;
}.

Record DefaultParameters : Type := {
  temperature : JS.nullable float;
  top_p : JS.nullable float;
  frequency_penalty : JS.nullable float;
  presence_penalty : JS.nullable float;
  top_k : JS.nullable float;
}.

Record OpenRouterModel : Type := {
  id : string;
  canonical_slug : option string;
  name : string;
  description : option string;
  created : option Z;
  context_length : Z;
  max_completion_tokens : option Z;
  hugging_face_id : option string;
  architecture : option Architecture;
  pricing : Pricing;
  top_provider : option TopProvider;
  per_request_limits : JS.nullable PerRequestLimits;
  supported_parameters : option (list string);
  default_parameters : option DefaultParameters;
}.

End Raw.

(** ** Providers *)

Module Provider.

Record ModelProvider : Type := {
  id : string;
  name : string;
  color : string;
  icon : option string;
}.

(** [Omit<ModelProvider, 'id'>]: name, colour, icon. *)
Definition Branding : Type := string * string * option string.

Definition KNOWN_PROVIDERS : gmap string Branding :=
  list_to_map [
    ("anthropic", ("Anthropic", "#D4A574", Some "lobe-icons:anthropic"));
    ("openai", ("OpenAI", "#10A37F", Some "lobe-icons:openai"));
    ("google", ("Google", "#4285F4", Some "lobe-icons:google-color"));
    ("meta-llama", ("Meta", "#0668E1", Some "lobe-icons:meta-color"));
    ("mistralai", ("Mistral", "#FF7000", Some "lobe-icons:mistral-color"));
    ("x-ai", ("xAI", "#1DA1F2", Some "lobe-icons:xai"));
    ("deepseek", ("DeepSeek", "#4D6BFE", Some "lobe-icons:deepseek-color"));
    ("cohere", ("Cohere", "#D18EE2", Some "lobe-icons:cohere-color"));
    ("qwen", ("Qwen", "#615EFF", Some "lobe-icons:qwen-color"));
    ("alibaba", ("Alibaba", "#FF6A00", Some "lobe-icons:alibaba-color"));
    ("microsoft", ("Microsoft", "#00A4EF", Some "lobe-icons:azure-color"));
    ("perplexity", ("Perplexity", "#20808D", Some "lobe-icons:perplexity-color"));
    ("nvidia", ("NVIDIA", "#76B900", Some "lobe-icons:nvidia-color"));
    ("nous", ("Nous Research", "#8B5CF6", Some "lobe-icons:nousresearch"));
    ("nousresearch", ("Nous Research", "#8B5CF6", Some "lobe-icons:nousresearch"));
    ("ai21", ("AI21 Labs", "#6366F1", Some "lobe-icons:ai21-brand-color"));
    ("thudm", ("Zhipu AI", "#00D4AA", Some "lobe-icons:zhipu-color"));
    ("01-ai", ("01.AI", "#FF6B6B", Some "lobe-icons:yi-color"));
    ("inflection", ("Inflection", "#7C3AED", Some "lobe-icons:inflection"));
    ("amazon", ("Amazon", "#FF9900", Some "lobe-icons:bedrock-color"));
    ("databricks", ("Databricks", "#FF3621", Some "lobe-icons:dbrx-color"));
    ("together", ("Together", "#0EA5E9", Some "lobe-icons:together-color"));
    ("groq", ("Groq", "#F55036", Some "lobe-icons:groq"));
    ("fireworks-ai", ("Fireworks", "#FF6B35", Some "lobe-icons:fireworks-color"));
    ("deepinfra", ("DeepInfra", "#3B82F6", Some "lobe-icons:deepinfra-color"));
    ("replicate", ("Replicate", "#000000", Some "lobe-icons:replicate"));
    ("anyscale", ("Anyscale", "#00D4FF", Some "lobe-icons:anyscale-color"));
    ("cloudflare", ("Cloudflare", "#F6821F", Some "lobe-icons:cloudflare-color"));
    ("sambanova", ("SambaNova", "#FF5722", Some "lobe-icons:sambanova-color"));
    ("cerebras", ("Cerebras", "#00D9FF", Some "lobe-icons:cerebras-color"));
    ("baichuan", ("Baichuan", "#4F46E5", Some "lobe-icons:baichuan-color"));
    ("moonshot", ("Moonshot", "#1E293B", Some "lobe-icons:moonshot"));
    ("minimax", ("MiniMax", "#3B82F6", Some "lobe-icons:minimax-color"));
    ("zhipu", ("Zhipu AI", "#00D4AA", Some "lobe-icons:zhipu-color"));
    ("stepfun", ("StepFun", "#6366F1", Some "lobe-icons:stepfun-color"));
    ("baidu", ("Baidu", "#2932E1", Some "lobe-icons:baidu-color"));
    ("tencent", ("Tencent", "#00C853", Some "lobe-icons:tencent-color"));
    ("bytedance", ("ByteDance", "#3B82F6", Some "lobe-icons:bytedance-color"));
    ("huggingface", ("Hugging Face", "#FFD21E", Some "lobe-icons:huggingface-color"));
    ("ollama", ("Ollama", "#000000", Some "lobe-icons:ollama"));
    ("openrouter", ("OpenRouter", "#6366F1", Some "lobe-icons:openrouter"))
  ].

Definition UNKNOWN_PROVIDER : Branding :=
  ("Unknown", "#6B7280", Some "lobe-icons:openrouter").

(** ** Model icon and colour overrides *)

(** The entries are kept in the order of the object literal, which is the
    order of [Object.keys]; no key occurs twice. *)
Definition MODEL_ICONS : list (string * string) := [
  ("claude", "lobe-icons:claude-color");
  ("gemini", "lobe-icons:gemini-color");
  ("gemma", "lobe-icons:gemma-color");
  ("palm", "lobe-icons:palm-color");
  ("grok", "lobe-icons:grok");
  ("dall-e", "lobe-icons:dalle-color");
  ("sora", "lobe-icons:sora-color");
  ("command", "lobe-icons:cohere-color");
  ("aya", "lobe-icons:aya-color");
  ("dbrx", "lobe-icons:dbrx-color");
  ("yi", "lobe-icons:yi-color");
  ("glm", "lobe-icons:chatglm-color");
  ("chatglm", "lobe-icons:chatglm-color");
  ("ernie", "lobe-icons:wenxin-color");
  ("wenxin", "lobe-icons:wenxin-color");
  ("doubao", "lobe-icons:doubao-color");
  ("hunyuan", "lobe-icons:hunyuan-color");
  ("kimi", "lobe-icons:kimi-color");
  ("spark", "lobe-icons:spark-color");
  ("flux", "lobe-icons:flux");
  ("stable-diffusion", "lobe-icons:stability-color");
  ("sd", "lobe-icons:stability-color");
  ("midjourney", "lobe-icons:midjourney");
  ("dolphin", "lobe-icons:dolphin");
  ("solar", "lobe-icons:upstage-color");
  ("phi", "lobe-icons:azure-color")
].

Definition MODEL_COLORS : list (string * string) := [
  ("claude", "#D4A574");
  ("gemini", "#4285F4");
  ("grok", "#1DA1F2");
  ("yi", "#FF6B6B")
].

(** [table[key]] *)
Definition lookupKey (table : list (string * string)) (key : string)
  : JS.Member string :=
  JS.read (list_to_map table : gmap string string) key.

(** [Object.keys(table).find(k => modelSlug.startsWith(k))] *)
Definition findPrefix (table : list (string * string)) (modelSlug : string)
  : option string :=
  List.find (λ k, JS.startsWith modelSlug k) (table.*1).

(** [a ?? b] *)
Definition orElse {A} (a b : option A) : option A :=
  match a with
  | Some x => Some x
  | None => b
  end.

(** The two override steps shared by [getModelIcon] and [getModelColor]:
    the exact match, then the prefix match.  [Some] is what the function
    returns from one of these steps: a string of the table, or the member
    of [Object.prototype] found under the slug. *)
Definition override (table : list (string * string)) (modelSlug : string)
  : option (JS.Member string) :=
  let exact :=
    match lookupKey table modelSlug with
    | JS.Own value => if JS.truthy_string value then Some (JS.Own value) else None
    | JS.Inherited => Some JS.Inherited
    | JS.Absent => None
    end in
  match exact with
  | Some found => Some found
  | None =>
      match findPrefix table modelSlug with
      | Some prefix =>
          if JS.truthy_string prefix then Some (lookupKey table prefix) else None
      | None => None
      end
  end.

(** The result is typed [string]; for a slug that names a member of
    [Object.prototype] it is that member.  In the last step
    [KNOWN_PROVIDERS[providerId]?.icon] is [undefined] also when the read
    finds an inherited member, which has no [icon]. *)
Definition getModelIcon (modelSlug providerId : string) : JS.Member string :=
  match override MODEL_ICONS modelSlug with
  | Some icon => icon
  | None =>
      let knownIcon :=
        match JS.read KNOWN_PROVIDERS providerId with
        | JS.Own (_, _, icon) => icon
        | JS.Inherited | JS.Absent => None
        end in
      let '(_, _, unknownIcon) := UNKNOWN_PROVIDER in
      JS.Own (default "lobe-icons:openrouter" (orElse knownIcon unknownIcon))
  end.

Definition getModelColor (modelSlug providerId : string) : JS.Member string :=
  match override MODEL_COLORS modelSlug with
  | Some color => color
  | None =>
      match JS.read KNOWN_PROVIDERS providerId with
      | JS.Own (_, color, _) => JS.Own color
      | JS.Inherited | JS.Absent =>
          let '(_, unknownColor, _) := UNKNOWN_PROVIDER in JS.Own unknownColor
      end
  end.

End Provider.

(** ** Normalized models *)

Inductive ModelSizeTier : Type := tiny | small | medium | large | massive.

Inductive LegacyModality : Type := text | text_image | multimodal.

Module Model.

Record ModelPricing : Type := {
  promptPerMillion : float;
  completionPerMillion : float;
  isFree : bool;
  imagePerImage : option float;
  requestCost : option float;
  webSearchCost : option float;
  reasoningPerMillion : option float;
  cacheReadPerMillion : option float;
  cacheWritePerMillion : option float;
}.

Record ModelCapabilities : Type := {
  inputModalities : list string;
  outputModalities : list string;
  modalityString : string;
  supportsTools : bool;
  supportsReasoning : bool;
  supportsStructuredOutput : bool;
  supportsJsonMode : bool;
  supportsStreaming : bool;
  supportsTemperature : bool;
  supportsTopP : bool;
  supportsTopK : bool;
  supportsFrequencyPenalty : bool;
  supportsPresencePenalty : bool;
  supportsStopSequences : bool;
  supportsWebSearch : bool;
  isModerated : bool;
  supportsImages : bool;
  modality : LegacyModality;
  instructType : option string;
}.

Record ModelDefaults : Type := {
  temperature : JS.nullable float;
  topP : JS.nullable float;
  topK : JS.nullable float;
  frequencyPenalty : JS.nullable float;
  presencePenalty : JS.nullable float;
}.

Record RequestLimits : Type := {
  promptTokens : option Z;
  completionTokens : option Z;
}.

Record LLMModel : Type := {
  id : string;
  slug : string;
  canonicalSlug : option string;
  name : string;
  description : option string;
  huggingFaceId : option string;
  provider : Provider.ModelProvider;
  contextLength : Z;
  maxCompletionTokens : Z;
  sizeTier : ModelSizeTier;
  pricing : ModelPricing;
  capabilities : ModelCapabilities;
  supportedParameters : list string;
  defaults : ModelDefaults;
  requestLimits : option RequestLimits;
  tokenizer : option string;
  createdAt : option Timestamp;
  updatedAt : Timestamp;
}.

End Model.

(** ** Registries *)

Inductive Source : Type := api | snapshot | fallback.

Module Registry.

Record RegistryMetadata : Type := {
  version : Z;
  fetchedAt : Timestamp;
  expiresAt : Timestamp;
  modelCount : Z;
  providerCount : Z;
  source : Source;
}.

Record ModelRegistry : Type := {
  metadata : RegistryMetadata;
  models : list Model.LLMModel;
  byId : gmap string Model.LLMModel;
  byProvider : gmap string (list Model.LLMModel);
  byTier : ModelSizeTier -> list Model.LLMModel;
}.

End Registry.

(** ** Query options *)

Inductive SortKey : Type := by_context | by_price | by_name | by_provider.
Inductive SortOrder : Type := asc | desc.

(** [T | T[]] *)
Inductive OneOrMany (A : Type) : Type :=
| One (a : A)
| Many (l : list A).
Arguments One {A} a.
Arguments Many {A} l.

Module Query.

Record ModelQueryOptions : Type := {
  provider : option (OneOrMany string);
  minContext : option Z;
  maxContext : option Z;
  tier : option (OneOrMany ModelSizeTier);
  isFree : option bool;
  supportsImages : option bool;
  supportsTools : option bool;
  supportsReasoning : option bool;
  supportsStructuredOutput : option bool;
  inputModality : option (OneOrMany string);
  search : option string;
  sortBy : option SortKey;
  sortOrder : option SortOrder;
  limit : option Z;
}.

End Query.

(* ===================================================================== *)
(** * Model parser ([parser.ts]) *)
(* ===================================================================== *)

Module Parser.

Definition REGISTRY_VERSION : Z := 2.
Definition CACHE_DURATION_MS : Z := 24 * 60 * 60 * 1000.

(** ** Parsing helpers *)

Definition parseProviderId (modelId : string) : string :=
  let parts := JS.split "/" modelId in
  JS.or_string (parts !! 0%nat) "unknown".

Definition parseModelSlug (modelId : string) : string :=
  let parts := JS.split "/" modelId in
  JS.or_string (Some (JS.join "/" (drop 1 parts))) modelId.

(** For a provider id that names a member of [Object.prototype] the read
    [KNOWN_PROVIDERS[providerId]] finds that member and the code returns an
    object that holds the id only, which is no [ModelProvider]; the
    definition gives the entry of an unknown provider there. *)
Definition getProviderInfo (providerId : string) : Provider.ModelProvider :=
  match Provider.KNOWN_PROVIDERS !! providerId with
  | Some (knownName, knownColor, knownIcon) =>
      {| Provider.id := providerId;
         Provider.name := knownName;
         Provider.color := knownColor;
         Provider.icon := knownIcon |}
  | None =>
      let generatedName :=
        JS.join " " (JS.capitalize <$> JS.split "-" providerId) in
      let '(_, unknownColor, unknownIcon) := Provider.UNKNOWN_PROVIDER in
      {| Provider.id := providerId;
         Provider.name := generatedName;
         Provider.color := unknownColor;
         Provider.icon := unknownIcon |}
  end.

(** [field ? parseFloat(field) : undefined] *)
Definition parseOptional (field : option string) : option float :=
  match field with
  | Some s => if JS.truthy_string s then Some (JS.parseFloat s) else None
  | None => None
  end.

Definition perMillion (perToken : float) : float :=
  PrimFloat.mul perToken 1000000%float.

Definition parsePricing (pricing : Raw.Pricing) : Model.ModelPricing :=
  let promptPerToken := JS.or_zero (JS.parseFloat (Raw.prompt pricing)) in
  let completionPerToken := JS.or_zero (JS.parseFloat (Raw.completion pricing)) in
  let requestCost := parseOptional (Raw.request pricing) in
  let imagePerImage := parseOptional (Raw.image pricing) in
  let webSearchCost := parseOptional (Raw.web_search pricing) in
  let reasoningPerToken := parseOptional (Raw.internal_reasoning pricing) in
  let cacheReadPerToken := parseOptional (Raw.input_cache_read pricing) in
  let cacheWritePerToken := parseOptional (Raw.input_cache_write pricing) in
  {| Model.promptPerMillion := perMillion promptPerToken;
     Model.completionPerMillion := perMillion completionPerToken;
     Model.isFree :=
       PrimFloat.eqb promptPerToken 0%float &&
       PrimFloat.eqb completionPerToken 0%float;
     Model.imagePerImage := imagePerImage;
     Model.requestCost := requestCost;
     Model.webSearchCost := webSearchCost;
     Model.reasoningPerMillion := JS.when_truthy reasoningPerToken perMillion;
     Model.cacheReadPerMillion := JS.when_truthy cacheReadPerToken perMillion;
     Model.cacheWritePerMillion := JS.when_truthy cacheWritePerToken perMillion |}.

Definition getSizeTier (contextLength : Z) : ModelSizeTier :=
  if contextLength <? 8000 then tiny
  else if contextLength <? 32000 then small
  else if contextLength <? 128000 then medium
  else if contextLength <? 500000 then large
  else massive.

(** [model.architecture?.modality || 'text'] *)
Definition modalityOf (model : Raw.OpenRouterModel) : string :=
  JS.or_string (Raw.modality <$> Raw.architecture model) "text".

Definition parseInputModalities (model : Raw.OpenRouterModel) : list string :=
  match Raw.architecture model ≫= Raw.input_modalities with
  | Some raw =>
      filter (λ m, m ∈ ["text"; "image"; "audio"; "video"; "file"]) raw
  | None =>
      let modality := modalityOf model in
      ["text"]
        ++ (if JS.includes modality "image" then ["image"] else [])
        ++ (if JS.includes modality "audio" then ["audio"] else [])
        ++ (if JS.includes modality "video" then ["video"] else [])
  end.

Definition parseOutputModalities (model : Raw.OpenRouterModel) : list string :=
  match Raw.architecture model ≫= Raw.output_modalities with
  | Some raw => filter (λ m, m ∈ ["text"; "image"; "audio"]) raw
  | None => ["text"]
  end.

Definition hasParam (model : Raw.OpenRouterModel) (param : string) : bool :=
  match Raw.supported_parameters model with
  | Some params => bool_decide (param ∈ params)
  | None => false
  end.

Definition parseCapabilities (model : Raw.OpenRouterModel)
  : Model.ModelCapabilities :=
  let modalityString := modalityOf model in
  let inputModalities := parseInputModalities model in
  let outputModalities := parseOutputModalities model in
  let hasImageInput := bool_decide ("image" ∈ inputModalities) in
  let hasAudioInput := bool_decide ("audio" ∈ inputModalities) in
  let hasVideoInput := bool_decide ("video" ∈ inputModalities) in
  let isMultimodal :=
    hasAudioInput || hasVideoInput ||
    (hasImageInput && (1 <? Z.of_nat (length outputModalities))) in
  let legacyModality :=
    if isMultimodal then multimodal
    else if hasImageInput then text_image
    else text in
  {| Model.inputModalities := inputModalities;
     Model.outputModalities := outputModalities;
     Model.modalityString := modalityString;
     Model.supportsTools := hasParam model "tools" || hasParam model "tool_choice";
     Model.supportsReasoning :=
       hasParam model "reasoning" || hasParam model "include_reasoning";
     Model.supportsStructuredOutput := hasParam model "structured_outputs";
     Model.supportsJsonMode := hasParam model "response_format";
     Model.supportsStreaming := true;
     Model.supportsTemperature := hasParam model "temperature";
     Model.supportsTopP := hasParam model "top_p";
     Model.supportsTopK := hasParam model "top_k";
     Model.supportsFrequencyPenalty := hasParam model "frequency_penalty";
     Model.supportsPresencePenalty := hasParam model "presence_penalty";
     Model.supportsStopSequences := hasParam model "stop";
     Model.supportsWebSearch :=
       match Raw.web_search (Raw.pricing model) with
       | Some s =>
           if JS.truthy_string s
           then PrimFloat.ltb 0%float (JS.parseFloat s)
           else false
       | None => false
       end;
     Model.isModerated :=
       default false (Raw.top_provider model ≫= Raw.is_moderated);
     Model.supportsImages := hasImageInput;
     Model.modality := legacyModality;
     Model.instructType :=
       match Raw.instruct_type <$> Raw.architecture model with
       | Some (JS.Value s) => Some s
       | _ => None
       end |}.

Definition parseDefaults (model : Raw.OpenRouterModel) : Model.ModelDefaults :=
  match Raw.default_parameters model with
  | None =>
      {| Model.temperature := JS.Undefined;
         Model.topP := JS.Undefined;
         Model.topK := JS.Undefined;
         Model.frequencyPenalty := JS.Undefined;
         Model.presencePenalty := JS.Undefined |}
  | Some defaults =>
      {| Model.temperature := Raw.temperature defaults;
         Model.topP := Raw.top_p defaults;
         Model.topK := Raw.top_k defaults;
         Model.frequencyPenalty := Raw.frequency_penalty defaults;
         Model.presencePenalty := Raw.presence_penalty defaults |}
  end.

Definition parseRequestLimits (model : Raw.OpenRouterModel)
  : option Model.RequestLimits :=
  match Raw.per_request_limits model with
  | JS.Value limits =>
      Some {| Model.promptTokens := Raw.prompt_tokens limits;
              Model.completionTokens := Raw.completion_tokens limits |}
  | _ => None
  end.

(** ** Main transform *)

(** The model a call returns; [now] is the instant read by [new Date()] in
    this call.  The call throws when [created] is beyond the range of
    [Date]: see [Fetcher.transformModel]. *)
Definition transformModel (now : Timestamp) (raw : Raw.OpenRouterModel)
  : Model.LLMModel :=
  let providerId := parseProviderId (Raw.id raw) in
  {| Model.id := Raw.id raw;
     Model.slug := parseModelSlug (Raw.id raw);
     Model.canonicalSlug := Raw.canonical_slug raw;
     Model.name := Raw.name raw;
     Model.description := Raw.description raw;
     Model.huggingFaceId :=
       match Raw.hugging_face_id raw with
       | Some s => if JS.truthy_string s then Some s else None
       | None => None
       end;
     Model.provider := getProviderInfo providerId;
     Model.contextLength := Raw.context_length raw;
     Model.maxCompletionTokens :=
       JS.or_else_int
         (JS.or_int (Raw.max_completion_tokens raw)
                    (Raw.top_provider raw ≫= Raw.tp_max_completion_tokens))
         (Z.min (Raw.context_length raw) 4096);
     Model.sizeTier := getSizeTier (Raw.context_length raw);
     Model.pricing := parsePricing (Raw.pricing raw);
     Model.capabilities := parseCapabilities raw;
     Model.supportedParameters := default [] (Raw.supported_parameters raw);
     Model.defaults := parseDefaults raw;
     Model.requestLimits := parseRequestLimits raw;
     Model.tokenizer := Raw.tokenizer <$> Raw.architecture raw;
     Model.createdAt :=
       match Raw.created raw with
       | Some c => if JS.truthy_int c then Some (c * 1000) else None
       | None => None
       end;
     Model.updatedAt := now |}.

(** The comparator of [transformModels]: largest context first. *)
Definition byContextDesc (a b : Model.LLMModel) : Z :=
  Model.contextLength b - Model.contextLength a.

(** [clock i] is the instant at which the [i]-th record is transformed. *)
Definition transformModels (clock : nat -> Timestamp)
    (rawModels : list Raw.OpenRouterModel) : list Model.LLMModel :=
  let models := imap (λ i raw, transformModel (clock i) raw) rawModels in
  JS.sort byContextDesc models.

(** ** Registry assembly *)

(** The three indices filled by the loop of [buildRegistry]. *)
Record Indices : Type := {
  ixById : gmap string Model.LLMModel;
  ixByProvider : gmap string (list Model.LLMModel);
  ixByTier : ModelSizeTier -> list Model.LLMModel;
}.

Definition emptyIndices : Indices :=
  {| ixById := ∅; ixByProvider := ∅; ixByTier := λ _, [] |}.

Definition tier_eqb (a b : ModelSizeTier) : bool :=
  match a, b with
  | tiny, tiny | small, small | medium, medium
  | large, large | massive, massive => true
  | _, _ => false
  end.

(** One iteration of the loop body, when it completes.  The indices are
    kept by what their reads give: the write [byId['__proto__'] = model]
    adds no own property but installs the model as prototype of [byId],
    and the read [byId['__proto__']] gives it back, so it is kept under
    that key.  The iteration throws when the provider id names a member of
    [Object.prototype]: see [Fetcher.indexModel]. *)
Definition indexModel (ix : Indices) (model : Model.LLMModel) : Indices :=
  let providerId := Provider.id (Model.provider model) in
  let bucket := default [] (ixByProvider ix !! providerId) in
  {| ixById := <[Model.id model := model]> (ixById ix);
     ixByProvider := <[providerId := bucket ++ [model]]> (ixByProvider ix);
     ixByTier := λ t,
       if tier_eqb t (Model.sizeTier model)
       then ixByTier ix t ++ [model]
       else ixByTier ix t |}.

(** The registry a call returns; [now] is the instant read by
    [new Date()]; an omitted [source] defaults to [api].  The call throws
    when the loop does: see [Fetcher.buildRegistry]. *)
Definition buildRegistry (now : Timestamp) (models : list Model.LLMModel)
    (source : option Source) : Registry.ModelRegistry :=
  let source := default api source in
  let expires := now + CACHE_DURATION_MS in
  let providerSet : gset string :=
    list_to_set ((λ m, Provider.id (Model.provider m)) <$> models) in
  let metadata :=
    {| Registry.version := REGISTRY_VERSION;
       Registry.fetchedAt := now;
       Registry.expiresAt := expires;
       Registry.modelCount := Z.of_nat (length models);
       Registry.providerCount := Z.of_nat (size providerSet);
       Registry.source := source |} in
  let ix := foldl indexModel emptyIndices models in
  {| Registry.metadata := metadata;
     Registry.models := models;
     Registry.byId := ixById ix;
     Registry.byProvider := ixByProvider ix;
     Registry.byTier := ixByTier ix |}.

End Parser.

(* ===================================================================== *)
(** * Hardcoded fallback models ([fallback.ts]) *)
(* ===================================================================== *)

Module Fallback.

Definition createCapabilities
    (supportsImages supportsTools supportsReasoning isModerated : option bool)
    (modality : option LegacyModality) : Model.ModelCapabilities :=
  let supportsImages := default false supportsImages in
  let modality :=
    default (if supportsImages then text_image else text) modality in
  {| Model.inputModalities := if supportsImages then ["text"; "image"] else ["text"];
     Model.outputModalities := ["text"];
     Model.modalityString :=
       if supportsImages then "text+image->text" else "text->text";
     Model.supportsTools := default true supportsTools;
     Model.supportsReasoning := default false supportsReasoning;
     Model.supportsStructuredOutput := true;
     Model.supportsJsonMode := true;
     Model.supportsStreaming := true;
     Model.supportsTemperature := true;
     Model.supportsTopP := true;
     Model.supportsTopK := false;
     Model.supportsFrequencyPenalty := true;
     Model.supportsPresencePenalty := true;
     Model.supportsStopSequences := true;
     Model.supportsWebSearch := false;
     Model.isModerated := default false isModerated;
     Model.supportsImages := supportsImages;
     Model.modality := modality;
     Model.instructType := None |}.

Definition createPricing (promptPerMillion completionPerMillion : float)
  : Model.ModelPricing :=
  {| Model.promptPerMillion := promptPerMillion;
     Model.completionPerMillion := completionPerMillion;
     Model.isFree :=
       PrimFloat.eqb promptPerMillion 0%float &&
       PrimFloat.eqb completionPerMillion 0%float;
     Model.imagePerImage := None;
     Model.requestCost := None;
     Model.webSearchCost := None;
     Model.reasoningPerMillion := None;
     Model.cacheReadPerMillion := None;
     Model.cacheWritePerMillion := None |}.
Arguments createPricing (promptPerMillion completionPerMillion)%_float.

Definition DEFAULT_DEFAULTS : Model.ModelDefaults :=
  {| Model.temperature := JS.Value 1%float;
     Model.topP := JS.Value 1%float;
     Model.topK := JS.Undefined;
     Model.frequencyPenalty := JS.Undefined;
     Model.presencePenalty := JS.Undefined |}.

(** The literal [{}]. *)
Definition emptyDefaults : Model.ModelDefaults :=
  {| Model.temperature := JS.Undefined;
     Model.topP := JS.Undefined;
     Model.topK := JS.Undefined;
     Model.frequencyPenalty := JS.Undefined;
     Model.presencePenalty := JS.Undefined |}.

(** [{ id: providerId, ...KNOWN_PROVIDERS[providerId]! }]; every key used
    below is in the table. *)
Definition knownProvider (providerId : string) : Provider.ModelProvider :=
  match Provider.KNOWN_PROVIDERS !! providerId with
  | Some (knownName, knownColor, knownIcon) =>
      {| Provider.id := providerId;
         Provider.name := knownName;
         Provider.color := knownColor;
         Provider.icon := knownIcon |}
  | None =>
      {| Provider.id := providerId;
         Provider.name := EmptyString;
         Provider.color := EmptyString;
         Provider.icon := None |}
  end.

Section Models.

(** [clock i] is the instant read by the [i]-th [new Date()] when the
    module is loaded. *)
Variable clock : nat -> Timestamp.

(** An object literal with exactly the keys the entries of the table
    give; the other members of [LLMModel] are absent. *)
Definition entry (i : nat) (id slug name providerId : string)
    (contextLength maxCompletionTokens : Z) (sizeTier : ModelSizeTier)
    (pricing : Model.ModelPricing) (capabilities : Model.ModelCapabilities)
    (supportedParameters : list string) (defaults : Model.ModelDefaults)
  : Model.LLMModel :=
  {| Model.id := id;
     Model.slug := slug;
     Model.canonicalSlug := None;
     Model.name := name;
     Model.description := None;
     Model.huggingFaceId := None;
     Model.provider := knownProvider providerId;
     Model.contextLength := contextLength;
     Model.maxCompletionTokens := maxCompletionTokens;
     Model.sizeTier := sizeTier;
     Model.pricing := pricing;
     Model.capabilities := capabilities;
     Model.supportedParameters := supportedParameters;
     Model.defaults := defaults;
     Model.requestLimits := None;
     Model.tokenizer := None;
     Model.createdAt := None;
     Model.updatedAt := clock i |}.
Arguments entry i%_nat (id slug name providerId)%_string
  (contextLength maxCompletionTokens)%_Z.

Definition FALLBACK_MODELS : list Model.LLMModel := [
  entry 0 "anthropic/claude-sonnet-4" "claude-sonnet-4" "Claude Sonnet 4" "anthropic"
    200000 64000 large (createPricing 3 15)
    (createCapabilities (Some true) (Some true) None None None)
    ["temperature"; "top_p"; "stop"; "max_tokens"; "tools"; "tool_choice"] DEFAULT_DEFAULTS;
  entry 1 "anthropic/claude-3.5-sonnet" "claude-3.5-sonnet" "Claude 3.5 Sonnet" "anthropic"
    200000 8192 large (createPricing 3 15)
    (createCapabilities (Some true) (Some true) None None None)
    ["temperature"; "top_p"; "stop"; "max_tokens"; "tools"; "tool_choice"] DEFAULT_DEFAULTS;
  entry 2 "anthropic/claude-opus-4" "claude-opus-4" "Claude Opus 4" "anthropic"
    200000 32000 large (createPricing 15 75)
    (createCapabilities (Some true) (Some true) (Some true) None None)
    ["temperature"; "top_p"; "stop"; "max_tokens"; "tools"; "tool_choice"; "reasoning"] DEFAULT_DEFAULTS;
  entry 3 "openai/gpt-4o" "gpt-4o" "GPT-4o" "openai"
    128000 16384 medium (createPricing 2.5 10)
    (createCapabilities (Some true) (Some true) None (Some true) None)
    ["temperature"; "top_p"; "stop"; "max_tokens"; "tools"; "tool_choice"; "response_format"] DEFAULT_DEFAULTS;
  entry 4 "openai/gpt-4-turbo" "gpt-4-turbo" "GPT-4 Turbo" "openai"
    128000 4096 medium (createPricing 10 30)
    (createCapabilities (Some true) (Some true) None (Some true) None)
    ["temperature"; "top_p"; "stop"; "max_tokens"; "tools"; "tool_choice"; "response_format"] DEFAULT_DEFAULTS;
  entry 5 "openai/o1" "o1" "o1" "openai"
    200000 100000 large (createPricing 15 60)
    (createCapabilities (Some true) (Some true) (Some true) (Some true) None)
    ["max_tokens"; "reasoning"] emptyDefaults;
  entry 6 "google/gemini-2.5-pro-preview" "gemini-2.5-pro-preview" "Gemini 2.5 Pro" "google"
    1000000 65536 massive (createPricing 1.25 10)
    (createCapabilities (Some true) (Some true) None None (Some multimodal))
    ["temperature"; "top_p"; "top_k"; "stop"; "max_tokens"; "tools"] DEFAULT_DEFAULTS;
  entry 7 "google/gemini-2.0-flash-exp" "gemini-2.0-flash-exp" "Gemini 2.0 Flash" "google"
    1000000 8192 massive (createPricing 0 0)
    (createCapabilities (Some true) (Some true) None None (Some multimodal))
    ["temperature"; "top_p"; "top_k"; "stop"; "max_tokens"] DEFAULT_DEFAULTS;
  entry 8 "deepseek/deepseek-chat" "deepseek-chat" "DeepSeek Chat" "deepseek"
    128000 8192 medium (createPricing 0.14 0.28)
    (createCapabilities (Some false) (Some true) None None None)
    ["temperature"; "top_p"; "stop"; "max_tokens"; "tools"] DEFAULT_DEFAULTS;
  entry 9 "deepseek/deepseek-r1" "deepseek-r1" "DeepSeek R1" "deepseek"
    64000 8192 medium (createPricing 0.55 2.19)
    (createCapabilities (Some false) (Some true) (Some true) None None)
    ["temperature"; "top_p"; "stop"; "max_tokens"; "reasoning"] DEFAULT_DEFAULTS;
  entry 10 "meta-llama/llama-3.3-70b-instruct" "llama-3.3-70b-instruct" "Llama 3.3 70B" "meta-llama"
    131072 8192 medium (createPricing 0.12 0.3)
    (createCapabilities (Some false) (Some true) None None None)
    ["temperature"; "top_p"; "stop"; "max_tokens"] DEFAULT_DEFAULTS;
  entry 11 "mistralai/mistral-large-2411" "mistral-large-2411" "Mistral Large" "mistralai"
    128000 8192 medium (createPricing 2 6)
    (createCapabilities (Some false) (Some true) None None None)
    ["temperature"; "top_p"; "stop"; "max_tokens"; "tools"] DEFAULT_DEFAULTS;
  entry 12 "qwen/qwen-2.5-72b-instruct" "qwen-2.5-72b-instruct" "Qwen 2.5 72B" "qwen"
    131072 8192 medium (createPricing 0.35 0.4)
    (createCapabilities (Some false) (Some true) None None None)
    ["temperature"; "top_p"; "stop"; "max_tokens"] DEFAULT_DEFAULTS;
  entry 13 "x-ai/grok-2" "grok-2" "Grok 2" "x-ai"
    131072 8192 medium (createPricing 2 10)
    (createCapabilities (Some true) (Some true) None None None)
    ["temperature"; "top_p"; "stop"; "max_tokens"; "tools"] DEFAULT_DEFAULTS
].

End Models.

End Fallback.

(* ===================================================================== *)
(** * Model fetcher ([fetcher.ts]) *)
(* ===================================================================== *)

Module Fetcher.

(** ** Steps that may throw *)

Inductive Result (A : Type) : Type :=
| Ok (a : A)
| Throw (error : string).
Arguments Ok {A} a.
Arguments Throw {A} error.

Definition bind {A B} (c : Result A) (k : A -> Result B) : Result B :=
  match c with
  | Ok a => k a
  | Throw e => Throw e
  end.

(** [try { body } catch (e) { handler }] *)
Definition try_catch {A} (body : Result A) (handler : string -> Result A)
  : Result A :=
  match body with
  | Ok a => Ok a
  | Throw e => handler e
  end.

Notation "'let*' x ':=' c 'in' k" := (bind c (λ x, k))
  (at level 10, x name, c at level 100, k at level 200, only parsing).

(** ** The world outside *)

(** What a parsed JSON document holds under the key [data]. *)
Inductive DataField : Type :=
| DataAbsent
| DataOther (truthy : bool)      (* present, but not an array *)
| DataArray (records : list Raw.OpenRouterModel).

(** A parsed JSON document: [null], or a value whose members can be
    read. *)
Inductive Document : Type :=
| DocNull
| DocValue (data : DataField).

Record Response : Type := {
  ok : bool;
  status : Z;
  statusText : string;
  json : Result Document;             (* [await response.json()] *)
}.

Record World : Type := {
  fetchApi : Result Response;         (* [await fetch(OPENROUTER_API_URL)] *)
  importSnapshot : Result Document;   (* [await import('../snapshots/latest.json')] *)
  transformClock : nat -> Timestamp;  (* clock readings of [transformModel] *)
  buildClock : Timestamp;             (* clock reading of [buildRegistry] *)
  loadClock : nat -> Timestamp;       (* clock readings when [fallback.ts] is loaded *)
}.

(** What [fetchFromOpenRouter] hands back under the type
    [OpenRouterModel[]]. *)
Inductive Payload : Type :=
| Records (records : list Raw.OpenRouterModel)
| NotAnArray.

(** ** Calls into the parser *)

(** [Parser] gives [transformModel], [transformModels] and [buildRegistry]
    by the value a call returns.  Here are the calls, which an exception
    can end in two places. *)

(** [transformModel(raw)]: for a truthy [raw.created],
    [new Date(raw.created * 1000).toISOString()] throws a [RangeError]
    when [raw.created * 1000] is not a time value a [Date] can hold.  (For
    a provider id that names a member of [Object.prototype] the call
    returns a model whose provider has an [id] only; [buildRegistry] throws
    on such a model.) *)
Definition transformModel (now : Timestamp) (raw : Raw.OpenRouterModel)
  : Result Model.LLMModel :=
  match Raw.created raw with
  | Some created =>
      if JS.truthy_int created && negb (JS.validTime (created * 1000))
      then Throw "RangeError: Invalid time value"
      else Ok (Parser.transformModel now raw)
  | None => Ok (Parser.transformModel now raw)
  end.

(** [rawModels.map(transformModel)]; [clock i] is the instant at which the
    [i]-th record is transformed. *)
Fixpoint mapTransform (clock : nat -> Timestamp)
    (rawModels : list Raw.OpenRouterModel) : Result (list Model.LLMModel) :=
  match rawModels with
  | [] => Ok []
  | raw :: rest =>
      let* model := transformModel (clock 0%nat) raw in
      let* models := mapTransform (λ i, clock (S i)) rest in
      Ok (model :: models)
  end.

(** [transformModels(rawModels)]: the first record on which
    [transformModel] throws ends the call; otherwise the models are
    sorted. *)
Definition transformModels (clock : nat -> Timestamp)
    (rawModels : list Raw.OpenRouterModel) : Result (list Model.LLMModel) :=
  let* models := mapTransform clock rawModels in
  Ok (JS.sort Parser.byContextDesc models).

(** One iteration of the loop of [buildRegistry].  The read
    [byProvider[providerId]] finds the bucket of the provider, nothing, or,
    when [providerId] names a member of [Object.prototype], that member: it
    is truthy, so no bucket is made, and it has no [push], so the call of
    [push] throws a [TypeError]. *)
Definition indexModel (ix : Parser.Indices) (model : Model.LLMModel)
  : Result Parser.Indices :=
  let providerId := Provider.id (Model.provider model) in
  match JS.read (Parser.ixByProvider ix) providerId with
  | JS.Inherited =>
      Throw "TypeError: byProvider[providerId].push is not a function"
  | JS.Own _ | JS.Absent => Ok (Parser.indexModel ix model)
  end.

(** [for (const model of models) { ... }] *)
Fixpoint indexModels (ix : Parser.Indices) (models : list Model.LLMModel)
  : Result Parser.Indices :=
  match models with
  | [] => Ok ix
  | model :: rest =>
      let* ix' := indexModel ix model in
      indexModels ix' rest
  end.

(** [buildRegistry(models, source)]: nothing throws before the loop; when
    the loop completes, the indices are those of [Parser.buildRegistry]. *)
Definition buildRegistry (now : Timestamp) (models : list Model.LLMModel)
    (source : option Source) : Result Registry.ModelRegistry :=
  let* _ := indexModels Parser.emptyIndices models in
  Ok (Parser.buildRegistry now models source).

(** ** API fetching *)

Definition fetchFromOpenRouter (w : World) : Result Payload :=
  let* response := fetchApi w in
  if negb (ok response) then Throw "OpenRouter API error"
  else
    let* data := json response in
    match data with
    | DocNull => Throw "TypeError: cannot read properties of null"
    | DocValue (DataArray records) => Ok (Records records)
    | DocValue (DataOther true) => Ok NotAnArray
    | DocValue (DataOther false) | DocValue DataAbsent => Ok (Records [])
    end.

Definition fetchRegistry (w : World) : Result Registry.ModelRegistry :=
  let* rawModels := fetchFromOpenRouter w in
  match rawModels with
  | Records records =>
      let* models := transformModels (transformClock w) records in
      buildRegistry (buildClock w) models (Some api)
  | NotAnArray => Throw "TypeError: rawModels.map is not a function"
  end.

(** ** Snapshot loading *)

Definition loadFromSnapshot (w : World) : Result (option Registry.ModelRegistry) :=
  try_catch
    (let* data := importSnapshot w in
     match data with
     | DocValue (DataArray rawModels) =>
         let* models := transformModels (transformClock w) rawModels in
         let* registry := buildRegistry (buildClock w) models (Some snapshot) in
         Ok (Some registry)
     | _ => Ok None
     end)
    (λ _, Ok None).

Definition getFallbackRegistry (w : World) : Result Registry.ModelRegistry :=
  buildRegistry (buildClock w)
    (Fallback.FALLBACK_MODELS (loadClock w)) (Some fallback).

(** ** Fetching with fallback *)

(** The console output of the [catch] blocks is not modelled. *)
Definition fetchRegistryWithFallback (w : World) : Result Registry.ModelRegistry :=
  match fetchRegistry w with
  | Ok registry => Ok registry
  | Throw apiError =>
      match loadFromSnapshot w with
      | Ok (Some snapshotRegistry) => Ok snapshotRegistry
      | Ok None | Throw _ => getFallbackRegistry w
      end
  end.

End Fetcher.

(* ===================================================================== *)
(** * Arrays in a store *)
(* ===================================================================== *)

(** [queryModels] copies, filters, sorts in place and slices arrays.  To
    tell a fresh array from a mutated one, arrays live in a store and are
    handled through references. *)

Module Store.

Definition ArrayRef : Type := nat.

Section Arrays.

Context {A : Type}.

Definition Heap : Type := list (list A).

Definition M (B : Type) : Type := Heap -> B * Heap.

Definition ret {B} (b : B) : M B := λ h, (b, h).

Definition bind {B C} (c : M B) (k : B -> M C) : M C :=
  λ h, let (b, h') := c h in k b h'.

Definition alloc (l : list A) : M ArrayRef := λ h, (length h, h ++ [l]).

Definition read (r : ArrayRef) : M (list A) := λ h, (default [] (h !! r), h).

Definition write (r : ArrayRef) (l : list A) : M unit :=
  λ h, (tt, <[r := l]> h).

(** [[...arr]] *)
Definition spread (arr : ArrayRef) : M ArrayRef :=
  bind (read arr) alloc.

(** [arr.filter(p)] *)
Definition filter (p : A -> bool) (arr : ArrayRef) : M ArrayRef :=
  bind (read arr) (λ l, alloc (List.filter p l)).

(** [arr.sort(cmp)]: sorts [arr] in place and returns it. *)
Definition sort (cmp : A -> A -> Z) (arr : ArrayRef) : M ArrayRef :=
  bind (read arr) (λ l, bind (write arr (JS.sort cmp l)) (λ _, ret arr)).

(** [arr.slice(0, end)] *)
Definition slice0 (arr : ArrayRef) (end_ : Z) : M ArrayRef :=
  bind (read arr) (λ l, alloc (JS.slice0 l end_)).

End Arrays.

Arguments Heap A : clear implicits.
Arguments M A B : clear implicits.

End Store.

(* ===================================================================== *)
(** * Lookup and query ([utils.ts]) *)
(* ===================================================================== *)

Module Utils.

(** ** Model lookup *)

(** [s.replace(/[-.\s]/g, '')] *)
Definition stripPunctuation (s : string) : string :=
  JS.filterChars
    (λ c, negb (Ascii.eqb c "-"%char || Ascii.eqb c "."%char || JS.isWhiteSpace c))
    s.

Definition matchesExactId (normalized : string) (m : Model.LLMModel) : bool :=
  String.eqb (JS.toLowerCase (Model.id m)) normalized.

Definition matchesExactSlug (normalized : string) (m : Model.LLMModel) : bool :=
  String.eqb (JS.toLowerCase (Model.slug m)) normalized.

Definition matchesPartialId (normalized : string) (m : Model.LLMModel) : bool :=
  JS.endsWith (JS.toLowerCase (Model.id m)) ("/" +:+ normalized).

Definition matchesName (normalized : string) (m : Model.LLMModel) : bool :=
  JS.includes (JS.toLowerCase (Model.name m)) normalized.

Definition matchesFuzzy (fuzzyQuery : string) (m : Model.LLMModel) : bool :=
  let fuzzyId := stripPunctuation (JS.toLowerCase (Model.id m)) in
  let fuzzySlug := stripPunctuation (JS.toLowerCase (Model.slug m)) in
  let fuzzyName := stripPunctuation (JS.toLowerCase (Model.name m)) in
  JS.includes fuzzyId fuzzyQuery ||
  JS.includes fuzzySlug fuzzyQuery ||
  JS.includes fuzzyName fuzzyQuery.

Definition findModel (query : string) (models : list Model.LLMModel)
  : option Model.LLMModel :=
  let normalized := JS.trim (JS.toLowerCase query) in
  match List.find (matchesExactId normalized) models with
  | Some exactId => Some exactId
  | None =>
  match List.find (matchesExactSlug normalized) models with
  | Some exactSlug => Some exactSlug
  | None =>
  match List.find (matchesPartialId normalized) models with
  | Some partialId => Some partialId
  | None =>
  match List.find (matchesName normalized) models with
  | Some nameContains => Some nameContains
  | None =>
      let fuzzyQuery := stripPunctuation normalized in
      List.find (matchesFuzzy fuzzyQuery) models
  end end end end.

Definition getContextLimit (modelId : string) (models : list Model.LLMModel)
  : option Z :=
  Model.contextLength <$> findModel modelId models.

(** ** Query *)

Section Query.

(** [a.localeCompare(b)]: the collation of the host's locale. *)
Variable localeCompare : string -> string -> Z.

(** [Array.isArray(x) ? x : [x]] *)
Definition toArray {A} (x : OneOrMany A) : list A :=
  match x with
  | One a => [a]
  | Many l => l
  end.

(** Truthiness of a [string | string[]]. *)
Definition truthy_strings (x : OneOrMany string) : bool :=
  match x with
  | One s => JS.truthy_string s
  | Many _ => true
  end.

Definition providerMatches (providers : list string) (m : Model.LLMModel)
  : bool :=
  existsb
    (λ p,
       String.eqb (JS.toLowerCase (Provider.id (Model.provider m)))
                  (JS.toLowerCase p) ||
       String.eqb (JS.toLowerCase (Provider.name (Model.provider m)))
                  (JS.toLowerCase p))
    providers.

Definition tierMatches (tiers : list ModelSizeTier) (m : Model.LLMModel)
  : bool :=
  existsb (λ t, Parser.tier_eqb t (Model.sizeTier m)) tiers.

Definition searchMatches (search : string) (m : Model.LLMModel) : bool :=
  JS.includes (JS.toLowerCase (Model.id m)) search ||
  JS.includes (JS.toLowerCase (Model.name m)) search ||
  JS.includes (JS.toLowerCase (Provider.name (Model.provider m))) search ||
  match Model.description m with
  | Some d => JS.includes (JS.toLowerCase d) search
  | None => false
  end.

(** The comparator handed to [results.sort]; [desc] is [true] when
    [options.sortOrder === 'desc'], which makes [order] be [-1]. *)
Definition compareBy (sortBy : SortKey) (desc_ : bool) (a b : Model.LLMModel)
  : Z :=
  let order : Z := if desc_ then -1 else 1 in
  match sortBy with
  | by_context => (Model.contextLength a - Model.contextLength b) * order
  | by_price =>
      JS.sign_of_float
        (PrimFloat.mul
           (PrimFloat.sub (Model.promptPerMillion (Model.pricing a))
                          (Model.promptPerMillion (Model.pricing b)))
           (if desc_ then (-1)%float else 1%float))
  | by_name => localeCompare (Model.name a) (Model.name b) * order
  | by_provider =>
      localeCompare (Provider.name (Model.provider a))
                    (Provider.name (Model.provider b)) * order
  end.

Definition isDesc (o : option SortOrder) : bool :=
  match o with
  | Some desc => true
  | _ => false
  end.

Notation "'let*' x ':=' c 'in' k" := (Store.bind c (λ x, k))
  (at level 10, x name, c at level 100, k at level 200, only parsing).

Definition queryModels (models : Store.ArrayRef)
    (options : Query.ModelQueryOptions)
  : Store.M Model.LLMModel Store.ArrayRef :=
  let* results := Store.spread models in
  (* Provider filter *)
  let* results :=
    match Query.provider options with
    | Some provider =>
        if truthy_strings provider
        then Store.filter (providerMatches (toArray provider)) results
        else Store.ret results
    | None => Store.ret results
    end in
  (* Context range filter *)
  let* results :=
    match Query.minContext options with
    | Some minContext =>
        Store.filter (λ m, minContext <=? Model.contextLength m) results
    | None => Store.ret results
    end in
  let* results :=
    match Query.maxContext options with
    | Some maxContext =>
        Store.filter (λ m, Model.contextLength m <=? maxContext) results
    | None => Store.ret results
    end in
  (* Tier filter *)
  let* results :=
    match Query.tier options with
    | Some tier => Store.filter (tierMatches (toArray tier)) results
    | None => Store.ret results
    end in
  (* Free filter *)
  let* results :=
    match Query.isFree options with
    | Some isFree =>
        Store.filter (λ m, Bool.eqb (Model.isFree (Model.pricing m)) isFree)
          results
    | None => Store.ret results
    end in
  (* Image support filter *)
  let* results :=
    match Query.supportsImages options with
    | Some supportsImages =>
        Store.filter
          (λ m, Bool.eqb (Model.supportsImages (Model.capabilities m))
                         supportsImages)
          results
    | None => Store.ret results
    end in
  (* Search filter *)
  let* results :=
    match Query.search options with
    | Some s =>
        if JS.truthy_string s
        then Store.filter (searchMatches (JS.toLowerCase s)) results
        else Store.ret results
    | None => Store.ret results
    end in
  (* Sorting *)
  let* results :=
    match Query.sortBy options with
    | Some sortBy =>
        Store.sort (compareBy sortBy (isDesc (Query.sortOrder options))) results
    | None => Store.ret results
    end in
  (* Limit *)
  let* results :=
    match Query.limit options with
    | Some limit =>
        if JS.truthy_int limit
        then Store.slice0 results limit
        else Store.ret results
    | None => Store.ret results
    end in
  Store.ret results.

(** The contents of the array [queryModels] returns, as a function of
    the contents of the array it is given: the same passes, on lists. *)
Definition queryResult (models : list Model.LLMModel)
    (options : Query.ModelQueryOptions) : list Model.LLMModel :=
  let results := models in
  let results :=
    match Query.provider options with
    | Some provider =>
        if truthy_strings provider
        then List.filter (providerMatches (toArray provider)) results
        else results
    | None => results
    end in
  let results :=
    match Query.minContext options with
    | Some minContext =>
        List.filter (λ m, minContext <=? Model.contextLength m) results
    | None => results
    end in
  let results :=
    match Query.maxContext options with
    | Some maxContext =>
        List.filter (λ m, Model.contextLength m <=? maxContext) results
    | None => results
    end in
  let results :=
    match Query.tier options with
    | Some tier => List.filter (tierMatches (toArray tier)) results
    | None => results
    end in
  let results :=
    match Query.isFree options with
    | Some isFree =>
        List.filter (λ m, Bool.eqb (Model.isFree (Model.pricing m)) isFree)
          results
    | None => results
    end in
  let results :=
    match Query.supportsImages options with
    | Some supportsImages =>
        List.filter
          (λ m, Bool.eqb (Model.supportsImages (Model.capabilities m))
                         supportsImages)
          results
    | None => results
    end in
  let results :=
    match Query.search options with
    | Some s =>
        if JS.truthy_string s
        then List.filter (searchMatches (JS.toLowerCase s)) results
        else results
    | None => results
    end in
  let results :=
    match Query.sortBy options with
    | Some sortBy =>
        JS.sort (compareBy sortBy (isDesc (Query.sortOrder options))) results
    | None => results
    end in
  match Query.limit options with
  | Some limit =>
      if JS.truthy_int limit then JS.slice0 results limit else results
  | None => results
  end.

(** ** Providers *)

(** The loop of [getProviders]: the identifiers seen so far and the
    providers pushed so far. *)
Definition collectProvider (acc : gset string * list Provider.ModelProvider)
    (model : Model.LLMModel) : gset string * list Provider.ModelProvider :=
  let '(seen, providers) := acc in
  let providerId := Provider.id (Model.provider model) in
  if bool_decide (providerId ∈ seen) then (seen, providers)
  else ({[providerId]} ∪ seen, providers ++ [Model.provider model]).

Definition getProviders (models : list Model.LLMModel)
  : list Provider.ModelProvider :=
  let '(_, providers) := foldl collectProvider (∅, []) models in
  JS.sort (λ a b, localeCompare (Provider.name a) (Provider.name b)) providers.

End Query.

End Utils.

(* ===================================================================== *)
(** * Client cache ([react.ts]) *)
(* ===================================================================== *)

Module Cache.

(** [now] is the instant read by [new Date()]; the registry is one built by
    [buildRegistry], whose [expiresAt] is the rendering of a valid date. *)
Definition isCacheFresh (now : Timestamp) (registry : Registry.ModelRegistry)
  : bool :=
  let expiresAt := Registry.expiresAt (Registry.metadata registry) in
  now <? expiresAt.

End Cache.

(* ===================================================================== *)
(** * Snapshot update script ([update-snapshot.mjs]) *)
(* ===================================================================== *)

Module SnapshotScript.

(** The [_meta] counts the script stores with the records. *)
Definition modelCount (data : list Raw.OpenRouterModel) : Z :=
  Z.of_nat (length data).

Definition providerCount (data : list Raw.OpenRouterModel) : Z :=
  let providers : gset (option string) :=
    list_to_set ((λ m, JS.split "/" (Raw.id m) !! 0%nat) <$> data) in
  Z.of_nat (size providers).

(** The context distribution the script prints. *)
Definition tiers (data : list Raw.OpenRouterModel) (tier : ModelSizeTier) : Z :=
  let count (p : Raw.OpenRouterModel -> bool) := Z.of_nat (length (List.filter p data)) in
  match tier with
  | massive => count (λ m, 500000 <=? Raw.context_length m)
  | large =>
      count (λ m, (128000 <=? Raw.context_length m) && (Raw.context_length m <? 500000))
  | medium =>
      count (λ m, (32000 <=? Raw.context_length m) && (Raw.context_length m <? 128000))
  | small =>
      count (λ m, (8000 <=? Raw.context_length m) && (Raw.context_length m <? 32000))
  | tiny => count (λ m, Raw.context_length m <? 8000)
  end.

End SnapshotScript.

(* ===================================================================== *)
(** * Sample records *)
(* ===================================================================== *)

Module Samples.

(** A raw record holding the required members only. *)
Definition rawRecord (id : string) (context_length : Z)
    (prompt completion : string) : Raw.OpenRouterModel :=
  {| Raw.id := id;
     Raw.canonical_slug := None;
     Raw.name := id;
     Raw.description := None;
     Raw.created := None;
     Raw.context_length := context_length;
     Raw.max_completion_tokens := None;
     Raw.hugging_face_id := None;
     Raw.architecture := None;
     Raw.pricing :=
       {| Raw.prompt := prompt;
          Raw.completion := completion;
          Raw.request := None;
          Raw.image := None;
          Raw.web_search := None;
          Raw.internal_reasoning := None;
          Raw.input_cache_read := None;
          Raw.input_cache_write := None |};
     Raw.top_provider := None;
     Raw.per_request_limits := JS.Undefined;
     Raw.supported_parameters := None;
     Raw.default_parameters := None |}.

(** The same record with an explicit [max_completion_tokens]. *)
Definition withMaxCompletionTokens (n : Z) (raw : Raw.OpenRouterModel)
  : Raw.OpenRouterModel :=
  {| Raw.id := Raw.id raw;
     Raw.canonical_slug := Raw.canonical_slug raw;
     Raw.name := Raw.name raw;
     Raw.description := Raw.description raw;
     Raw.created := Raw.created raw;
     Raw.context_length := Raw.context_length raw;
     Raw.max_completion_tokens := Some n;
     Raw.hugging_face_id := Raw.hugging_face_id raw;
     Raw.architecture := Raw.architecture raw;
     Raw.pricing := Raw.pricing raw;
     Raw.top_provider := Raw.top_provider raw;
     Raw.per_request_limits := Raw.per_request_limits raw;
     Raw.supported_parameters := Raw.supported_parameters raw;
     Raw.default_parameters := Raw.default_parameters raw |}.

(** A normalized model holding the required members only. *)
Definition model (id slug name : string) (contextLength : Z) : Model.LLMModel :=
  Fallback.entry (λ _, 0) 0 id slug name "openai" contextLength 4096
    (Parser.getSizeTier contextLength)
    (Fallback.createPricing 0 0)
    (Fallback.createCapabilities None None None None None)
    [] Fallback.emptyDefaults.

(** Query options with every member absent. *)
Definition noOptions : Query.ModelQueryOptions :=
  {| Query.provider := None;
     Query.minContext := None;
     Query.maxContext := None;
     Query.tier := None;
     Query.isFree := None;
     Query.supportsImages := None;
     Query.supportsTools := None;
     Query.supportsReasoning := None;
     Query.supportsStructuredOutput := None;
     Query.inputModality := None;
     Query.search := None;
     Query.sortBy := None;
     Query.sortOrder := None;
     Query.limit := None |}.

(** The options [{ limit }]. *)
Definition withLimit (limit : option Z) (o : Query.ModelQueryOptions)
  : Query.ModelQueryOptions :=
  {| Query.provider := Query.provider o;
     Query.minContext := Query.minContext o;
     Query.maxContext := Query.maxContext o;
     Query.tier := Query.tier o;
     Query.isFree := Query.isFree o;
     Query.supportsImages := Query.supportsImages o;
     Query.supportsTools := Query.supportsTools o;
     Query.supportsReasoning := Query.supportsReasoning o;
     Query.supportsStructuredOutput := Query.supportsStructuredOutput o;
     Query.inputModality := Query.inputModality o;
     Query.search := Query.search o;
     Query.sortBy := Query.sortBy o;
     Query.sortOrder := Query.sortOrder o;
     Query.limit := limit |}.

Definition gpt4o : Model.LLMModel :=
  model "openai/gpt-4o" "gpt-4o" "GPT-4o" 128000.

Definition gpt4oMini : Model.LLMModel :=
  model "openai/gpt-4o-mini" "gpt-4o-mini" "GPT-4o mini" 128000.

(** A world without network and without a bundled snapshot. *)
Definition offline : Fetcher.World :=
  {| Fetcher.fetchApi := Fetcher.Throw "TypeError: fetch failed";
     Fetcher.importSnapshot := Fetcher.Throw "Cannot find module";
     Fetcher.transformClock := λ _, 0;
     Fetcher.buildClock := 0;
     Fetcher.loadClock := λ _, 0 |}.

(** A world without network whose snapshot holds one record. *)
Definition snapshotOnly : Fetcher.World :=
  {| Fetcher.fetchApi := Fetcher.Throw "TypeError: fetch failed";
     Fetcher.importSnapshot :=
       Fetcher.Ok (Fetcher.DocValue (Fetcher.DataArray
         [rawRecord "anthropic/claude-3.5-sonnet" 200000 "0.000003" "0.000015"]));
     Fetcher.transformClock := λ _, 0;
     Fetcher.buildClock := 0;
     Fetcher.loadClock := λ _, 0 |}.

(** A world whose API answers with a success status and the given body. *)
Definition answering (body : Fetcher.DataField) (snapshot : Fetcher.Result Fetcher.Document)
  : Fetcher.World :=
  {| Fetcher.fetchApi :=
       Fetcher.Ok {| Fetcher.ok := true;
                     Fetcher.status := 200;
                     Fetcher.statusText := "OK";
                     Fetcher.json := Fetcher.Ok (Fetcher.DocValue body) |};
     Fetcher.importSnapshot := snapshot;
     Fetcher.transformClock := λ _, 0;
     Fetcher.buildClock := 0;
     Fetcher.loadClock := λ _, 0 |}.

(** A world whose API and whose snapshot hold a record with an identifier
    that starts with the name of a member of [Object.prototype]. *)
Definition prototypeNamed : Fetcher.World :=
  answering (Fetcher.DataArray [rawRecord "constructor/x" 4096 "0" "0"])
    (Fetcher.Ok (Fetcher.DocValue
       (Fetcher.DataArray [rawRecord "constructor/x" 4096 "0" "0"]))).

(** A world without network whose snapshot holds an empty array. *)
Definition emptySnapshot : Fetcher.World :=
  {| Fetcher.fetchApi := Fetcher.Throw "TypeError: fetch failed";
     Fetcher.importSnapshot :=
       Fetcher.Ok (Fetcher.DocValue (Fetcher.DataArray []));
     Fetcher.transformClock := λ _, 0;
     Fetcher.buildClock := 0;
     Fetcher.loadClock := λ _, 0 |}.

(** Query options with the members [queryModels] reads. *)
Definition options (provider : option (OneOrMany string))
    (minContext maxContext : option Z) (tier : option (OneOrMany ModelSizeTier))
    (isFree supportsImages : option bool) (search : option string)
    (sortBy : option SortKey) (sortOrder : option SortOrder) (limit : option Z)
  : Query.ModelQueryOptions :=
  {| Query.provider := provider;
     Query.minContext := minContext;
     Query.maxContext := maxContext;
     Query.tier := tier;
     Query.isFree := isFree;
     Query.supportsImages := supportsImages;
     Query.supportsTools := None;
     Query.supportsReasoning := None;
     Query.supportsStructuredOutput := None;
     Query.inputModality := None;
     Query.search := search;
     Query.sortBy := sortBy;
     Query.sortOrder := sortOrder;
     Query.limit := limit |}.

Definition claude : Model.LLMModel :=
  Fallback.entry (λ _, 0) 0 "anthropic/claude-3.5-sonnet" "claude-3.5-sonnet"
    "Claude 3.5 Sonnet" "anthropic" 200000 8192 large
    (Fallback.createPricing 3 15)
    (Fallback.createCapabilities (Some true) None None None None)
    [] Fallback.emptyDefaults.

(** A record whose pricing holds a request cost of "0" and a reasoning
    price. *)
Definition metered : Raw.OpenRouterModel :=
  {| Raw.id := "openai/o1";
     Raw.canonical_slug := None;
     Raw.name := "o1";
     Raw.description := None;
     Raw.created := None;
     Raw.context_length := 200000;
     Raw.max_completion_tokens := None;
     Raw.hugging_face_id := None;
     Raw.architecture := None;
     Raw.pricing :=
       {| Raw.prompt := "0.000015";
          Raw.completion := "0.00006";
          Raw.request := Some "0";
          Raw.image := None;
          Raw.web_search := None;
          Raw.internal_reasoning := Some "0.00006";
          Raw.input_cache_read := None;
          Raw.input_cache_write := None |};
     Raw.top_provider := None;
     Raw.per_request_limits := JS.Undefined;
     Raw.supported_parameters := None;
     Raw.default_parameters := None |}.

End Samples.

(* ===================================================================== *)
(** * Vocabulary of the specification *)
(* ===================================================================== *)

(** ** Parser *)

(** A count the [||] chain skips: absent, or present and zero. *)
Definition skipped (count : option Z) : Prop :=
  count = None \/ count = Some 0.

(** The per-token value the parser works with: [parseFloat(field) || 0]. *)
Definition perToken (field : string) : float :=
  JS.or_zero (JS.parseFloat field).

(** A double that is a number other than zero. *)
Definition nonzero_number (x : float) : Prop :=
  PrimFloat.is_nan x = false /\ PrimFloat.eqb x 0%float = false.

(** Largest context first. *)
Definition contextDescending (l : list Model.LLMModel) : Prop :=
  StronglySorted (λ a b, Model.contextLength a >= Model.contextLength b) l.

(** The models of [l] whose context length is [c], in the order of [l]. *)
Definition withContext (c : Z) (l : list Model.LLMModel) : list Model.LLMModel :=
  filter (λ m, Model.contextLength m = c) l.

(** ** Registry *)

Global Instance ModelSizeTier_eq_dec : EqDecision ModelSizeTier.
Proof. solve_decision. Defined.

(** The models of [l] of provider [p], in the order of [l]. *)
Definition ofProvider (p : string) (l : list Model.LLMModel) : list Model.LLMModel :=
  filter (λ m, Provider.id (Model.provider m) = p) l.

(** The models of [l] of tier [t], in the order of [l]. *)
Definition ofTier (t : ModelSizeTier) (l : list Model.LLMModel) : list Model.LLMModel :=
  filter (λ m, Model.sizeTier m = t) l.

(** A provider bucket exists only when it holds a model. *)
Definition bucket (l : list Model.LLMModel) : option (list Model.LLMModel) :=
  match l with
  | [] => None
  | _ => Some l
  end.

(** A registry whose metadata and indices agree with its model list. *)
Record wellFormed (r : Registry.ModelRegistry) : Prop := {
  wf_version :
    Registry.version (Registry.metadata r) = Parser.REGISTRY_VERSION;
  wf_expiry :
    Registry.expiresAt (Registry.metadata r)
    = Registry.fetchedAt (Registry.metadata r) + 24 * 60 * 60 * 1000;
  wf_modelCount :
    Registry.modelCount (Registry.metadata r)
    = Z.of_nat (length (Registry.models r));
  wf_providerCount :
    Registry.providerCount (Registry.metadata r)
    = Z.of_nat (size (dom (Registry.byProvider r)));
  wf_byId_sound :
    forall k m, Registry.byId r !! k = Some m ->
                m ∈ Registry.models r /\ Model.id m = k;
  wf_byId_complete :
    forall m, m ∈ Registry.models r ->
              is_Some (Registry.byId r !! Model.id m);
  wf_byProvider :
    forall p, Registry.byProvider r !! p = bucket (ofProvider p (Registry.models r));
  wf_byTier :
    forall t, Registry.byTier r t = ofTier t (Registry.models r);
}.

(** ** Store *)

Section Runs.

Context {A : Type}.
Implicit Types (h : Store.Heap A) (l : list A) (r : Store.ArrayRef).

(** After a run from [h0]: the store still begins with [h0], and the
    result is an array allocated after [h0] that holds [l]. *)
Definition yields h0 l (res : Store.ArrayRef * Store.Heap A) : Prop :=
  exists ext,
    res.2 = h0 ++ ext /\ (length h0 <= res.1)%nat /\ res.2 !! res.1 = Some l.

(** A pass from array to array that computes [g] on the contents. *)
Definition computes h0 (c : Store.ArrayRef -> Store.M A Store.ArrayRef)
    (g : list A -> list A) : Prop :=
  forall r h l, yields h0 l (r, h) -> yields h0 (g l) (c r h).

End Runs.

(** The contents of the array a run returns. *)
Definition returned {A} (res : Store.ArrayRef * Store.Heap A) : option (list A) :=
  res.2 !! res.1.

(** [m] passes every filter that [options] sets. *)
Definition passesFilters (options : Query.ModelQueryOptions) (m : Model.LLMModel)
  : bool :=
  match Query.provider options with
  | Some provider =>
      if Utils.truthy_strings provider
      then Utils.providerMatches (Utils.toArray provider) m
      else true
  | None => true
  end &&
  match Query.minContext options with
  | Some minContext => minContext <=? Model.contextLength m
  | None => true
  end &&
  match Query.maxContext options with
  | Some maxContext => Model.contextLength m <=? maxContext
  | None => true
  end &&
  match Query.tier options with
  | Some tier => Utils.tierMatches (Utils.toArray tier) m
  | None => true
  end &&
  match Query.isFree options with
  | Some isFree => Bool.eqb (Model.isFree (Model.pricing m)) isFree
  | None => true
  end &&
  match Query.supportsImages options with
  | Some supportsImages =>
      Bool.eqb (Model.supportsImages (Model.capabilities m)) supportsImages
  | None => true
  end &&
  match Query.search options with
  | Some s =>
      if JS.truthy_string s
      then Utils.searchMatches (JS.toLowerCase s) m
      else true
  | None => true
  end.

(** ** Lookup *)

(** [m] is the first element of [l], in list order, that satisfies [p]. *)
Definition firstMatch {A} (p : A -> bool) (l : list A) (m : A) : Prop :=
  exists before after,
    l = before ++ m :: after /\ p m = true /\ Forall (λ x, p x = false) before.

(** No element of [l] satisfies [p]. *)
Definition noMatch {A} (p : A -> bool) (l : list A) : Prop :=
  Forall (λ x, p x = false) l.

(** ** Further vocabulary *)

(** The order of the tiers. *)
Definition tierRank (t : ModelSizeTier) : Z :=
  match t with
  | tiny => 0
  | small => 1
  | medium => 2
  | large => 3
  | massive => 4
  end.

(** The modality names the parser lets through. *)
Definition inputVocabulary : list string :=
  ["text"; "image"; "audio"; "video"; "file"].

Definition outputVocabulary : list string := ["text"; "image"; "audio"].

(** The own properties of the identifier index, as [Object.keys(byId)]
    lists them: a write under "__proto__" installs the model as prototype
    and adds no property. *)
Definition ownKeys (byId : gmap string Model.LLMModel) : gset string :=
  dom byId ∖ {["__proto__"]}.

(** The record makes [transformModel] throw: its [created] is truthy and
    beyond the range of [Date]. *)
Definition createdOutOfRange (raw : Raw.OpenRouterModel) : bool :=
  match Raw.created raw with
  | Some created => JS.truthy_int created && negb (JS.validTime (created * 1000))
  | None => false
  end.

(** The provider id of the model names a member of [Object.prototype]. *)
Definition inheritedProvider (m : Model.LLMModel) : bool :=
  JS.inherited (Provider.id (Model.provider m)).

(** The records make the parser throw: one has a [created] out of range,
    or the part of an identifier before the first "/" names a member of
    [Object.prototype]. *)
Definition rejects (records : list Raw.OpenRouterModel) : bool :=
  existsb createdOutOfRange records ||
  existsb (λ raw, JS.inherited (Parser.parseProviderId (Raw.id raw))) records.

(** The API stage fails: the request is rejected, the status is not a
    success, the body is not JSON, is [null], holds under [data]
    something truthy that is not an array, or holds records that make the
    parser throw. *)
Definition apiFails (w : Fetcher.World) : Prop :=
  match Fetcher.fetchApi w with
  | Fetcher.Throw _ => True
  | Fetcher.Ok response =>
      Fetcher.ok response = false \/
      match Fetcher.json response with
      | Fetcher.Throw _ => True
      | Fetcher.Ok Fetcher.DocNull => True
      | Fetcher.Ok (Fetcher.DocValue (Fetcher.DataOther true)) => True
      | Fetcher.Ok (Fetcher.DocValue (Fetcher.DataArray records)) =>
          rejects records = true
      | Fetcher.Ok (Fetcher.DocValue _) => False
      end
  end.

(** Every character of [s] is white space. *)
Fixpoint allWhiteSpace (s : string) : bool :=
  match s with
  | EmptyString => true
  | String c s' => JS.isWhiteSpace c && allWhiteSpace s'
  end.

(** [m] matches the query in one of the five passes of [findModel]. *)
Definition matchesSomePass (query : string) (m : Model.LLMModel) : bool :=
  let normalized := JS.trim (JS.toLowerCase query) in
  Utils.matchesExactId normalized m ||
  Utils.matchesExactSlug normalized m ||
  Utils.matchesPartialId normalized m ||
  Utils.matchesName normalized m ||
  Utils.matchesFuzzy (Utils.stripPunctuation normalized) m.

(** Ascending context lengths. *)
Definition contextAscending (l : list Model.LLMModel) : Prop :=
  StronglySorted (λ a b, Model.contextLength a <= Model.contextLength b) l.

(* ===================================================================== *)
(** * Properties of the parser *)
(* ===================================================================== *)

Section SizeTier.

Lemma sizeTier_transformModel now raw :
  Model.sizeTier (Parser.transformModel now raw)
  = Parser.getSizeTier (Raw.context_length raw).
Proof. reflexivity. Qed.

(** The five bins are half-open: each lower bound belongs to its bin. *)
Lemma getSizeTier_bins n :
  Parser.getSizeTier n =
    if decide (n < 8000) then tiny
    else if decide (n < 32000) then small
    else if decide (n < 128000) then medium
    else if decide (n < 500000) then large
    else massive.
Proof.
  unfold Parser.getSizeTier.
  repeat (case_decide; [rewrite (proj2 (Z.ltb_lt _ _)) by done; done|
                        rewrite (proj2 (Z.ltb_ge _ _)) by lia]).
  done.
Qed.

End SizeTier.

(** C1 (as the code has it): a raw record with [context_length] exactly
    128000 is normalized to size tier [large] (128000 is the inclusive lower
    bound of [large], the exclusive upper bound of [medium]); one with
    [context_length] exactly 500000 is normalized to [massive]. *)
Theorem transformModel_sizeTier_boundaries (now : Timestamp) (raw : Raw.OpenRouterModel) :
  (Raw.context_length raw = 128000 ->
   Model.sizeTier (Parser.transformModel now raw) = large) /\
  (Raw.context_length raw = 500000 ->
   Model.sizeTier (Parser.transformModel now raw) = massive).
Proof.
  rewrite sizeTier_transformModel.
  split; intros ->; reflexivity.
Qed.

Lemma transformModel_sizeTier_boundaries_witness :
  Model.sizeTier
    (Parser.transformModel 0 (Samples.rawRecord "openai/gpt-4o" 128000 "0" "0"))
  = large /\
  Model.sizeTier
    (Parser.transformModel 0 (Samples.rawRecord "google/gemini" 500000 "0" "0"))
  = massive.
Proof.
  split.
  - apply (proj1 (transformModel_sizeTier_boundaries 0
                    (Samples.rawRecord "openai/gpt-4o" 128000 "0" "0"))).
    reflexivity.
  - apply (proj2 (transformModel_sizeTier_boundaries 0
                    (Samples.rawRecord "google/gemini" 500000 "0" "0"))).
    reflexivity.
Defined.

(** The hand-written tiers of the fallback table are not those
    [getSizeTier] computes: its entries of context length 128000 and 131072
    are labelled [medium]. *)
Remark FALLBACK_MODELS_tiers clock :
  filter (λ m, Model.sizeTier m <> Parser.getSizeTier (Model.contextLength m))
         (Fallback.FALLBACK_MODELS clock)
  = filter (λ m, Model.contextLength m = 128000 \/ Model.contextLength m = 131072)
           (Fallback.FALLBACK_MODELS clock) /\
  Forall (λ m, Model.sizeTier m = medium)
         (filter (λ m, Model.contextLength m = 128000 \/ Model.contextLength m = 131072)
                 (Fallback.FALLBACK_MODELS clock)).
Proof. split; [reflexivity | repeat constructor]. Qed.

(** C1 as stated fails: a record with [context_length] 128000 is not
    normalized to [medium]. *)
Lemma sizeTier_128000_not_medium :
  ~ (forall now raw,
        Raw.context_length raw = 128000 ->
        Model.sizeTier (Parser.transformModel now raw) = medium).
Proof.
  intros H.
  specialize (H 0 (Samples.rawRecord "openai/gpt-4o" 128000 "0" "0") eq_refl).
  discriminate H.
Qed.

(** ** Splitting identifiers *)

Section Split.

Variable sep : ascii.

Let sepString : string := String sep EmptyString.

Lemma split_nonempty s : JS.split sep s <> [].
Proof.
  destruct s as [|c s]; simpl; [done|].
  destruct (Ascii.eqb c sep); [done|].
  destruct (JS.split sep s); done.
Qed.

Lemma includes_sep_cons c s :
  JS.includes (String c s) sepString = Ascii.eqb c sep || JS.includes s sepString.
Proof.
  simpl. replace (JS.startsWith s EmptyString) with true by (by destruct s).
  by rewrite andb_true_r, Ascii.eqb_sym.
Qed.

(** Without a separator the string is its only part. *)
Lemma split_without_sep s :
  JS.includes s sepString = false -> JS.split sep s = [s].
Proof.
  induction s as [|c s IH]; [done|].
  rewrite includes_sep_cons. intros [Hc Hs]%orb_false_iff.
  simpl. rewrite Hc, (IH Hs). done.
Qed.

(** The first part is what precedes the first separator. *)
Lemma split_at_first_sep pre rest :
  JS.includes pre sepString = false ->
  JS.split sep (pre +:+ String sep rest) = pre :: JS.split sep rest.
Proof.
  induction pre as [|c pre IH].
  - intros _. simpl. by rewrite Ascii.eqb_refl.
  - rewrite includes_sep_cons. intros [Hc Hs]%orb_false_iff.
    change (String c pre +:+ String sep rest)
      with (String c (pre +:+ String sep rest)).
    simpl. rewrite Hc, (IH Hs). done.
Qed.

(** Joining the parts gives the string back. *)
Lemma join_split s : JS.join sepString (JS.split sep s) = s.
Proof.
  induction s as [|c s IH]; [done|].
  simpl. destruct (Ascii.eqb_spec c sep) as [->|Hne].
  - pose proof (split_nonempty s) as Hs.
    destruct (JS.split sep s) as [|p ps]; [done|].
    change (JS.join sepString (EmptyString :: p :: ps))
      with (String sep (JS.join sepString (p :: ps))).
    by rewrite IH.
  - pose proof (split_nonempty s) as Hs.
    destruct (JS.split sep s) as [|p ps]; [done|].
    destruct ps as [|q qs].
    + simpl in *. by rewrite IH.
    + change (JS.join sepString (String c p :: q :: qs))
        with (String c (JS.join sepString (p :: q :: qs))).
      by rewrite IH.
Qed.

End Split.

Lemma providerId_getProviderInfo providerId :
  Provider.id (Parser.getProviderInfo providerId) = providerId.
Proof.
  unfold Parser.getProviderInfo.
  destruct (Provider.KNOWN_PROVIDERS !! providerId) as [[[? ?] ?]|]; reflexivity.
Qed.

Lemma providerId_transformModel now raw :
  Provider.id (Model.provider (Parser.transformModel now raw))
  = Parser.parseProviderId (Raw.id raw).
Proof. apply providerId_getProviderInfo. Qed.

Lemma parseProviderId_without_slash modelId :
  JS.includes modelId "/" = false ->
  Parser.parseProviderId modelId
  = if decide (modelId = EmptyString) then "unknown" else modelId.
Proof.
  intros H. unfold Parser.parseProviderId.
  rewrite (split_without_sep "/" _ H). simpl.
  destruct modelId; done.
Qed.

Lemma parseModelSlug_without_slash modelId :
  JS.includes modelId "/" = false -> Parser.parseModelSlug modelId = modelId.
Proof.
  intros H. unfold Parser.parseModelSlug.
  rewrite (split_without_sep "/" _ H). done.
Qed.

Lemma parseProviderId_with_slash pre rest :
  JS.includes pre "/" = false ->
  Parser.parseProviderId (pre +:+ String "/" rest)
  = if decide (pre = EmptyString) then "unknown" else pre.
Proof.
  intros H. unfold Parser.parseProviderId.
  rewrite (split_at_first_sep "/" _ _ H). simpl.
  destruct pre; done.
Qed.

Lemma parseModelSlug_with_slash pre rest :
  JS.includes pre "/" = false ->
  Parser.parseModelSlug (pre +:+ String "/" rest)
  = if decide (rest = EmptyString) then pre +:+ String "/" rest else rest.
Proof.
  intros H. unfold Parser.parseModelSlug.
  rewrite (split_at_first_sep "/" _ _ H).
  change (drop 1 (pre :: JS.split "/" rest)) with (JS.split "/" rest).
  rewrite (join_split "/" rest). simpl.
  destruct rest; done.
Qed.

(** C3 (as the code has it): the provider id of a normalized model is the
    part of the raw identifier before its first "/" when that part is not
    empty, and "unknown" when it is empty; the slug is the part after the
    first "/" when that part is not empty, and the whole identifier
    otherwise.  An identifier without "/" is its own first part: the
    provider id is then the whole identifier ("unknown" only for the empty
    identifier) and the slug is the whole identifier. *)
Theorem transformModel_identifier_split (now : Timestamp) (raw : Raw.OpenRouterModel) :
  let m := Parser.transformModel now raw in
  (JS.includes (Raw.id raw) "/" = false ->
   Provider.id (Model.provider m)
     = (if decide (Raw.id raw = EmptyString) then "unknown" else Raw.id raw) /\
   Model.slug m = Raw.id raw) /\
  (forall pre rest,
     JS.includes pre "/" = false ->
     Raw.id raw = pre +:+ String "/" rest ->
     Provider.id (Model.provider m)
       = (if decide (pre = EmptyString) then "unknown" else pre) /\
     Model.slug m
       = (if decide (rest = EmptyString) then Raw.id raw else rest)).
Proof.
  intros m. subst m. rewrite providerId_transformModel.
  change (Model.slug (Parser.transformModel now raw))
    with (Parser.parseModelSlug (Raw.id raw)).
  split.
  - intros H. split.
    + by apply parseProviderId_without_slash.
    + by apply parseModelSlug_without_slash.
  - intros pre rest Hpre ->. split.
    + by apply parseProviderId_with_slash.
    + by apply parseModelSlug_with_slash.
Qed.

Lemma transformModel_identifier_split_witness :
  let m := Parser.transformModel 0
             (Samples.rawRecord "anthropic/claude-3.5-sonnet" 200000 "0" "0") in
  Provider.id (Model.provider m) = "anthropic" /\
  Model.slug m = "claude-3.5-sonnet".
Proof.
  exact (proj2 (transformModel_identifier_split 0
                  (Samples.rawRecord "anthropic/claude-3.5-sonnet" 200000 "0" "0"))
               "anthropic" "claude-3.5-sonnet" eq_refl eq_refl).
Defined.

(** C3 as stated fails: an identifier without "/" does not get the
    provider id "unknown". *)
Lemma providerId_without_slash_not_unknown :
  ~ (forall now raw,
        JS.includes (Raw.id raw) "/" = false ->
        Provider.id (Model.provider (Parser.transformModel now raw)) = "unknown" /\
        Model.slug (Parser.transformModel now raw) = Raw.id raw).
Proof.
  intros H.
  destruct (H 0 (Samples.rawRecord "gpt4" 8192 "0" "0") eq_refl) as [Hp _].
  vm_compute in Hp. discriminate Hp.
Qed.

(** ** Max completion tokens *)

Lemma or_int_kept n b : n <> 0 -> JS.or_int (Some n) b = Some n.
Proof.
  intros Hn. unfold JS.or_int, JS.truthy_int.
  by rewrite (proj2 (Z.eqb_neq n 0) Hn).
Qed.

Lemma or_int_skipped a b : skipped a -> JS.or_int a b = b.
Proof. by intros [-> | ->]. Qed.

Lemma or_else_int_kept n b : n <> 0 -> JS.or_else_int (Some n) b = n.
Proof.
  intros Hn. unfold JS.or_else_int, JS.truthy_int.
  by rewrite (proj2 (Z.eqb_neq n 0) Hn).
Qed.

Lemma or_else_int_skipped a b : skipped a -> JS.or_else_int a b = b.
Proof. by intros [-> | ->]. Qed.

(** C5 (as the code has it): [maxCompletionTokens] is the record's explicit
    [max_completion_tokens] when that is present and not zero; otherwise the
    [top_provider] override's [max_completion_tokens] when that is present
    and not zero; otherwise [min(context_length, 4096)]. *)
Theorem transformModel_maxCompletionTokens (now : Timestamp) (raw : Raw.OpenRouterModel) :
  let explicit := Raw.max_completion_tokens raw in
  let override := Raw.top_provider raw ≫= Raw.tp_max_completion_tokens in
  let result := Model.maxCompletionTokens (Parser.transformModel now raw) in
  (forall n, explicit = Some n -> n <> 0 -> result = n) /\
  (forall n, skipped explicit -> override = Some n -> n <> 0 -> result = n) /\
  (skipped explicit -> skipped override ->
   result = Z.min (Raw.context_length raw) 4096).
Proof.
  intros explicit override result. subst result. simpl.
  fold explicit. fold override.
  split; [|split].
  - intros n -> Hn. rewrite or_int_kept by done. by apply or_else_int_kept.
  - intros n He -> Hn. rewrite or_int_skipped by done. by apply or_else_int_kept.
  - intros He Ho. rewrite or_int_skipped by done. by apply or_else_int_skipped.
Qed.

Lemma transformModel_maxCompletionTokens_witness :
  Model.maxCompletionTokens
    (Parser.transformModel 0
       (Samples.withMaxCompletionTokens 16384
          (Samples.rawRecord "openai/gpt-4o" 128000 "0" "0")))
  = 16384.
Proof.
  apply (proj1 (transformModel_maxCompletionTokens 0
                  (Samples.withMaxCompletionTokens 16384
                     (Samples.rawRecord "openai/gpt-4o" 128000 "0" "0")))
               16384); [reflexivity | lia].
Defined.

(** C5 as stated fails: an explicit [max_completion_tokens] of zero is
    present but is not the normalized value. *)
Lemma explicit_zero_maxCompletionTokens_not_kept :
  ~ (forall now raw n,
        Raw.max_completion_tokens raw = Some n ->
        Model.maxCompletionTokens (Parser.transformModel now raw) = n).
Proof.
  intros H.
  specialize (H 0 (Samples.withMaxCompletionTokens 0
                     (Samples.rawRecord "openai/gpt-4o" 128000 "0" "0"))
                0 eq_refl).
  vm_compute in H. discriminate H.
Qed.

(** ** Pricing *)

Lemma or_zero_nonzero x : nonzero_number x -> JS.or_zero x = x.
Proof.
  intros [Hnan Hz]. unfold JS.or_zero, JS.truthy_float. by rewrite Hnan, Hz.
Qed.

(** For a field that parses to a number, [|| 0] changes at most the sign of
    a zero. *)
Lemma or_zero_eqb_zero x :
  PrimFloat.is_nan x = false ->
  PrimFloat.eqb (JS.or_zero x) 0%float = PrimFloat.eqb x 0%float.
Proof.
  intros Hnan. unfold JS.or_zero, JS.truthy_float. rewrite Hnan.
  destruct (PrimFloat.eqb x 0%float) eqn:Hz; simpl; [reflexivity | exact Hz].
Qed.

Lemma isFree_parsePricing pricing :
  Model.isFree (Parser.parsePricing pricing)
  = PrimFloat.eqb (perToken (Raw.prompt pricing)) 0%float &&
    PrimFloat.eqb (perToken (Raw.completion pricing)) 0%float.
Proof. reflexivity. Qed.

(** C4: the normalized pricing has [isFree = true] exactly when both
    per-token values, [parseFloat(prompt) || 0] and
    [parseFloat(completion) || 0], equal zero, which for fields that parse
    to numbers is when both [parseFloat] results equal zero; so prompt "0"
    with completion "0" is free, and a prompt or completion that parses to
    a number other than zero is not; [promptPerMillion] and
    [completionPerMillion] are the per-token values multiplied by
    1,000,000. *)
Theorem transformModel_pricing (now : Timestamp) (raw : Raw.OpenRouterModel) :
  let pricing := Model.pricing (Parser.transformModel now raw) in
  let prompt := Raw.prompt (Raw.pricing raw) in
  let completion := Raw.completion (Raw.pricing raw) in
  (Model.isFree pricing = true <->
     PrimFloat.eqb (perToken prompt) 0%float = true /\
     PrimFloat.eqb (perToken completion) 0%float = true) /\
  (PrimFloat.is_nan (JS.parseFloat prompt) = false ->
   PrimFloat.is_nan (JS.parseFloat completion) = false ->
   (Model.isFree pricing = true <->
      PrimFloat.eqb (JS.parseFloat prompt) 0%float = true /\
      PrimFloat.eqb (JS.parseFloat completion) 0%float = true)) /\
  (prompt = "0" -> completion = "0" -> Model.isFree pricing = true) /\
  (nonzero_number (JS.parseFloat prompt) \/
   nonzero_number (JS.parseFloat completion) ->
   Model.isFree pricing = false) /\
  Model.promptPerMillion pricing
    = PrimFloat.mul (perToken prompt) 1000000%float /\
  Model.completionPerMillion pricing
    = PrimFloat.mul (perToken completion) 1000000%float.
Proof.
  intros pricing prompt completion. subst pricing.
  change (Model.pricing (Parser.transformModel now raw))
    with (Parser.parsePricing (Raw.pricing raw)).
  rewrite isFree_parsePricing. fold prompt. fold completion.
  split; [|split; [|split; [|split; [|split]]]].
  - apply andb_true_iff.
  - intros Hp Hc. unfold perToken.
    rewrite (or_zero_eqb_zero _ Hp), (or_zero_eqb_zero _ Hc).
    apply andb_true_iff.
  - intros -> ->. reflexivity.
  - intros [H | H].
    + unfold perToken at 1. rewrite (or_zero_nonzero _ H).
      destruct H as [_ ->]. reflexivity.
    + unfold perToken at 2. rewrite (or_zero_nonzero _ H).
      destruct H as [_ ->]. apply andb_false_r.
  - reflexivity.
  - reflexivity.
Qed.

Lemma transformModel_pricing_witness :
  Model.isFree
    (Model.pricing
       (Parser.transformModel 0 (Samples.rawRecord "google/gemini" 500000 "0" "0")))
  = true /\
  Model.isFree
    (Model.pricing
       (Parser.transformModel 0
          (Samples.rawRecord "anthropic/claude-3.5-sonnet" 200000
             "0.000003" "0.000015")))
  = false.
Proof.
  split.
  - apply (proj1 (proj2 (proj2 (transformModel_pricing 0
                           (Samples.rawRecord "google/gemini" 500000 "0" "0")))));
      reflexivity.
  - apply (proj1 (proj2 (proj2 (proj2 (transformModel_pricing 0
                                  (Samples.rawRecord "anthropic/claude-3.5-sonnet"
                                     200000 "0.000003" "0.000015")))))).
    left. split; vm_compute; reflexivity.
Defined.

(** The sample of the specification: 3 and 15 per million, not free. *)
Example parsePricing_sample :
  let pricing :=
    Model.pricing
      (Parser.transformModel 0
         (Samples.rawRecord "anthropic/claude-3.5-sonnet" 200000
            "0.000003" "0.000015")) in
  Model.promptPerMillion pricing = 3%float /\
  Model.completionPerMillion pricing = 15%float /\
  Model.isFree pricing = false.
Proof. vm_compute. repeat split. Qed.

(** What counts as zero is the double the field parses to: a decimal
    below the range of doubles is zero, an unparsable field is zero, and
    "-1" is not. *)
Example perToken_edges :
  perToken "1e-400" = 0%float /\
  perToken "free" = 0%float /\
  perToken "-0" = 0%float /\
  perToken "-1" = (-1)%float.
Proof. vm_compute. repeat split. Qed.

(** ** Sorting *)

Section Sort.

Context {A : Type} (cmp : A -> A -> Z).

Lemma sort_insert_perm x l : JS.sort_insert cmp x l ≡ₚ x :: l.
Proof.
  induction l as [|y l IH]; simpl; [done|].
  destruct (cmp x y <=? 0); [done|].
  rewrite IH. apply Permutation_swap.
Qed.

Lemma sort_perm l : JS.sort cmp l ≡ₚ l.
Proof.
  induction l as [|x l IH]; simpl; [done|].
  by rewrite sort_insert_perm, IH.
Qed.

Lemma length_sort l : length (JS.sort cmp l) = length l.
Proof. by rewrite sort_perm. Qed.

End Sort.

Section SortByContext.

Lemma sort_insert_contextDescending x l :
  contextDescending l ->
  contextDescending (JS.sort_insert Parser.byContextDesc x l).
Proof.
  unfold contextDescending.
  induction l as [|y l IH]; simpl.
  - intros _. by repeat constructor.
  - intros [Hy Hl]%StronglySorted_cons.
    unfold Parser.byContextDesc at 1.
    destruct (Z.leb_spec (Model.contextLength y - Model.contextLength x) 0).
    + apply StronglySorted_cons. split.
      * constructor; [lia|].
        eapply Forall_impl; [exact Hy|]. simpl. intros; lia.
      * by apply StronglySorted_cons.
    + apply StronglySorted_cons. split; [|by apply IH].
      rewrite sort_insert_perm. constructor; [lia | done].
Qed.

Lemma sort_contextDescending l :
  contextDescending (JS.sort Parser.byContextDesc l).
Proof.
  induction l as [|x l IH]; simpl.
  - constructor.
  - by apply sort_insert_contextDescending.
Qed.

(** Insertion never moves a model past another of the same context
    length. *)
Lemma withContext_sort_insert c x l :
  withContext c (JS.sort_insert Parser.byContextDesc x l)
  = withContext c (x :: l).
Proof.
  unfold withContext.
  induction l as [|y l IH]; simpl; [done|].
  unfold Parser.byContextDesc at 1.
  destruct (Z.leb_spec (Model.contextLength y - Model.contextLength x) 0);
    [done|].
  rewrite (filter_cons _ y), IH, !(filter_cons _ x), (filter_cons _ y).
  repeat case_decide; try done; lia.
Qed.

Lemma withContext_sort c l :
  withContext c (JS.sort Parser.byContextDesc l) = withContext c l.
Proof.
  induction l as [|x l IH]; simpl; [done|].
  rewrite withContext_sort_insert. unfold withContext in *.
  by rewrite !(filter_cons _ x), IH.
Qed.

End SortByContext.

(** C8: the output of [transformModels] is sorted descending by
    [contextLength], it holds exactly the transformed records, and the sort
    is stable: for every context length, the models of that length come in
    the output in the order they have in the input. *)
Theorem transformModels_sorted_stable
    (clock : nat -> Timestamp) (rawModels : list Raw.OpenRouterModel) :
  let input := imap (λ i raw, Parser.transformModel (clock i) raw) rawModels in
  let output := Parser.transformModels clock rawModels in
  contextDescending output /\
  output ≡ₚ input /\
  (forall c, withContext c output = withContext c input).
Proof.
  intros input output. subst output. unfold Parser.transformModels. fold input.
  split; [|split].
  - apply sort_contextDescending.
  - apply sort_perm.
  - intros c. apply withContext_sort.
Qed.

(** ** The identifier index *)

Section ById.

Lemma ixById_snoc ix models m :
  Parser.ixById (foldl Parser.indexModel ix (models ++ [m]))
  = <[Model.id m := m]> (Parser.ixById (foldl Parser.indexModel ix models)).
Proof. by rewrite foldl_snoc. Qed.

(** Last write wins: a model is found under its identifier when no later
    model of the list carries the same identifier. *)
Lemma ixById_last_write ix before m after :
  Forall (λ m', Model.id m' <> Model.id m) after ->
  Parser.ixById (foldl Parser.indexModel ix (before ++ m :: after))
    !! Model.id m = Some m.
Proof.
  induction after as [|x after IH] using rev_ind; intros Hafter.
  - rewrite ixById_snoc. apply lookup_insert_eq.
  - apply Forall_app in Hafter as [Hafter Hx].
    apply Forall_inv in Hx.
    replace (before ++ m :: after ++ [x]) with ((before ++ m :: after) ++ [x])
      by (by rewrite <- app_assoc).
    rewrite ixById_snoc, lookup_insert_ne by done.
    by apply IH.
Qed.

Lemma byId_distinct now models source m :
  NoDup (Model.id <$> models) ->
  m ∈ models ->
  Registry.byId (Parser.buildRegistry now models source) !! Model.id m = Some m.
Proof.
  intros Hnodup (before & after & ->)%list_elem_of_split.
  simpl. apply ixById_last_write.
  rewrite fmap_app, fmap_cons in Hnodup.
  apply NoDup_app in Hnodup as (_ & _ & Hnodup).
  apply NoDup_cons in Hnodup as [Hnotin _].
  apply Forall_forall. intros m' Hm' Heq.
  apply Hnotin. rewrite <- Heq. by apply list_elem_of_fmap_2.
Qed.

Lemma id_transformModels clock rawModels :
  Model.id <$> Parser.transformModels clock rawModels ≡ₚ Raw.id <$> rawModels.
Proof.
  unfold Parser.transformModels. rewrite sort_perm.
  rewrite fmap_imap.
  rewrite (imap_ext _ (const Raw.id)) by (intros; reflexivity).
  by rewrite imap_const.
Qed.

End ById.

(** C6 (as the code has it): in the registry built by
    [buildRegistry(transformModels(raws))] the [byId] index maps the
    identifier of a model of the registry to that very model when no later
    model of the registry carries the same identifier (the last write
    wins); so for every list of raw records with pairwise distinct
    identifiers it maps the identifier of every model back to that
    model. *)
Theorem byId_round_trip
    (clock : nat -> Timestamp) (now : Timestamp)
    (raws : list Raw.OpenRouterModel) :
  let registry := Parser.buildRegistry now (Parser.transformModels clock raws) None in
  (forall before m after,
     Registry.models registry = before ++ m :: after ->
     Forall (λ m', Model.id m' <> Model.id m) after ->
     Registry.byId registry !! Model.id m = Some m) /\
  (NoDup (Raw.id <$> raws) ->
   forall m, m ∈ Registry.models registry ->
             Registry.byId registry !! Model.id m = Some m).
Proof.
  intros registry. subst registry. split.
  - simpl. intros before m after -> Hafter. by apply ixById_last_write.
  - intros Hnodup m Hm. apply byId_distinct; [|exact Hm].
    by rewrite id_transformModels.
Qed.

Lemma byId_round_trip_witness :
  let raws := [Samples.rawRecord "openai/gpt-4o" 128000 "0.0000025" "0.00001";
               Samples.rawRecord "anthropic/claude-3.5-sonnet" 200000
                 "0.000003" "0.000015"] in
  let registry :=
    Parser.buildRegistry 0 (Parser.transformModels (λ _, 0) raws) None in
  let m := Parser.transformModel 0
             (Samples.rawRecord "openai/gpt-4o" 128000 "0.0000025" "0.00001") in
  Registry.byId registry !! "openai/gpt-4o" = Some m.
Proof.
  intros raws registry m.
  refine (proj2 (byId_round_trip (λ _, 0) 0 raws) _ m _).
  - refine (bool_decide_unpack _ _). vm_compute. exact I.
  - vm_compute. apply list_elem_of_further, list_elem_of_here.
Defined.

(** C6 as stated fails: when two raw records share an identifier, the one
    written first is not what its identifier maps back to. *)
Lemma byId_round_trip_fails_on_duplicates :
  ~ (forall clock now raws m,
        let registry :=
          Parser.buildRegistry now (Parser.transformModels clock raws) None in
        m ∈ Registry.models registry ->
        Registry.byId registry !! Model.id m = Some m).
Proof.
  intros H.
  specialize (H (λ _, 0) 0
                [Samples.rawRecord "openai/gpt-4o" 128000 "0" "0";
                 Samples.rawRecord "openai/gpt-4o" 64000 "0" "0"]
                (Parser.transformModel 0
                   (Samples.rawRecord "openai/gpt-4o" 128000 "0" "0"))).
  simpl in H.
  assert (Hin : Parser.transformModel 0
                  (Samples.rawRecord "openai/gpt-4o" 128000 "0" "0")
                ∈ Parser.transformModels (λ _, 0)
                    [Samples.rawRecord "openai/gpt-4o" 128000 "0" "0";
                     Samples.rawRecord "openai/gpt-4o" 64000 "0" "0"])
    by (vm_compute; apply list_elem_of_here).
  specialize (H Hin).
  vm_compute in H. discriminate H.
Qed.

(* ===================================================================== *)
(** * Properties of the registry and of the fallback chain *)
(* ===================================================================== *)

Section Indices.

Implicit Types (models : list Model.LLMModel) (m : Model.LLMModel).

Let index models := foldl Parser.indexModel Parser.emptyIndices models.

Lemma ixById_sound models k m :
  Parser.ixById (index models) !! k = Some m -> m ∈ models /\ Model.id m = k.
Proof.
  subst index. simpl. revert k m.
  induction models as [|x models IH] using rev_ind; intros k m.
  - simpl. by rewrite lookup_empty.
  - rewrite ixById_snoc. destruct (decide (Model.id x = k)) as [<-|Hne].
    + rewrite lookup_insert_eq. intros [= <-]. split; [|done].
      apply elem_of_app. right. apply list_elem_of_here.
    + rewrite lookup_insert_ne by done. intros [Hin Hid]%IH.
      split; [|done]. apply elem_of_app. by left.
Qed.

Lemma ixById_complete models m :
  m ∈ models -> is_Some (Parser.ixById (index models) !! Model.id m).
Proof.
  subst index. simpl.
  induction models as [|x models IH] using rev_ind.
  - by intros ?%elem_of_nil.
  - rewrite ixById_snoc. intros [Hin | ->%list_elem_of_singleton]%elem_of_app.
    + destruct (decide (Model.id x = Model.id m)) as [->|Hne].
      * rewrite lookup_insert_eq. by eexists.
      * rewrite lookup_insert_ne by done. by apply IH.
    + rewrite lookup_insert_eq. by eexists.
Qed.

Lemma default_bucket l : default [] (bucket l) = l.
Proof. by destruct l. Qed.

Lemma bucket_snoc l m : bucket (l ++ [m]) = Some (l ++ [m]).
Proof. by destruct l. Qed.

Lemma ixByProvider_buckets models p :
  Parser.ixByProvider (index models) !! p = bucket (ofProvider p models).
Proof.
  subst index. simpl. unfold ofProvider.
  induction models as [|x models IH] using rev_ind; [done|].
  rewrite foldl_snoc, filter_app. simpl.
  destruct (decide (Provider.id (Model.provider x) = p)) as [<-|Hne].
  - rewrite lookup_insert_eq, IH, default_bucket.
    rewrite (filter_cons_True _ x []) by done.
    by rewrite bucket_snoc.
  - rewrite lookup_insert_ne by done.
    rewrite (filter_cons_False _ x []) by done.
    by rewrite app_nil_r.
Qed.

Lemma tier_eqb_eq a b : Parser.tier_eqb a b = true <-> a = b.
Proof. destruct a, b; simpl; split; congruence. Qed.

Lemma ixByTier_buckets models t :
  Parser.ixByTier (index models) t = ofTier t models.
Proof.
  subst index. simpl. unfold ofTier.
  induction models as [|x models IH] using rev_ind; [done|].
  rewrite foldl_snoc, filter_app. simpl.
  destruct (Parser.tier_eqb t (Model.sizeTier x)) eqn:Heq.
  - apply tier_eqb_eq in Heq.
    rewrite (filter_cons_True _ x []) by done. by rewrite IH.
  - rewrite (filter_cons_False _ x []), app_nil_r; [done|].
    intros Ht. symmetry in Ht. apply tier_eqb_eq in Ht. congruence.
Qed.

Lemma dom_ixByProvider models :
  dom (Parser.ixByProvider (index models))
  = list_to_set ((λ m, Provider.id (Model.provider m)) <$> models).
Proof.
  subst index. simpl.
  induction models as [|x models IH] using rev_ind.
  - simpl. apply dom_empty_L.
  - rewrite foldl_snoc, fmap_app, list_to_set_app_L. simpl.
    rewrite dom_insert_L, IH. rewrite union_empty_r_L. apply (comm_L (∪)).
Qed.

Lemma buildRegistry_wellFormed now models source :
  wellFormed (Parser.buildRegistry now models source).
Proof.
  constructor; simpl.
  - done.
  - done.
  - done.
  - by rewrite dom_ixByProvider.
  - apply ixById_sound.
  - apply ixById_complete.
  - apply ixByProvider_buckets.
  - apply ixByTier_buckets.
Qed.

Lemma source_buildRegistry now models source :
  Registry.source (Registry.metadata (Parser.buildRegistry now models (Some source)))
  = source.
Proof. done. Qed.

End Indices.

Section ParserCalls.

Import Fetcher.

Lemma transformModel_call now raw :
  transformModel now raw
  = if createdOutOfRange raw
    then Throw "RangeError: Invalid time value"
    else Ok (Parser.transformModel now raw).
Proof.
  unfold transformModel, createdOutOfRange.
  by destruct (Raw.created raw).
Qed.

Lemma mapTransform_call clock rawModels :
  mapTransform clock rawModels
  = if existsb createdOutOfRange rawModels
    then Throw "RangeError: Invalid time value"
    else Ok (imap (λ i raw, Parser.transformModel (clock i) raw) rawModels).
Proof.
  revert clock. induction rawModels as [|raw rest IH]; intros clock; [done|].
  cbn [mapTransform existsb]. rewrite transformModel_call.
  destruct (createdOutOfRange raw); [done|]. cbn [bind orb].
  rewrite IH. by destruct (existsb createdOutOfRange rest).
Qed.

Lemma transformModels_call clock rawModels :
  transformModels clock rawModels
  = if existsb createdOutOfRange rawModels
    then Throw "RangeError: Invalid time value"
    else Ok (Parser.transformModels clock rawModels).
Proof.
  unfold transformModels. rewrite mapTransform_call.
  by destruct (existsb createdOutOfRange rawModels).
Qed.

(** No key of the provider index names a member of [Object.prototype]. *)
Let clean (ix : Parser.Indices) : Prop :=
  forall k, JS.inherited k = true -> Parser.ixByProvider ix !! k = None.

Lemma indexModel_call ix model :
  clean ix ->
  indexModel ix model
  = if inheritedProvider model
    then Throw "TypeError: byProvider[providerId].push is not a function"
    else Ok (Parser.indexModel ix model).
Proof.
  intros Hclean. unfold indexModel, inheritedProvider, JS.read.
  destruct (JS.inherited (Provider.id (Model.provider model))) eqn:Hid.
  - by rewrite (Hclean _ Hid).
  - by destruct (Parser.ixByProvider ix !! _).
Qed.

Lemma indexModel_clean ix model :
  clean ix -> inheritedProvider model = false ->
  clean (Parser.indexModel ix model).
Proof.
  intros Hclean Hmodel k Hk. simpl.
  rewrite lookup_insert_ne; [by apply Hclean|].
  intros <-. unfold inheritedProvider in Hmodel. congruence.
Qed.

Lemma indexModels_call ix models :
  clean ix ->
  indexModels ix models
  = if existsb inheritedProvider models
    then Throw "TypeError: byProvider[providerId].push is not a function"
    else Ok (foldl Parser.indexModel ix models).
Proof.
  revert ix. induction models as [|model rest IH]; intros ix Hclean; [done|].
  cbn [indexModels existsb foldl]. rewrite indexModel_call by done.
  destruct (inheritedProvider model) eqn:Hmodel; [done|]. cbn [bind orb].
  apply IH. by apply indexModel_clean.
Qed.

Lemma buildRegistry_call now models source :
  buildRegistry now models source
  = if existsb inheritedProvider models
    then Throw "TypeError: byProvider[providerId].push is not a function"
    else Ok (Parser.buildRegistry now models source).
Proof.
  unfold buildRegistry. rewrite indexModels_call by (by intros k _).
  by destruct (existsb inheritedProvider models).
Qed.

Lemma buildRegistry_returns now models source registry :
  buildRegistry now models source = Ok registry ->
  registry = Parser.buildRegistry now models source /\
  Forall (λ m, inheritedProvider m = false) models.
Proof.
  rewrite buildRegistry_call.
  destruct (existsb inheritedProvider models) eqn:Hany; [done|].
  intros [= <-]. split; [done|].
  apply Forall_forall. intros m Hm.
  destruct (inheritedProvider m) eqn:Hinh; [|done].
  assert (existsb inheritedProvider models = true); [|congruence].
  apply existsb_exists. exists m. split; [by apply list_elem_of_In | done].
Qed.

Lemma existsb_Permutation {A} (f : A -> bool) l k :
  l ≡ₚ k -> existsb f l = existsb f k.
Proof.
  induction 1 as [|x l k _ IH|x y l|l k m _ IH1 _ IH2]; simpl.
  - done.
  - by rewrite IH.
  - by rewrite !orb_assoc, (orb_comm (f y)).
  - by rewrite IH1.
Qed.

Lemma existsb_imap {A B} (f : nat -> A -> B) (g : B -> bool) (h : A -> bool) l :
  (forall i a, g (f i a) = h a) ->
  existsb g (imap f l) = existsb h l.
Proof.
  revert f. induction l as [|a l IH]; intros f Hf; [done|].
  rewrite imap_cons. simpl. rewrite Hf. f_equal. apply IH.
  intros i b. apply Hf.
Qed.

Lemma inheritedProvider_transformModels clock rawModels :
  existsb inheritedProvider (Parser.transformModels clock rawModels)
  = existsb (λ raw, JS.inherited (Parser.parseProviderId (Raw.id raw))) rawModels.
Proof.
  unfold Parser.transformModels.
  rewrite (existsb_Permutation _ _ _ (sort_perm _ _)).
  apply existsb_imap. intros i raw. unfold inheritedProvider.
  by rewrite providerId_transformModel.
Qed.

(** What the two parser calls of a stage come to. *)
Lemma stage_call w (records : list Raw.OpenRouterModel) (source : Source) :
  (let* models := transformModels (transformClock w) records in
   buildRegistry (buildClock w) models (Some source))
  = if rejects records
    then Throw (if existsb createdOutOfRange records
                then "RangeError: Invalid time value"
                else "TypeError: byProvider[providerId].push is not a function")
    else Ok (Parser.buildRegistry (buildClock w)
               (Parser.transformModels (transformClock w) records)
               (Some source)).
Proof.
  unfold rejects. rewrite transformModels_call.
  destruct (existsb createdOutOfRange records); [done|]. cbn [bind orb].
  rewrite buildRegistry_call, inheritedProvider_transformModels.
  by destruct (existsb _ records).
Qed.

End ParserCalls.

Section FallbackChain.

Import Fetcher.

Lemma FALLBACK_MODELS_length clock :
  length (Fallback.FALLBACK_MODELS clock) = 14%nat.
Proof. reflexivity. Qed.

Lemma fetchRegistry_call w :
  fetchRegistry w
  = let* rawModels := fetchFromOpenRouter w in
    match rawModels with
    | Records records =>
        if rejects records
        then Throw (if existsb createdOutOfRange records
                    then "RangeError: Invalid time value"
                    else "TypeError: byProvider[providerId].push is not a function")
        else Ok (Parser.buildRegistry (buildClock w)
                   (Parser.transformModels (transformClock w) records)
                   (Some api))
    | NotAnArray => Throw "TypeError: rawModels.map is not a function"
    end.
Proof.
  unfold fetchRegistry. destruct (fetchFromOpenRouter w) as [[records|]|e]; try done.
  cbn [bind]. apply stage_call.
Qed.

Lemma loadFromSnapshot_call w :
  loadFromSnapshot w
  = match importSnapshot w with
    | Ok (DocValue (DataArray records)) =>
        if rejects records then Ok None
        else Ok (Some (Parser.buildRegistry (buildClock w)
                         (Parser.transformModels (transformClock w) records)
                         (Some snapshot)))
    | _ => Ok None
    end.
Proof.
  unfold loadFromSnapshot.
  destruct (importSnapshot w) as [[|[| |records]]|e]; try done.
  cbn [bind].
  pose proof (stage_call w records snapshot) as Hstage.
  destruct (transformModels (transformClock w) records) as [models|e] eqn:Hmodels;
    cbn [bind] in *.
  - rewrite Hstage. by destruct (rejects records).
  - by destruct (rejects records).
Qed.

Lemma fetchRegistry_ok w registry :
  fetchRegistry w = Ok registry ->
  wellFormed registry /\
  Registry.source (Registry.metadata registry) = api /\
  contextDescending (Registry.models registry).
Proof.
  rewrite fetchRegistry_call. unfold bind.
  destruct (fetchFromOpenRouter w) as [[records|]|e]; [|done|done].
  destruct (rejects records); [done|].
  intros [= <-]. split; [apply buildRegistry_wellFormed|]. split; [done|].
  apply sort_contextDescending.
Qed.

Lemma loadFromSnapshot_ok w registry :
  loadFromSnapshot w = Ok (Some registry) ->
  wellFormed registry /\
  Registry.source (Registry.metadata registry) = snapshot /\
  contextDescending (Registry.models registry).
Proof.
  rewrite loadFromSnapshot_call.
  destruct (importSnapshot w) as [[|[| |records]]|e]; try done.
  destruct (rejects records); [done|].
  intros [= <-]. split; [apply buildRegistry_wellFormed|]. split; [done|].
  apply sort_contextDescending.
Qed.

(** [loadFromSnapshot] catches what it throws. *)
Lemma loadFromSnapshot_never_throws w :
  exists result, loadFromSnapshot w = Ok result.
Proof.
  rewrite loadFromSnapshot_call.
  destruct (importSnapshot w) as [[|[| |records]]|e]; try by eexists.
  destruct (rejects records); by eexists.
Qed.

(** No hardcoded model makes [buildRegistry] throw. *)
Lemma getFallbackRegistry_call w :
  getFallbackRegistry w
  = Ok (Parser.buildRegistry (buildClock w)
          (Fallback.FALLBACK_MODELS (loadClock w)) (Some fallback)).
Proof. unfold getFallbackRegistry. by rewrite buildRegistry_call. Qed.

Lemma getFallbackRegistry_ok w registry :
  getFallbackRegistry w = Ok registry ->
  wellFormed registry /\
  Registry.source (Registry.metadata registry) = fallback /\
  Registry.models registry <> [].
Proof.
  rewrite getFallbackRegistry_call. intros [= <-].
  split; [apply buildRegistry_wellFormed|]. split; done.
Qed.

End FallbackChain.

(** C2 (as the code has it): [fetchRegistryWithFallback] never throws and
    returns a registry whose metadata and indices agree with its model
    list, and whose models are sorted by context length, largest first,
    unless it is the hardcoded one.  Whenever the API stage throws, the
    registry is the snapshot's, tagged [snapshot], when the snapshot stage
    yields one, and is never tagged [api]; whenever the API stage throws
    and the snapshot stage yields nothing, the registry is tagged
    [fallback] and its model list is not empty. *)
Theorem fetchRegistryWithFallback_total (w : Fetcher.World) :
  exists registry,
    Fetcher.fetchRegistryWithFallback w = Fetcher.Ok registry /\
    wellFormed registry /\
    (Registry.source (Registry.metadata registry) <> fallback ->
     contextDescending (Registry.models registry)) /\
    (forall apiError,
       Fetcher.fetchRegistry w = Fetcher.Throw apiError ->
       Registry.source (Registry.metadata registry) <> api /\
       (forall snapshotRegistry,
          Fetcher.loadFromSnapshot w = Fetcher.Ok (Some snapshotRegistry) ->
          registry = snapshotRegistry /\
          Registry.source (Registry.metadata registry) = snapshot) /\
       ((forall snapshotRegistry,
           Fetcher.loadFromSnapshot w <> Fetcher.Ok (Some snapshotRegistry)) ->
        Registry.source (Registry.metadata registry) = fallback /\
        Registry.models registry <> [])).
Proof.
  unfold Fetcher.fetchRegistryWithFallback.
  destruct (Fetcher.fetchRegistry w) as [registry|apiError] eqn:Hapi.
  - destruct (fetchRegistry_ok w _ Hapi) as (Hwf & Hsrc & Hsorted).
    exists registry. split; [done|]. split; [done|]. split; [done|].
    intros ? [=].
  - destruct (Fetcher.loadFromSnapshot w) as [[snapshotRegistry|]|e] eqn:Hsnap.
    + destruct (loadFromSnapshot_ok w _ Hsnap) as (Hwf & Hsrc & Hsorted).
      exists snapshotRegistry. split; [done|]. split; [done|]. split; [done|].
      intros _ _. split; [by rewrite Hsrc|]. split.
      * by intros ? [= <-].
      * intros Hnone. by destruct (Hnone snapshotRegistry).
    + destruct (Fetcher.getFallbackRegistry w) as [registry|e] eqn:Hfallback;
        [|by rewrite getFallbackRegistry_call in Hfallback].
      destruct (getFallbackRegistry_ok w _ Hfallback) as (Hwf & Hsrc & Hne).
      exists registry. split; [done|]. split; [done|].
      split; [by intros []|].
      intros _ _. split; [by rewrite Hsrc|]. split; [done|]. done.
    + destruct (loadFromSnapshot_never_throws w) as [result Hresult].
      congruence.
Qed.

Lemma fetchRegistryWithFallback_total_witness :
  exists registry,
    Fetcher.fetchRegistryWithFallback Samples.offline = Fetcher.Ok registry /\
    Registry.source (Registry.metadata registry) = fallback /\
    Registry.models registry <> [].
Proof.
  destruct (fetchRegistryWithFallback_total Samples.offline)
    as (registry & Hrun & _ & _ & Hthrow).
  exists registry. split; [exact Hrun|].
  destruct (Hthrow "TypeError: fetch failed" eq_refl) as (_ & _ & Hfallback).
  apply Hfallback. intros snapshotRegistry. discriminate.
Defined.

(** C2 as stated fails: a well-formed registry has its models sorted by
    context length, largest first, and the hardcoded registry, which the
    chain returns when the API and the snapshot fail, lists a model of
    128,000 tokens before one of 200,000. *)
Lemma fallback_registry_not_sorted :
  ~ (forall w, exists registry,
        Fetcher.fetchRegistryWithFallback w = Fetcher.Ok registry /\
        wellFormed registry /\
        contextDescending (Registry.models registry)).
Proof.
  intros H. destruct (H Samples.offline) as (registry & Hrun & _ & Hsorted).
  assert (Hfallback :
    Fetcher.fetchRegistryWithFallback Samples.offline
    = Fetcher.getFallbackRegistry Samples.offline) by reflexivity.
  rewrite Hfallback, getFallbackRegistry_call in Hrun.
  injection Hrun as <-.
  change (contextDescending
            (Fallback.FALLBACK_MODELS (Fetcher.loadClock Samples.offline)))
    in Hsorted.
  unfold contextDescending, Fallback.FALLBACK_MODELS in Hsorted.
  do 3 apply StronglySorted_inv in Hsorted as [Hsorted _].
  apply StronglySorted_inv in Hsorted as [_ Hlater].
  apply Forall_inv_tail, Forall_inv in Hlater.
  vm_compute in Hlater. by apply Hlater.
Qed.

(* ===================================================================== *)
(** * Properties of the query engine *)
(* ===================================================================== *)

Section StoreLaws.

Context {A : Type}.
Implicit Types (h : Store.Heap A) (l : list A) (r : Store.ArrayRef).

Lemma yields_spread h0 r l :
  h0 !! r = Some l -> yields h0 l (Store.spread r h0).
Proof.
  intros Hr. unfold Store.spread, Store.bind, Store.read, Store.alloc.
  rewrite Hr. simpl. exists [l]. simpl. split; [done|]. split; [done|].
  apply list_lookup_middle. done.
Qed.

Lemma yields_alloc h0 l l' r h :
  yields h0 l (r, h) -> yields h0 l' (Store.alloc l' h).
Proof.
  intros (ext & Hh & Hr & Hl). simpl in *. subst h.
  exists (ext ++ [l']). unfold Store.alloc. simpl.
  split; [by rewrite app_assoc|]. split.
  - rewrite length_app. lia.
  - by apply list_lookup_middle.
Qed.

Lemma computes_ret h0 : computes h0 Store.ret (λ l, l).
Proof. by intros r h l H. Qed.

Lemma computes_filter h0 p : computes h0 (Store.filter p) (List.filter p).
Proof.
  intros r h l H. unfold Store.filter, Store.bind, Store.read.
  destruct H as (ext & Hh & Hr & Hl). simpl in *. rewrite Hl. simpl.
  eapply yields_alloc. exists ext; eauto.
Qed.

Lemma computes_slice0 h0 end_ :
  computes h0 (λ r, Store.slice0 r end_) (λ l, JS.slice0 l end_).
Proof.
  intros r h l H. unfold Store.slice0, Store.bind, Store.read.
  destruct H as (ext & Hh & Hr & Hl). simpl in *. rewrite Hl. simpl.
  eapply yields_alloc. exists ext; eauto.
Qed.

(** Sorting writes to the array it is given, which is not one of [h0]. *)
Lemma computes_sort h0 cmp : computes h0 (Store.sort cmp) (JS.sort cmp).
Proof.
  intros r h l (ext & Hh & Hr & Hl). simpl in *.
  unfold Store.sort, Store.bind, Store.read, Store.write, Store.ret.
  rewrite Hl. simpl.
  exists (<[(r - length h0)%nat := JS.sort cmp l]> ext). simpl.
  split; [|split; [done|]].
  - subst h. by apply insert_app_r_alt.
  - apply list_lookup_insert_eq. by eapply lookup_lt_Some.
Qed.

Lemma yields_bind h0 l l' c k h :
  yields h0 l (c h) ->
  (forall r1 h1, yields h0 l (r1, h1) -> yields h0 l' (k r1 h1)) ->
  yields h0 l' (Store.bind c k h).
Proof.
  intros Hc Hk. unfold Store.bind. destruct (c h) as [r1 h1]. by apply Hk.
Qed.

(** The pass [if (o) { results = f(results) }]. *)
Lemma yields_when {B} h0 (o : option B) f g r h l :
  (forall b, computes h0 (f b) (g b)) ->
  yields h0 l (r, h) ->
  yields h0 (match o with Some b => g b l | None => l end)
    ((match o with Some b => f b r | None => Store.ret r end) h).
Proof. intros Hf H. destruct o; [by apply Hf | done]. Qed.

(** The same pass when the condition also tests the value. *)
Lemma yields_when_truthy {B} h0 (o : option B) (t : B -> bool) f g r h l :
  (forall b, computes h0 (f b) (g b)) ->
  yields h0 l (r, h) ->
  yields h0 (match o with Some b => if t b then g b l else l | None => l end)
    ((match o with
      | Some b => if t b then f b r else Store.ret r
      | None => Store.ret r
      end) h).
Proof.
  intros Hf H. destruct o as [b|]; [|done].
  destruct (t b); [by apply Hf | done].
Qed.

Lemma yields_when_filter {B} h0 (o : option B) (p : B -> A -> bool) r h l :
  yields h0 l (r, h) ->
  yields h0 (match o with Some b => List.filter (p b) l | None => l end)
    ((match o with
      | Some b => Store.filter (p b) r
      | None => Store.ret r
      end) h).
Proof.
  apply (yields_when h0 o (λ b, Store.filter (p b)) (λ b, List.filter (p b))).
  intros b. apply computes_filter.
Qed.

Lemma yields_when_truthy_filter {B} h0 (o : option B) (t : B -> bool)
    (p : B -> A -> bool) r h l :
  yields h0 l (r, h) ->
  yields h0
    (match o with
     | Some b => if t b then List.filter (p b) l else l
     | None => l
     end)
    ((match o with
      | Some b => if t b then Store.filter (p b) r else Store.ret r
      | None => Store.ret r
      end) h).
Proof.
  apply (yields_when_truthy h0 o t
           (λ b, Store.filter (p b)) (λ b, List.filter (p b))).
  intros b. apply computes_filter.
Qed.

Lemma yields_when_sort {B} h0 (o : option B) (cmp : B -> A -> A -> Z) r h l :
  yields h0 l (r, h) ->
  yields h0 (match o with Some b => JS.sort (cmp b) l | None => l end)
    ((match o with
      | Some b => Store.sort (cmp b) r
      | None => Store.ret r
      end) h).
Proof.
  apply (yields_when h0 o (λ b, Store.sort (cmp b)) (λ b, JS.sort (cmp b))).
  intros b. apply computes_sort.
Qed.

Lemma yields_when_truthy_slice0 h0 (o : option Z) (t : Z -> bool) r h l :
  yields h0 l (r, h) ->
  yields h0
    (match o with
     | Some end_ => if t end_ then JS.slice0 l end_ else l
     | None => l
     end)
    ((match o with
      | Some end_ => if t end_ then Store.slice0 r end_ else Store.ret r
      | None => Store.ret r
      end) h).
Proof.
  apply (yields_when_truthy h0 o t
           (λ end_ r, Store.slice0 r end_) (λ end_ l, JS.slice0 l end_)).
  intros end_. apply computes_slice0.
Qed.

End StoreLaws.

Section QueryModels.

Variable localeCompare : string -> string -> Z.

Implicit Types (h : Store.Heap Model.LLMModel) (models : Store.ArrayRef).

(** One conditional pass of [queryModels], followed by the rest. *)
Local Tactic Notation "pass" uconstr(lem) :=
  eapply yields_bind; [ eapply lem; eassumption | clear; intros ? ? ? ].

(** [queryModels] returns a new array that holds [queryResult] of the
    contents of the array it is given, and leaves the store it started
    from as it was. *)
Lemma queryModels_yields h0 models options l :
  h0 !! models = Some l ->
  yields h0 (Utils.queryResult localeCompare l options)
    (Utils.queryModels localeCompare models options h0).
Proof.
  intros Hl. unfold Utils.queryModels, Utils.queryResult.
  eapply yields_bind; [by apply yields_spread|]. clear Hl. intros r1 h1 H1.
  pass yields_when_truthy_filter.
  pass yields_when_filter.
  pass yields_when_filter.
  pass yields_when_filter.
  pass yields_when_filter.
  pass yields_when_filter.
  pass yields_when_truthy_filter.
  pass yields_when_sort.
  pass yields_when_truthy_slice0.
  eassumption.
Qed.

End QueryModels.

Section QueryLaws.

Variable localeCompare : string -> string -> Z.

Implicit Types (h : Store.Heap Model.LLMModel) (models : Store.ArrayRef).

Lemma queryModels_returned h models options l :
  h !! models = Some l ->
  returned (Utils.queryModels localeCompare models options h)
  = Some (Utils.queryResult localeCompare l options).
Proof.
  intros Hl.
  destruct (queryModels_yields localeCompare h models options l Hl)
    as (ext & _ & _ & Hres).
  exact Hres.
Qed.

(** A call changes no array of the store it starts from, and its result
    is none of them. *)
Lemma queryModels_frame h models options :
  is_Some (h !! models) ->
  forall r1 h1,
    Utils.queryModels localeCompare models options h = (r1, h1) ->
    (length h <= r1)%nat /\
    forall r, (r < length h)%nat -> h1 !! r = h !! r.
Proof.
  intros [l Hl] r1 h1 Hrun.
  destruct (queryModels_yields localeCompare h models options l Hl)
    as (ext & Hext & Hfresh & _).
  rewrite Hrun in Hext, Hfresh. simpl in *. subst h1.
  split; [done|]. intros r Hr. by apply lookup_app_l.
Qed.

Lemma slice0_positive {A} (l : list A) n :
  0 < n -> JS.slice0 l n = take (Z.to_nat n) l.
Proof.
  intros Hn. unfold JS.slice0.
  rewrite (proj2 (Z.ltb_ge n 0)) by lia.
  destruct (Z.min_spec n (Z.of_nat (length l))) as [[_ ->] | [Hle ->]];
    [done|].
  rewrite Nat2Z.id, !firstn_all2; [done | lia | done].
Qed.

Lemma filter_all {A} (l : list A) : List.filter (λ _, true) l = l.
Proof. induction l as [|x l IH]; simpl; [done | by rewrite IH]. Qed.

Lemma filter_both {A} (p q : A -> bool) l :
  List.filter q (List.filter p l) = List.filter (λ x, p x && q x) l.
Proof.
  induction l as [|x l IH]; simpl; [done|].
  destruct (p x); simpl; [|done]. destruct (q x); by rewrite IH.
Qed.

Lemma when_filter {A B} (o : option B) (p : B -> A -> bool) l :
  match o with Some b => List.filter (p b) l | None => l end
  = List.filter (λ x, match o with Some b => p b x | None => true end) l.
Proof. destruct o; [done | by rewrite filter_all]. Qed.

Lemma when_truthy_filter {A B} (o : option B) (t : B -> bool)
    (p : B -> A -> bool) l :
  match o with
  | Some b => if t b then List.filter (p b) l else l
  | None => l
  end
  = List.filter
      (λ x, match o with
            | Some b => if t b then p b x else true
            | None => true
            end) l.
Proof.
  destruct o as [b|]; [|by rewrite filter_all].
  destruct (t b); [done | by rewrite filter_all].
Qed.

(** Without a limit the result holds exactly the models that pass the
    filters. *)
Lemma queryResult_unlimited l options :
  Utils.queryResult localeCompare l (Samples.withLimit None options)
  ≡ₚ List.filter (passesFilters options) l.
Proof.
  destruct options as [provider minContext maxContext tier isFree supportsImages
                         ? ? ? ? search sortBy sortOrder limit].
  unfold Utils.queryResult, passesFilters. simpl.
  transitivity
    (List.filter
       (λ m, match search with
             | Some s =>
                 if JS.truthy_string s
                 then Utils.searchMatches (JS.toLowerCase s) m
                 else true
             | None => true
             end)
       (List.filter
          (λ m, match supportsImages with
                | Some supportsImages =>
                    Bool.eqb (Model.supportsImages (Model.capabilities m))
                             supportsImages
                | None => true
                end)
          (List.filter
             (λ m, match isFree with
                   | Some isFree =>
                       Bool.eqb (Model.isFree (Model.pricing m)) isFree
                   | None => true
                   end)
             (List.filter
                (λ m, match tier with
                      | Some tier => Utils.tierMatches (Utils.toArray tier) m
                      | None => true
                      end)
                (List.filter
                   (λ m, match maxContext with
                         | Some maxContext => Model.contextLength m <=? maxContext
                         | None => true
                         end)
                   (List.filter
                      (λ m, match minContext with
                            | Some minContext =>
                                minContext <=? Model.contextLength m
                            | None => true
                            end)
                      (List.filter
                         (λ m, match provider with
                               | Some provider =>
                                   if Utils.truthy_strings provider
                                   then Utils.providerMatches
                                          (Utils.toArray provider) m
                                   else true
                               | None => true
                               end) l))))))).
  - rewrite <- (when_truthy_filter provider Utils.truthy_strings
                  (λ provider, Utils.providerMatches (Utils.toArray provider))).
    rewrite <- (when_filter minContext (λ minContext m, minContext <=? Model.contextLength m)).
    rewrite <- (when_filter maxContext (λ maxContext m, Model.contextLength m <=? maxContext)).
    rewrite <- (when_filter tier (λ tier, Utils.tierMatches (Utils.toArray tier))).
    rewrite <- (when_filter isFree
                  (λ isFree m, Bool.eqb (Model.isFree (Model.pricing m)) isFree)).
    rewrite <- (when_filter supportsImages
                  (λ supportsImages m,
                     Bool.eqb (Model.supportsImages (Model.capabilities m))
                              supportsImages)).
    rewrite <- (when_truthy_filter search JS.truthy_string
                  (λ s, Utils.searchMatches (JS.toLowerCase s))).
    destruct sortBy; [apply sort_perm | reflexivity].
  - rewrite !filter_both.
    erewrite List.filter_ext; [reflexivity|].
    intros m. simpl. by rewrite !andb_assoc.
Qed.

Lemma queryResult_limit_zero l options :
  Query.limit options = Some 0 ->
  Utils.queryResult localeCompare l options
  = Utils.queryResult localeCompare l (Samples.withLimit None options).
Proof.
  destruct options. simpl. intros ->. reflexivity.
Qed.

Lemma queryResult_limit_positive l options n :
  Query.limit options = Some n -> 0 < n ->
  Utils.queryResult localeCompare l options
  = take (Z.to_nat n)
      (Utils.queryResult localeCompare l (Samples.withLimit None options)).
Proof.
  destruct options. simpl. intros -> Hn.
  unfold Utils.queryResult. simpl.
  unfold JS.truthy_int. rewrite (proj2 (Z.eqb_neq n 0)) by lia. simpl.
  by apply slice0_positive.
Qed.

End QueryLaws.

(** C7: [queryModels] does not mutate what it is given and is a function
    of it: a call changes no array of the store it starts from, so the
    input array is unchanged after one call and after two; the array it
    returns is a new one; and a second call with the same arguments returns
    an array with the same contents in the same order as the first, which
    the second call does not change either. *)
Theorem queryModels_pure
    (localeCompare : string -> string -> Z)
    (h : Store.Heap Model.LLMModel) (models : Store.ArrayRef)
    (options : Query.ModelQueryOptions) :
  is_Some (h !! models) ->
  let '(r1, h1) := Utils.queryModels localeCompare models options h in
  let '(r2, h2) := Utils.queryModels localeCompare models options h1 in
  (forall r, (r < length h)%nat -> h1 !! r = h !! r /\ h2 !! r = h !! r) /\
  h1 !! models = h !! models /\
  h2 !! models = h !! models /\
  r1 <> models /\
  r2 <> models /\
  is_Some (h1 !! r1) /\
  h2 !! r2 = h1 !! r1 /\
  h2 !! r1 = h1 !! r1.
Proof.
  intros Hmodels.
  destruct (Utils.queryModels localeCompare models options h) as [r1 h1] eqn:E1.
  destruct (Utils.queryModels localeCompare models options h1) as [r2 h2] eqn:E2.
  pose proof Hmodels as [l Hl].
  pose proof (lookup_lt_Some _ _ _ Hl) as Hlt.
  destruct (queryModels_frame localeCompare h models options Hmodels r1 h1 E1)
    as [Hfresh1 Hframe1].
  pose proof (queryModels_returned localeCompare h models options l Hl) as Hres1.
  rewrite E1 in Hres1. unfold returned in Hres1. simpl in Hres1.
  assert (Hl1 : h1 !! models = Some l) by (by rewrite Hframe1).
  assert (Hmodels1 : is_Some (h1 !! models)) by (by eexists).
  destruct (queryModels_frame localeCompare h1 models options Hmodels1 r2 h2 E2)
    as [Hfresh2 Hframe2].
  pose proof (queryModels_returned localeCompare h1 models options l Hl1) as Hres2.
  rewrite E2 in Hres2. unfold returned in Hres2. simpl in Hres2.
  pose proof (lookup_lt_Some _ _ _ Hres1) as Hr1.
  pose proof (lookup_lt_Some _ _ _ Hl1) as Hlt1.
  repeat split.
  - by apply Hframe1.
  - rewrite <- Hframe1 by done. apply Hframe2.
    apply lookup_lt_is_Some. rewrite Hframe1 by done.
    by apply lookup_lt_is_Some.
  - by apply Hframe1.
  - rewrite Hframe2 by done. by apply Hframe1.
  - lia.
  - lia.
  - by eexists.
  - by rewrite Hres1, Hres2.
  - by apply Hframe2.
Qed.

Lemma queryModels_pure_witness :
  let h := [[Samples.gpt4o; Samples.gpt4oMini]] in
  let '(r1, h1) := Utils.queryModels (λ _ _, 0) 0%nat Samples.noOptions h in
  let '(r2, h2) := Utils.queryModels (λ _ _, 0) 0%nat Samples.noOptions h1 in
  h2 !! 0%nat = h !! 0%nat /\ h2 !! r2 = h1 !! r1.
Proof.
  pose proof (queryModels_pure (λ _ _, 0) [[Samples.gpt4o; Samples.gpt4oMini]]
                0%nat Samples.noOptions (ltac:(by eexists))) as H.
  simpl in H. simpl. tauto.
Defined.

(** C10: [queryModels] with a limit of 0 truncates nothing: it returns
    what it returns when no limit is given, which holds every model of the
    input that passes the filters; with a limit [n > 0] it returns the
    first [n] of those. *)
Theorem queryModels_limit
    (localeCompare : string -> string -> Z)
    (h : Store.Heap Model.LLMModel) (models : Store.ArrayRef)
    (input : list Model.LLMModel) (options : Query.ModelQueryOptions) :
  h !! models = Some input ->
  let limited := returned (Utils.queryModels localeCompare models options h) in
  let unlimited :=
    returned (Utils.queryModels localeCompare models
                (Samples.withLimit None options) h) in
  (exists all, unlimited = Some all /\
               all ≡ₚ List.filter (passesFilters options) input) /\
  (Query.limit options = Some 0 -> limited = unlimited) /\
  (forall n, Query.limit options = Some n -> 0 < n ->
             limited = take (Z.to_nat n) <$> unlimited).
Proof.
  intros Hinput limited unlimited. subst limited unlimited.
  rewrite !(queryModels_returned localeCompare h models _ input Hinput).
  split; [|split].
  - eexists. split; [reflexivity|]. apply queryResult_unlimited.
  - intros H0. f_equal. by apply queryResult_limit_zero.
  - intros n Hn Hpos. simpl. f_equal. by apply queryResult_limit_positive.
Qed.

Lemma queryModels_limit_witness :
  returned (Utils.queryModels (λ _ _, 0) 0%nat
              (Samples.withLimit (Some 0) Samples.noOptions)
              [[Samples.gpt4o; Samples.gpt4oMini]])
  = Some [Samples.gpt4o; Samples.gpt4oMini].
Proof.
  destruct (queryModels_limit (λ _ _, 0) [[Samples.gpt4o; Samples.gpt4oMini]]
              0%nat [Samples.gpt4o; Samples.gpt4oMini]
              (Samples.withLimit (Some 0) Samples.noOptions)
              eq_refl) as (_ & Hzero & _).
  rewrite (Hzero eq_refl). reflexivity.
Defined.

(* ===================================================================== *)
(** * Properties of the lookup helper *)
(* ===================================================================== *)

Section Find.

Context {A : Type} (p : A -> bool).

Lemma find_firstMatch l m : firstMatch p l m -> List.find p l = Some m.
Proof.
  intros (before & after & -> & Hm & Hbefore).
  induction Hbefore as [|x before Hx _ IH]; simpl.
  - by rewrite Hm.
  - by rewrite Hx.
Qed.

Lemma find_noMatch l : noMatch p l -> List.find p l = None.
Proof.
  induction 1 as [|x l Hx _ IH]; simpl; [done|]. by rewrite Hx.
Qed.

Lemma find_Some_firstMatch l m : List.find p l = Some m -> firstMatch p l m.
Proof.
  induction l as [|x l IH]; simpl; [done|].
  destruct (p x) eqn:Hx.
  - intros [= <-]. by exists [], l.
  - intros (before & after & -> & Hm & Hbefore)%IH.
    exists (x :: before), after. split; [done|]. split; [done|].
    by constructor.
Qed.

End Find.

Lemma matchesFuzzy_gpt4o m :
  Model.id m = "openai/gpt-4o" -> Utils.matchesFuzzy "gpt4o" m = true.
Proof. intros Hid. unfold Utils.matchesFuzzy. rewrite Hid. reflexivity. Qed.

(** C9 (as the code has it): [findModel] lowercases and trims its query
    and tries five passes in order, each returning the first model of the
    list that matches: identifier equal to the query, slug equal to the
    query, identifier ending in "/" plus the query, display name containing
    the query, and last the fuzzy pass, in which hyphens, dots and white
    space are stripped from the query and from identifier, slug and name
    and one of the three contains the query; it returns nothing when no
    pass matches.  In particular [findModel("gpt4o", models)] returns the
    model with identifier "openai/gpt-4o" through the fuzzy pass when no
    earlier pass matches any model and no model before it in the list
    matches in the fuzzy pass. *)
Theorem findModel_resolution (query : string) (models : list Model.LLMModel) :
  let normalized := JS.trim (JS.toLowerCase query) in
  let exactId := Utils.matchesExactId normalized in
  let exactSlug := Utils.matchesExactSlug normalized in
  let partialId := Utils.matchesPartialId normalized in
  let nameContains := Utils.matchesName normalized in
  let fuzzy := Utils.matchesFuzzy (Utils.stripPunctuation normalized) in
  let result := Utils.findModel query models in
  (forall m, firstMatch exactId models m -> result = Some m) /\
  (forall m, noMatch exactId models ->
             firstMatch exactSlug models m -> result = Some m) /\
  (forall m, noMatch exactId models -> noMatch exactSlug models ->
             firstMatch partialId models m -> result = Some m) /\
  (forall m, noMatch exactId models -> noMatch exactSlug models ->
             noMatch partialId models ->
             firstMatch nameContains models m -> result = Some m) /\
  (forall m, noMatch exactId models -> noMatch exactSlug models ->
             noMatch partialId models -> noMatch nameContains models ->
             firstMatch fuzzy models m -> result = Some m) /\
  (noMatch exactId models -> noMatch exactSlug models ->
   noMatch partialId models -> noMatch nameContains models ->
   noMatch fuzzy models -> result = None) /\
  (forall before m after,
     query = "gpt4o" ->
     models = before ++ m :: after ->
     Model.id m = "openai/gpt-4o" ->
     noMatch exactId models -> noMatch exactSlug models ->
     noMatch partialId models -> noMatch nameContains models ->
     noMatch fuzzy before ->
     result = Some m).
Proof.
  intros normalized exactId exactSlug partialId nameContains fuzzy result.
  assert (Hfuzzy : forall m,
             noMatch exactId models -> noMatch exactSlug models ->
             noMatch partialId models -> noMatch nameContains models ->
             firstMatch fuzzy models m -> result = Some m).
  { intros m H1 H2 H3 H4 H5. subst result. unfold Utils.findModel.
    fold normalized. fold exactId exactSlug partialId nameContains fuzzy.
    rewrite (find_noMatch _ _ H1), (find_noMatch _ _ H2),
      (find_noMatch _ _ H3), (find_noMatch _ _ H4).
    by apply find_firstMatch. }
  subst result. unfold Utils.findModel.
  fold normalized. fold exactId exactSlug partialId nameContains fuzzy.
  repeat split.
  - intros m H1. by rewrite (find_firstMatch _ _ _ H1).
  - intros m H1 H2.
    by rewrite (find_noMatch _ _ H1), (find_firstMatch _ _ _ H2).
  - intros m H1 H2 H3.
    by rewrite (find_noMatch _ _ H1), (find_noMatch _ _ H2),
         (find_firstMatch _ _ _ H3).
  - intros m H1 H2 H3 H4.
    by rewrite (find_noMatch _ _ H1), (find_noMatch _ _ H2),
         (find_noMatch _ _ H3), (find_firstMatch _ _ _ H4).
  - exact Hfuzzy.
  - intros H1 H2 H3 H4 H5.
    by rewrite (find_noMatch _ _ H1), (find_noMatch _ _ H2),
         (find_noMatch _ _ H3), (find_noMatch _ _ H4), (find_noMatch _ _ H5).
  - intros before m after Hq Hmodels Hid H1 H2 H3 H4 H5.
    apply Hfuzzy; try done.
    exists before, after. split; [done|]. split; [|done].
    subst fuzzy normalized. rewrite Hq.
    by apply matchesFuzzy_gpt4o.
Qed.

Lemma findModel_resolution_witness :
  Utils.findModel "gpt4o" [Samples.model "openai/o1" "o1" "o1" 200000;
                           Samples.gpt4o; Samples.gpt4oMini]
  = Some Samples.gpt4o.
Proof.
  apply (proj2 (proj2 (proj2 (proj2 (proj2 (proj2
           (findModel_resolution "gpt4o"
              [Samples.model "openai/o1" "o1" "o1" 200000;
               Samples.gpt4o; Samples.gpt4oMini]))))))
           [Samples.model "openai/o1" "o1" "o1" 200000]
           Samples.gpt4o [Samples.gpt4oMini]);
    try reflexivity; repeat constructor.
Defined.

(** C9 as stated fails: with no match in the four earlier passes,
    [findModel("gpt4o", models)] returns the first model that matches in the
    fuzzy pass, which need not be the one with identifier "openai/gpt-4o". *)
Lemma findModel_gpt4o_not_first_fuzzy_match :
  ~ (forall models m,
        let normalized := JS.trim (JS.toLowerCase "gpt4o") in
        m ∈ models ->
        Model.id m = "openai/gpt-4o" ->
        noMatch (Utils.matchesExactId normalized) models ->
        noMatch (Utils.matchesExactSlug normalized) models ->
        noMatch (Utils.matchesPartialId normalized) models ->
        noMatch (Utils.matchesName normalized) models ->
        Utils.findModel "gpt4o" models = Some m).
Proof.
  intros H.
  specialize (H [Samples.gpt4oMini; Samples.gpt4o] Samples.gpt4o).
  simpl in H.
  assert (Hfound : Utils.findModel "gpt4o" [Samples.gpt4oMini; Samples.gpt4o]
                   = Some Samples.gpt4o).
  { apply H; try reflexivity; repeat constructor. }
  vm_compute in Hfound. discriminate Hfound.
Qed.

(* ===================================================================== *)
(** * Further properties of the parser *)
(* ===================================================================== *)

(** X1: a larger context window never gets a smaller size tier. *)
Theorem getSizeTier_monotone (a b : Z) :
  a <= b ->
  tierRank (Parser.getSizeTier a) <= tierRank (Parser.getSizeTier b).
Proof.
  intros Hab. rewrite !getSizeTier_bins.
  repeat case_decide; simpl; lia.
Qed.

Lemma getSizeTier_monotone_witness :
  tierRank (Parser.getSizeTier 127999) <= tierRank (Parser.getSizeTier 128000).
Proof. apply (getSizeTier_monotone 127999 128000). lia. Defined.

(** X2: the provider id of a normalized model is never empty, and its slug
    is empty only when the raw identifier is empty. *)
Theorem identifier_parts_nonempty (now : Timestamp) (raw : Raw.OpenRouterModel) :
  let m := Parser.transformModel now raw in
  Provider.id (Model.provider m) <> EmptyString /\
  (Model.slug m = EmptyString -> Raw.id raw = EmptyString).
Proof.
  intros m. subst m. rewrite providerId_transformModel.
  change (Model.slug (Parser.transformModel now raw))
    with (Parser.parseModelSlug (Raw.id raw)).
  unfold Parser.parseProviderId, Parser.parseModelSlug, JS.or_string.
  split.
  - destruct (JS.split "/" (Raw.id raw) !! 0%nat) as [[|c p]|]; done.
  - destruct (JS.join "/" (drop 1 (JS.split "/" (Raw.id raw)))); done.
Qed.

Lemma identifier_parts_nonempty_witness :
  Raw.id (Samples.rawRecord EmptyString 4096 "0" "0") = EmptyString.
Proof.
  apply (proj2 (identifier_parts_nonempty 0 (Samples.rawRecord EmptyString 4096 "0" "0"))).
  reflexivity.
Defined.

(** X3: for an identifier of the form provider "/" rest with both parts
    non-empty, provider id, "/" and slug put together give the identifier
    back. *)
Theorem identifier_round_trip
    (now : Timestamp) (raw : Raw.OpenRouterModel) (pre rest : string) :
  JS.includes pre "/" = false ->
  pre <> EmptyString ->
  rest <> EmptyString ->
  Raw.id raw = pre +:+ String "/" rest ->
  let m := Parser.transformModel now raw in
  Provider.id (Model.provider m) = pre /\
  Model.slug m = rest /\
  Provider.id (Model.provider m) +:+ String "/" (Model.slug m) = Model.id m.
Proof.
  intros Hpre Hne Hrest Hid m. subst m. rewrite providerId_transformModel.
  change (Model.slug (Parser.transformModel now raw))
    with (Parser.parseModelSlug (Raw.id raw)).
  change (Model.id (Parser.transformModel now raw)) with (Raw.id raw).
  rewrite Hid, parseProviderId_with_slash, parseModelSlug_with_slash by done.
  by repeat case_decide.
Qed.

Lemma identifier_round_trip_witness :
  let m := Parser.transformModel 0
             (Samples.rawRecord "meta-llama/llama-3.3-70b-instruct" 131072 "0" "0") in
  Provider.id (Model.provider m) +:+ String "/" (Model.slug m) = Model.id m.
Proof.
  apply (identifier_round_trip 0
           (Samples.rawRecord "meta-llama/llama-3.3-70b-instruct" 131072 "0" "0")
           "meta-llama" "llama-3.3-70b-instruct"); done.
Defined.

Lemma or_zero_is_zero x :
  PrimFloat.eqb (JS.or_zero x) 0%float = true -> JS.or_zero x = 0%float.
Proof.
  unfold JS.or_zero, JS.truthy_float.
  destruct (PrimFloat.eqb x 0%float) eqn:Hz; simpl; [done|].
  destruct (PrimFloat.is_nan x); simpl; [done|].
  by rewrite Hz.
Qed.

(** X4: a model the parser marks free has both per-million prices equal to
    zero. *)
Theorem free_prices_are_zero (now : Timestamp) (raw : Raw.OpenRouterModel) :
  let pricing := Model.pricing (Parser.transformModel now raw) in
  Model.isFree pricing = true ->
  Model.promptPerMillion pricing = 0%float /\
  Model.completionPerMillion pricing = 0%float.
Proof.
  intros pricing. subst pricing.
  change (Model.pricing (Parser.transformModel now raw))
    with (Parser.parsePricing (Raw.pricing raw)).
  unfold Parser.parsePricing. simpl.
  intros [Hp Hc]%andb_true_iff.
  by rewrite (or_zero_is_zero _ Hp), (or_zero_is_zero _ Hc).
Qed.

Lemma free_prices_are_zero_witness :
  Model.promptPerMillion
    (Model.pricing
       (Parser.transformModel 0 (Samples.rawRecord "google/gemini" 500000 "0" "free")))
  = 0%float.
Proof.
  apply (free_prices_are_zero 0 (Samples.rawRecord "google/gemini" 500000 "0" "free")).
  reflexivity.
Defined.

Lemma when_truthy_Some x f v :
  JS.when_truthy x f = Some v ->
  exists y, x = Some y /\ nonzero_number y /\ v = f y.
Proof.
  unfold JS.when_truthy, JS.truthy_float.
  destruct x as [y|]; [|done].
  destruct (PrimFloat.eqb y 0%float) eqn:Hz; simpl; [done|].
  destruct (PrimFloat.is_nan y) eqn:Hn; simpl; [done|].
  intros [= <-]. by exists y.
Qed.

Lemma parseOptional_Some field x :
  Parser.parseOptional field = Some x <->
  exists s, field = Some s /\ s <> EmptyString /\ x = JS.parseFloat s.
Proof.
  unfold Parser.parseOptional. split.
  - destruct field as [[|c s]|]; [done| |done].
    intros [= <-]. by eexists.
  - intros ([|c s] & -> & Hs & ->); done.
Qed.

(** X5: an optional cost is present exactly when its field is a non-empty
    string, and is then what [parseFloat] makes of it; the three optional
    per-million prices are present only when their field parses to a number
    other than zero, so a reasoning or cache price of "0" is dropped while a
    request cost of "0" is kept. *)
Theorem optional_costs (now : Timestamp) (raw : Raw.OpenRouterModel) :
  let fields := Raw.pricing raw in
  let pricing := Model.pricing (Parser.transformModel now raw) in
  let present (field : option string) (cost : option float) :=
    forall x, cost = Some x <->
              exists s, field = Some s /\ s <> EmptyString /\ x = JS.parseFloat s in
  let scaled (field : option string) (cost : option float) :=
    forall x, cost = Some x ->
              exists s, field = Some s /\ s <> EmptyString /\
                        nonzero_number (JS.parseFloat s) /\
                        x = PrimFloat.mul (JS.parseFloat s) 1000000%float in
  present (Raw.request fields) (Model.requestCost pricing) /\
  present (Raw.image fields) (Model.imagePerImage pricing) /\
  present (Raw.web_search fields) (Model.webSearchCost pricing) /\
  scaled (Raw.internal_reasoning fields) (Model.reasoningPerMillion pricing) /\
  scaled (Raw.input_cache_read fields) (Model.cacheReadPerMillion pricing) /\
  scaled (Raw.input_cache_write fields) (Model.cacheWritePerMillion pricing).
Proof.
  intros fields pricing present scaled. subst pricing present scaled.
  change (Model.pricing (Parser.transformModel now raw))
    with (Parser.parsePricing (Raw.pricing raw)).
  fold fields. unfold Parser.parsePricing. simpl.
  assert (Hscaled : forall field x,
             JS.when_truthy (Parser.parseOptional field) Parser.perMillion = Some x ->
             exists s, field = Some s /\ s <> EmptyString /\
                       nonzero_number (JS.parseFloat s) /\
                       x = PrimFloat.mul (JS.parseFloat s) 1000000%float).
  { intros field x (y & Hy & Hnz & ->)%when_truthy_Some.
    apply parseOptional_Some in Hy as (s & -> & Hs & ->). by exists s. }
  repeat split; try (by apply parseOptional_Some); by apply Hscaled.
Qed.

Lemma optional_costs_witness :
  (exists s, Raw.request (Raw.pricing Samples.metered) = Some s /\
             s <> EmptyString /\ 0%float = JS.parseFloat s) /\
  (exists s, Raw.internal_reasoning (Raw.pricing Samples.metered) = Some s /\
             s <> EmptyString /\ nonzero_number (JS.parseFloat s) /\
             60%float = PrimFloat.mul (JS.parseFloat s) 1000000%float).
Proof.
  pose proof (optional_costs 0 Samples.metered) as (Hrequest & _ & _ & Hreasoning & _).
  split.
  - apply (proj1 (Hrequest 0%float)). vm_compute. reflexivity.
  - apply (Hreasoning 60%float). vm_compute. reflexivity.
Defined.

Example optional_costs_zero :
  let pricing :=
    Parser.parsePricing
      {| Raw.prompt := "0.000003"; Raw.completion := "0.000015";
         Raw.request := Some "0"; Raw.image := None; Raw.web_search := None;
         Raw.internal_reasoning := Some "0";
         Raw.input_cache_read := Some "0.0000003";
         Raw.input_cache_write := None |} in
  Model.requestCost pricing = Some 0%float /\
  Model.reasoningPerMillion pricing = None /\
  Model.cacheWritePerMillion pricing = None.
Proof. vm_compute. repeat split. Qed.

(** X6: [maxCompletionTokens] is never zero for a model with a non-zero
    context length. *)
Theorem maxCompletionTokens_nonzero (now : Timestamp) (raw : Raw.OpenRouterModel) :
  Raw.context_length raw <> 0 ->
  Model.maxCompletionTokens (Parser.transformModel now raw) <> 0.
Proof.
  intros Hctx. simpl.
  set (chain := JS.or_int _ _).
  unfold JS.or_else_int, JS.truthy_int.
  destruct chain as [n|]; [|lia].
  destruct (Z.eqb_spec n 0); simpl; [lia | done].
Qed.

Lemma maxCompletionTokens_nonzero_witness :
  Model.maxCompletionTokens
    (Parser.transformModel 0
       (Samples.withMaxCompletionTokens 0
          (Samples.rawRecord "openai/gpt-4o" 128000 "0" "0")))
  <> 0.
Proof.
  apply (maxCompletionTokens_nonzero 0
           (Samples.withMaxCompletionTokens 0
              (Samples.rawRecord "openai/gpt-4o" 128000 "0" "0"))).
  simpl. lia.
Defined.

(** X7: every input modality of a normalized model is one of text, image,
    audio, video, file and every output modality one of text, image, audio.
    Without an explicit upstream list the input modalities start with
    "text" and the output modalities are just "text"; with an explicit list
    they are that list restricted to the vocabulary, so an explicit empty
    list gives no modality at all. *)
Theorem modalities_vocabulary (now : Timestamp) (raw : Raw.OpenRouterModel) :
  let caps := Model.capabilities (Parser.transformModel now raw) in
  let explicitInput := Raw.architecture raw ≫= Raw.input_modalities in
  let explicitOutput := Raw.architecture raw ≫= Raw.output_modalities in
  Forall (λ m, m ∈ inputVocabulary) (Model.inputModalities caps) /\
  Forall (λ m, m ∈ outputVocabulary) (Model.outputModalities caps) /\
  (explicitInput = None -> head (Model.inputModalities caps) = Some "text") /\
  (explicitOutput = None -> Model.outputModalities caps = ["text"]) /\
  (forall l, explicitInput = Some l ->
             Model.inputModalities caps = filter (λ m, m ∈ inputVocabulary) l) /\
  (forall l, explicitOutput = Some l ->
             Model.outputModalities caps = filter (λ m, m ∈ outputVocabulary) l).
Proof.
  intros caps explicitInput explicitOutput. subst caps. simpl.
  unfold Parser.parseInputModalities, Parser.parseOutputModalities.
  fold explicitInput explicitOutput.
  repeat split.
  - destruct explicitInput as [l|].
    + apply Forall_forall. by intros m [Hm _]%list_elem_of_filter.
    + destruct (JS.includes _ "image"), (JS.includes _ "audio"),
        (JS.includes _ "video"); simpl;
        repeat (constructor; [unfold inputVocabulary; set_solver-|]);
        constructor.
  - destruct explicitOutput as [l|].
    + apply Forall_forall. by intros m [Hm _]%list_elem_of_filter.
    + repeat constructor.
  - by intros ->.
  - by intros ->.
  - by intros l ->.
  - by intros l ->.
Qed.

Lemma modalities_vocabulary_witness :
  head (Model.inputModalities
          (Model.capabilities
             (Parser.transformModel 0 (Samples.rawRecord "openai/gpt-4o" 128000 "0" "0"))))
  = Some "text".
Proof.
  apply (proj1 (proj2 (proj2 (modalities_vocabulary 0
           (Samples.rawRecord "openai/gpt-4o" 128000 "0" "0"))))).
  reflexivity.
Defined.

(** X8: the derived capability fields agree with each other:
    [supportsImages] holds exactly when "image" is an input modality; the
    legacy modality is "text" exactly when no image, audio or video input is
    present, and "text+image" only for a model with image input and at most
    one output modality; streaming is always on. *)
Theorem capabilities_consistent (now : Timestamp) (raw : Raw.OpenRouterModel) :
  let caps := Model.capabilities (Parser.transformModel now raw) in
  let inputs := Model.inputModalities caps in
  (Model.supportsImages caps = true <-> "image" ∈ inputs) /\
  (Model.modality caps = text <->
     ("image" ∉ inputs) /\ ("audio" ∉ inputs) /\ ("video" ∉ inputs)) /\
  (Model.modality caps = text_image ->
     ("image" ∈ inputs) /\ ("audio" ∉ inputs) /\ ("video" ∉ inputs) /\
     (length (Model.outputModalities caps) <= 1)%nat) /\
  (Model.modality caps = multimodal ->
     "audio" ∈ inputs \/ "video" ∈ inputs \/
     ("image" ∈ inputs /\ (1 < length (Model.outputModalities caps))%nat)) /\
  Model.supportsStreaming caps = true.
Proof.
  intros caps inputs. subst caps inputs. simpl.
  set (inputs := Parser.parseInputModalities raw).
  set (outputs := Parser.parseOutputModalities raw).
  split; [apply bool_decide_eq_true|].
  destruct (decide ("image" ∈ inputs)) as [Hi|Hi];
    destruct (decide ("audio" ∈ inputs)) as [Ha|Ha];
    destruct (decide ("video" ∈ inputs)) as [Hv|Hv];
    rewrite ?(bool_decide_eq_true_2 _ Hi), ?(bool_decide_eq_false_2 _ Hi),
      ?(bool_decide_eq_true_2 _ Ha), ?(bool_decide_eq_false_2 _ Ha),
      ?(bool_decide_eq_true_2 _ Hv), ?(bool_decide_eq_false_2 _ Hv);
    simpl;
    try (destruct (Z.ltb_spec 1 (Z.of_nat (length outputs))); simpl);
    repeat split; try done; try tauto; try (intros; lia); auto.
  all: try (intros _; right; right; split; [done | lia]).
Qed.

Lemma capabilities_consistent_witness :
  let inputs :=
    Model.inputModalities
      (Model.capabilities
         (Parser.transformModel 0 (Samples.rawRecord "openai/gpt-4o" 128000 "0" "0"))) in
  ("image" ∉ inputs) /\ ("audio" ∉ inputs) /\ ("video" ∉ inputs).
Proof.
  apply (proj1 (proj1 (proj2 (capabilities_consistent 0
           (Samples.rawRecord "openai/gpt-4o" 128000 "0" "0"))))).
  reflexivity.
Defined.

(* ===================================================================== *)
(** * Further properties of the registry *)
(* ===================================================================== *)

Section RegistryIndices.

Implicit Types (models : list Model.LLMModel) (m : Model.LLMModel).

Lemma bucket_Some l b : bucket l = Some b -> b = l /\ l <> [].
Proof. destruct l; [done|]. by intros [= <-]. Qed.

Lemma bucket_None l : bucket l = None <-> l = [].
Proof. by destruct l. Qed.

Lemma length_by_tier models :
  Z.of_nat (length models)
  = Z.of_nat (length (ofTier tiny models)) + Z.of_nat (length (ofTier small models))
    + Z.of_nat (length (ofTier medium models))
    + Z.of_nat (length (ofTier large models))
    + Z.of_nat (length (ofTier massive models)).
Proof.
  unfold ofTier. induction models as [|x models IH]; [done|].
  rewrite !(filter_cons _ x). cbn [length]. rewrite Nat2Z.inj_succ, IH.
  destruct (Model.sizeTier x); repeat case_decide; try done;
    cbn [length]; lia.
Qed.

Lemma filter_StronglySorted {A} (R : relation A) (P : A -> Prop)
    `{!forall x, Decision (P x)} (l : list A) :
  StronglySorted R l -> StronglySorted R (filter P l).
Proof.
  induction 1 as [|x l Hl IH Hx]; [constructor|].
  rewrite filter_cons. case_decide; [|done].
  constructor; [done|].
  apply Forall_forall. intros y [_ Hy]%list_elem_of_filter.
  by eapply Forall_forall in Hx.
Qed.

Lemma ixById_None models k :
  Parser.ixById (foldl Parser.indexModel Parser.emptyIndices models) !! k = None
  <-> k ∉ Model.id <$> models.
Proof.
  split.
  - intros Hnone (m & -> & Hm)%list_elem_of_fmap.
    destruct (ixById_complete models m Hm) as [m' Hm']. congruence.
  - intros Hnotin.
    destruct (Parser.ixById _ !! k) as [m|] eqn:Hk; [|done].
    apply ixById_sound in Hk as [Hm <-].
    destruct Hnotin. by apply list_elem_of_fmap_2.
Qed.

Lemma size_ixById models :
  (size (Parser.ixById (foldl Parser.indexModel Parser.emptyIndices models))
   <= length models)%nat /\
  (size (Parser.ixById (foldl Parser.indexModel Parser.emptyIndices models))
   = length models <-> NoDup (Model.id <$> models)).
Proof.
  induction models as [|x models [IHle IHeq]] using rev_ind.
  - simpl. rewrite map_size_empty. split; [done|]. split; [constructor | done].
  - rewrite ixById_snoc, map_size_insert, fmap_app, length_app, NoDup_app.
    simpl.
    destruct (Parser.ixById _ !! Model.id x) as [m|] eqn:Hx.
    + split; [simpl; lia|]. split; [simpl; lia|].
      intros (_ & Hdisjoint & _).
      apply ixById_sound in Hx as [Hm Hid].
      destruct (Hdisjoint (Model.id x)); [|apply list_elem_of_here].
      rewrite <- Hid. by apply list_elem_of_fmap_2.
    + apply ixById_None in Hx. split; [lia|]. split.
      * intros Hsize. split; [apply IHeq; lia|]. split.
        -- intros k Hk ->%list_elem_of_singleton. done.
        -- apply NoDup_singleton.
      * intros (Hnodup & _ & _). apply IHeq in Hnodup. lia.
Qed.

End RegistryIndices.

(** X9: [buildRegistry] throws exactly when the provider id of a model
    names a member of [Object.prototype].  When it returns, reading
    [byProvider[p]] gives, for a provider that has a model, its bucket,
    which holds exactly the models of that provider in registry order and
    is never empty; for a name of a member of [Object.prototype], that
    member; and for any other [p], nothing. *)
Theorem byProvider_buckets
    (now : Timestamp) (models : list Model.LLMModel) (source : option Source) :
  ((exists e, Fetcher.buildRegistry now models source = Fetcher.Throw e) <->
   exists m, m ∈ models /\ inheritedProvider m = true) /\
  (forall registry,
     Fetcher.buildRegistry now models source = Fetcher.Ok registry ->
     (forall p b, JS.read (Registry.byProvider registry) p = JS.Own b ->
                  b = ofProvider p models /\ b <> []) /\
     (forall m, m ∈ models ->
                exists b, JS.read (Registry.byProvider registry)
                            (Provider.id (Model.provider m)) = JS.Own b /\
                          m ∈ b) /\
     (forall p, JS.read (Registry.byProvider registry) p = JS.Inherited <->
                JS.inherited p = true) /\
     (forall p, JS.read (Registry.byProvider registry) p = JS.Absent <->
                JS.inherited p = false /\
                forall m, m ∈ models -> Provider.id (Model.provider m) <> p)).
Proof.
  assert (Hany : existsb inheritedProvider models = true <->
                 exists m, m ∈ models /\ inheritedProvider m = true).
  { rewrite existsb_exists. by setoid_rewrite list_elem_of_In. }
  split.
  - rewrite buildRegistry_call, <- Hany.
    destruct (existsb inheritedProvider models); split;
      first [done | by eexists | by intros [? [=]]].
  - intros registry [-> Hclean]%buildRegistry_returns.
    pose proof (wf_byProvider _ (buildRegistry_wellFormed now models source))
      as Hbuckets.
    change (Registry.models (Parser.buildRegistry now models source))
      with models in Hbuckets.
    set (registry := Parser.buildRegistry now models source) in *.
    assert (Hown : forall m, m ∈ models ->
              exists b, Registry.byProvider registry
                          !! Provider.id (Model.provider m) = Some b /\ m ∈ b).
    { intros m Hm. rewrite Hbuckets.
      assert (Hin : m ∈ ofProvider (Provider.id (Model.provider m)) models)
        by (by apply list_elem_of_filter).
      destruct (ofProvider _ models) as [|x l] eqn:Hb;
        [by apply elem_of_nil in Hin|].
      by exists (x :: l). }
    assert (Hnone : forall p,
              Registry.byProvider registry !! p = None <->
              forall m, m ∈ models -> Provider.id (Model.provider m) <> p).
    { intros p. rewrite Hbuckets, bucket_None. unfold ofProvider. split.
      - intros Hnil m Hm Hp.
        assert (Hin : m ∈ filter (λ m, Provider.id (Model.provider m) = p) models)
          by (by apply list_elem_of_filter).
        rewrite Hnil in Hin. by apply elem_of_nil in Hin.
      - intros Hno.
        destruct (filter _ models) as [|x l] eqn:Hfilter; [done|].
        assert (Hin : x ∈ filter (λ m, Provider.id (Model.provider m) = p) models)
          by (rewrite Hfilter; apply list_elem_of_here).
        apply list_elem_of_filter in Hin as [Hp Hx]. by destruct (Hno x Hx). }
    assert (Hinherited : forall p,
              JS.inherited p = true -> Registry.byProvider registry !! p = None).
    { intros p Hp. apply Hnone. intros m Hm <-.
      apply (proj1 (Forall_forall _ _) Hclean) in Hm.
      unfold inheritedProvider in Hm. congruence. }
    split; [|split; [|split]].
    + intros p b. unfold JS.read.
      destruct (Registry.byProvider registry !! p) as [b'|] eqn:Hp;
        [|by destruct (JS.inherited p)].
      intros [= <-]. rewrite Hbuckets in Hp.
      by apply bucket_Some in Hp as [-> Hne].
    + intros m Hm. destruct (Hown m Hm) as (b & Hb & Hin).
      exists b. unfold JS.read. by rewrite Hb.
    + intros p. unfold JS.read. split.
      * destruct (Registry.byProvider registry !! p); [done|].
        by destruct (JS.inherited p).
      * intros Hp. by rewrite (Hinherited p Hp), Hp.
    + intros p. unfold JS.read. split.
      * destruct (Registry.byProvider registry !! p) eqn:Hp; [done|].
        destruct (JS.inherited p); [done|]. intros _. split; [done|].
        by apply Hnone.
      * intros [Hp Hno]. apply Hnone in Hno. by rewrite Hno, Hp.
Qed.

Lemma byProvider_buckets_witness :
  exists b,
    JS.read
      (Registry.byProvider
         (Parser.buildRegistry 0 [Samples.gpt4o; Samples.claude] None))
      (Provider.id (Model.provider Samples.claude)) = JS.Own b /\
    Samples.claude ∈ b.
Proof.
  apply (proj1 (proj2 (proj2 (byProvider_buckets 0 [Samples.gpt4o; Samples.claude] None)
                         _ eq_refl))
           Samples.claude).
  apply list_elem_of_further, list_elem_of_here.
Defined.

(** X10: the five tier buckets of a registry partition its models: the
    bucket of a tier holds exactly the models of that tier, in registry
    order, so every model is in one bucket, that of its tier, and the
    bucket sizes add up to [modelCount]. *)
Theorem byTier_partition
    (now : Timestamp) (models : list Model.LLMModel) (source : option Source) :
  let registry := Parser.buildRegistry now models source in
  (forall t, Registry.byTier registry t = ofTier t models) /\
  (forall t m, m ∈ Registry.byTier registry t <->
               m ∈ models /\ Model.sizeTier m = t) /\
  Registry.modelCount (Registry.metadata registry)
  = Z.of_nat (length (Registry.byTier registry tiny))
    + Z.of_nat (length (Registry.byTier registry small))
    + Z.of_nat (length (Registry.byTier registry medium))
    + Z.of_nat (length (Registry.byTier registry large))
    + Z.of_nat (length (Registry.byTier registry massive)).
Proof.
  intros registry.
  pose proof (wf_byTier _ (buildRegistry_wellFormed now models source))
    as Hbuckets.
  fold registry in Hbuckets.
  change (Registry.models registry) with models in Hbuckets.
  split; [exact Hbuckets|]. split.
  - intros t m. rewrite Hbuckets. unfold ofTier.
    rewrite list_elem_of_filter. tauto.
  - rewrite !Hbuckets. apply length_by_tier.
Qed.

(** X11: in a registry built from [transformModels], every provider bucket
    and every tier bucket is sorted by context length, largest first, and
    the tier bucket of a model is the tier of its context length. *)
Theorem buckets_sorted
    (clock : nat -> Timestamp) (now : Timestamp)
    (raws : list Raw.OpenRouterModel) (source : option Source) :
  let registry :=
    Parser.buildRegistry now (Parser.transformModels clock raws) source in
  (forall p b, Registry.byProvider registry !! p = Some b -> contextDescending b) /\
  (forall t, contextDescending (Registry.byTier registry t)) /\
  (forall t m, m ∈ Registry.byTier registry t ->
               Parser.getSizeTier (Model.contextLength m) = t).
Proof.
  intros registry.
  pose proof (buildRegistry_wellFormed now (Parser.transformModels clock raws) source)
    as [_ _ _ _ _ _ HbyProvider HbyTier].
  fold registry in HbyProvider, HbyTier.
  change (Registry.models registry)
    with (Parser.transformModels clock raws) in HbyProvider, HbyTier.
  pose proof (sort_contextDescending
                (imap (λ i raw, Parser.transformModel (clock i) raw) raws))
    as Hsorted.
  fold (Parser.transformModels clock raws) in Hsorted.
  split; [|split].
  - intros p b. rewrite HbyProvider. intros [-> _]%bucket_Some.
    by apply filter_StronglySorted.
  - intros t. rewrite HbyTier. by apply filter_StronglySorted.
  - intros t m. rewrite HbyTier. unfold ofTier.
    intros [<- Hm]%list_elem_of_filter.
    unfold Parser.transformModels in Hm. rewrite sort_perm in Hm.
    apply list_elem_of_lookup in Hm as [i Hi].
    rewrite list_lookup_imap in Hi.
    destruct (raws !! i) as [raw|]; [|done].
    simpl in Hi. injection Hi as <-. reflexivity.
Qed.

Lemma buckets_sorted_witness :
  let raw := Samples.rawRecord "anthropic/claude-3.5-sonnet" 200000 "0.000003" "0.000015" in
  Parser.getSizeTier (Model.contextLength (Parser.transformModel 0 raw)) = large.
Proof.
  intros raw.
  assert (Hbucket :
    Registry.byTier
      (Parser.buildRegistry 0 (Parser.transformModels (λ _, 0) [raw]) None) large
    = [Parser.transformModel 0 raw]) by (vm_compute; reflexivity).
  apply (proj2 (proj2 (buckets_sorted (λ _, 0) 0 [raw] None)) large).
  rewrite Hbucket. apply list_elem_of_here.
Defined.

(** X12: in a registry [buildRegistry] returns, the identifier index never
    has more own properties than the registry has models, and has as many
    exactly when the identifiers of the models are pairwise distinct and
    none of them is "__proto__", under which a write adds no property. *)
Theorem byId_size
    (now : Timestamp) (models : list Model.LLMModel) (source : option Source)
    (registry : Registry.ModelRegistry) :
  Fetcher.buildRegistry now models source = Fetcher.Ok registry ->
  Z.of_nat (size (ownKeys (Registry.byId registry)))
  <= Registry.modelCount (Registry.metadata registry) /\
  (Z.of_nat (size (ownKeys (Registry.byId registry)))
   = Registry.modelCount (Registry.metadata registry)
   <-> NoDup (Model.id <$> models) /\
       Forall (λ m, Model.id m <> "__proto__") models).
Proof.
  intros [-> _]%buildRegistry_returns. simpl.
  set (byId := Parser.ixById (foldl Parser.indexModel Parser.emptyIndices models)).
  destruct (size_ixById models) as [Hle Heq]. fold byId in Hle, Heq.
  rewrite <- size_dom in Hle, Heq.
  assert (Hproto : "__proto__" ∉ dom byId <->
                   Forall (λ m, Model.id m <> "__proto__") models).
  { rewrite not_elem_of_dom. unfold byId. rewrite ixById_None, Forall_forall.
    split.
    - intros Hnotin m Hm Hid. apply Hnotin. rewrite <- Hid.
      by apply list_elem_of_fmap_2.
    - intros Hall (m & Hid & Hm)%list_elem_of_fmap. by apply (Hall m Hm). }
  unfold ownKeys.
  destruct (decide ("__proto__" ∈ dom byId)) as [Hin|Hnotin].
  - assert (Hsize : size (dom byId ∖ {["__proto__"]}) = (size (dom byId) - 1)%nat).
    { rewrite size_difference by (by apply singleton_subseteq_l).
      by rewrite size_singleton. }
    assert (Hpos : size (dom byId) <> 0%nat).
    { intros Hzero%size_empty_inv. apply Hzero in Hin.
      by apply not_elem_of_empty in Hin. }
    rewrite Hsize. split; [lia|]. split; [lia|].
    intros [_ Hall]. by apply Hproto in Hall.
  - assert (Hsame : dom byId ∖ {["__proto__"]} = dom byId).
    { apply difference_disjoint_L. by apply disjoint_singleton_r. }
    rewrite Hsame. split; [lia|]. rewrite <- Hproto, <- Heq. split.
    + intros Hsize. split; [lia | done].
    + intros [Hsize _]. lia.
Qed.

Lemma byId_size_witness :
  let registry := Parser.buildRegistry 0 [Samples.gpt4o; Samples.claude] None in
  Z.of_nat (size (ownKeys (Registry.byId registry)))
  = Registry.modelCount (Registry.metadata registry).
Proof.
  apply (proj2 (byId_size 0 [Samples.gpt4o; Samples.claude] None _ eq_refl)).
  split; [|by repeat constructor].
  refine (bool_decide_unpack _ _). vm_compute. exact I.
Defined.

Section Providers.

Variable localeCompare : string -> string -> Z.

Implicit Types (models : list Model.LLMModel).

Let collected models := foldl Utils.collectProvider (∅, []) models.

(** What the loop of [getProviders] keeps: the identifiers seen are those
    of the providers pushed and those of the models read; no identifier is
    pushed twice; a provider pushed is that of the first model with its
    identifier. *)
Lemma collectProvider_invariant models :
  (collected models).1 = list_to_set (Provider.id <$> (collected models).2) /\
  (collected models).1
  = list_to_set ((λ m, Provider.id (Model.provider m)) <$> models) /\
  NoDup (Provider.id <$> (collected models).2) /\
  (forall p, p ∈ (collected models).2 ->
     exists before m after,
       models = before ++ m :: after /\ Model.provider m = p /\
       Forall (λ m', Provider.id (Model.provider m') <> Provider.id p) before).
Proof.
  subst collected. simpl.
  induction models as [|x models (Hseen & Hids & Hnodup & Hfirst)] using rev_ind.
  - simpl. repeat split; [constructor|]. by intros p ?%elem_of_nil.
  - rewrite foldl_snoc.
    destruct (foldl Utils.collectProvider (∅, []) models) as [seen providers].
    simpl in *. unfold Utils.collectProvider.
    rewrite fmap_app, list_to_set_app_L. simpl. rewrite union_empty_r_L.
    case_bool_decide as Hx; simpl.
    + assert (Hsub : {[Provider.id (Model.provider x)]} ⊆ seen)
        by (by apply singleton_subseteq_l).
      repeat split; [done | | done |].
      * rewrite <- Hids, (comm_L (∪) seen). symmetry.
        by apply subseteq_union_1_L.
      * intros p (before & m & after & -> & Hm & Hbefore)%Hfirst.
        exists before, m, (after ++ [x]).
        by rewrite <- app_assoc.
    + repeat split.
      * rewrite fmap_app, list_to_set_app_L, <- Hseen. simpl.
        rewrite union_empty_r_L. apply (comm_L (∪)).
      * rewrite <- Hids. apply (comm_L (∪)).
      * rewrite fmap_app. apply NoDup_app. split; [done|]. split.
        -- intros k Hk ->%list_elem_of_singleton. apply Hx.
           rewrite Hseen. by apply elem_of_list_to_set.
        -- apply NoDup_singleton.
      * intros p [Hp | ->%list_elem_of_singleton]%elem_of_app.
        -- destruct (Hfirst p Hp) as (before & m & after & -> & Hm & Hbefore).
           exists before, m, (after ++ [x]).
           by rewrite <- app_assoc.
        -- exists models, x, []. split; [done|]. split; [done|].
           apply Forall_forall. intros m' Hm' Heq. apply Hx.
           rewrite Hids, <- Heq. apply elem_of_list_to_set.
           by apply (list_elem_of_fmap_2 (λ m, Provider.id (Model.provider m))).
Qed.

End Providers.

(** X13: [getProviders] lists every provider of the models once: the
    identifiers of the result are pairwise distinct, every model's provider
    identifier is among them, each provider listed is that of the first
    model carrying its identifier, and there are as many as the
    [providerCount] of a registry built from the same models. *)
Theorem getProviders_distinct
    (localeCompare : string -> string -> Z) (models : list Model.LLMModel) :
  let providers := Utils.getProviders localeCompare models in
  NoDup (Provider.id <$> providers) /\
  (forall m, m ∈ models ->
             Provider.id (Model.provider m) ∈ Provider.id <$> providers) /\
  (forall p, p ∈ providers ->
     exists before m after,
       models = before ++ m :: after /\ Model.provider m = p /\
       Forall (λ m', Provider.id (Model.provider m') <> Provider.id p) before) /\
  (forall now source,
     Z.of_nat (length providers)
     = Registry.providerCount
         (Registry.metadata (Parser.buildRegistry now models source))).
Proof.
  intros providers. subst providers. unfold Utils.getProviders.
  destruct (collectProvider_invariant models) as (Hseen & Hids & Hnodup & Hfirst).
  destruct (foldl Utils.collectProvider (∅, []) models) as [seen collected].
  simpl in *.
  set (cmp := λ a b : Provider.ModelProvider, _).
  pose proof (sort_perm cmp collected) as Hperm.
  split; [|split; [|split]].
  - by rewrite Hperm.
  - intros m Hm. rewrite Hperm.
    apply (elem_of_list_to_set (C := gset string)).
    rewrite <- Hseen, Hids. apply elem_of_list_to_set.
    by apply (list_elem_of_fmap_2 (λ m, Provider.id (Model.provider m))).
  - intros p Hp. rewrite Hperm in Hp. by apply Hfirst.
  - intros now source. simpl. rewrite Hperm, <- Hids, Hseen.
    rewrite size_list_to_set by done. by rewrite length_fmap.
Qed.

Lemma getProviders_distinct_witness :
  Provider.id (Model.provider Samples.claude)
  ∈ Provider.id <$> Utils.getProviders (λ _ _, 0) [Samples.gpt4o; Samples.claude].
Proof.
  apply (proj1 (proj2 (getProviders_distinct (λ _ _, 0)
                         [Samples.gpt4o; Samples.claude]))).
  apply list_elem_of_further, list_elem_of_here.
Defined.

(* ===================================================================== *)
(** * Further properties of the fallback chain *)
(* ===================================================================== *)

Lemma length_transformModels clock raws :
  length (Parser.transformModels clock raws) = length raws.
Proof. unfold Parser.transformModels. by rewrite length_sort, length_imap. Qed.

Lemma fetchRegistry_throws w :
  (exists e, Fetcher.fetchRegistry w = Fetcher.Throw e) <-> apiFails w.
Proof.
  unfold apiFails. rewrite fetchRegistry_call.
  unfold Fetcher.fetchFromOpenRouter, Fetcher.bind.
  destruct (Fetcher.fetchApi w) as [response|e]; [|by split; [|eexists]].
  destruct (Fetcher.ok response); simpl; [|by split; [left|eexists]].
  destruct (Fetcher.json response) as [[|[|[]|records]]|e]; simpl;
    try destruct (rejects records);
    split; try (by intros [? [=]]); try (by intros [[=]|[]]);
    try (by intros [[=]|[=]]); try (by right); by eexists.
Qed.



(** X15: a successful response whose body has no [data] member, or a
    falsy one, is not a failure of the API stage: the chain returns a
    registry tagged [api] that holds no model. *)
Theorem api_body_without_records (w : Fetcher.World) (response : Fetcher.Response) :
  Fetcher.fetchApi w = Fetcher.Ok response ->
  Fetcher.ok response = true ->
  Fetcher.json response = Fetcher.Ok (Fetcher.DocValue Fetcher.DataAbsent) \/
  Fetcher.json response = Fetcher.Ok (Fetcher.DocValue (Fetcher.DataOther false)) ->
  exists registry,
    Fetcher.fetchRegistryWithFallback w = Fetcher.Ok registry /\
    Registry.source (Registry.metadata registry) = api /\
    Registry.models registry = [] /\
    Registry.modelCount (Registry.metadata registry) = 0.
Proof.
  intros Hfetch Hok Hjson.
  unfold Fetcher.fetchRegistryWithFallback. rewrite fetchRegistry_call.
  unfold Fetcher.fetchFromOpenRouter, Fetcher.bind.
  rewrite Hfetch, Hok. simpl.
  destruct Hjson as [-> | ->]; simpl; by eexists.
Qed.

Lemma api_body_without_records_witness :
  exists registry,
    Fetcher.fetchRegistryWithFallback
      (Samples.answering Fetcher.DataAbsent (Fetcher.Throw "Cannot find module"))
    = Fetcher.Ok registry /\
    Registry.source (Registry.metadata registry) = api /\
    Registry.models registry = [].
Proof.
  destruct (api_body_without_records
              (Samples.answering Fetcher.DataAbsent (Fetcher.Throw "Cannot find module"))
              _ eq_refl eq_refl (or_introl eq_refl))
    as (registry & Hrun & Hsource & Hmodels & _).
  by exists registry.
Defined.

(** X16: when the API answers with a success status and a body that holds
    under [data] an array of records none of which makes the parser throw,
    the chain returns the registry built from these records, whatever the
    snapshot holds: it is tagged [api], counts one model per record, and
    its models are the transformed records sorted by context length. *)
Theorem api_success_serves_api
    (w : Fetcher.World) (response : Fetcher.Response)
    (records : list Raw.OpenRouterModel) :
  Fetcher.fetchApi w = Fetcher.Ok response ->
  Fetcher.ok response = true ->
  Fetcher.json response = Fetcher.Ok (Fetcher.DocValue (Fetcher.DataArray records)) ->
  rejects records = false ->
  exists registry,
    Fetcher.fetchRegistryWithFallback w = Fetcher.Ok registry /\
    Registry.source (Registry.metadata registry) = api /\
    Registry.modelCount (Registry.metadata registry) = Z.of_nat (length records) /\
    Registry.models registry
    = Parser.transformModels (Fetcher.transformClock w) records /\
    contextDescending (Registry.models registry).
Proof.
  intros Hfetch Hok Hjson Haccepted.
  unfold Fetcher.fetchRegistryWithFallback. rewrite fetchRegistry_call.
  unfold Fetcher.fetchFromOpenRouter, Fetcher.bind.
  rewrite Hfetch, Hok. simpl. rewrite Hjson, Haccepted.
  eexists. split; [reflexivity|]. split; [done|]. simpl.
  split; [by rewrite length_transformModels|]. split; [done|].
  apply sort_contextDescending.
Qed.

Lemma api_success_serves_api_witness :
  exists registry,
    Fetcher.fetchRegistryWithFallback
      (Samples.answering
         (Fetcher.DataArray [Samples.rawRecord "openai/gpt-4o" 128000 "0" "0"])
         (Fetcher.Ok Fetcher.DocNull))
    = Fetcher.Ok registry /\
    Registry.source (Registry.metadata registry) = api.
Proof.
  destruct (api_success_serves_api
              (Samples.answering
                 (Fetcher.DataArray [Samples.rawRecord "openai/gpt-4o" 128000 "0" "0"])
                 (Fetcher.Ok Fetcher.DocNull))
              _ [Samples.rawRecord "openai/gpt-4o" 128000 "0" "0"]
              eq_refl eq_refl eq_refl eq_refl)
    as (registry & Hrun & Hsource & _).
  by exists registry.
Defined.

(** X17: [loadFromSnapshot] never throws.  It returns a registry exactly
    when the snapshot holds under [data] an array of records none of which
    makes the parser throw; that registry is tagged [snapshot] and counts
    one model per record.  When a record makes the parser throw, the
    exception is caught and the result is [null], as it is when the import
    fails or the snapshot holds no array. *)
Theorem loadFromSnapshot_outcomes (w : Fetcher.World) :
  (exists result, Fetcher.loadFromSnapshot w = Fetcher.Ok result) /\
  (forall records,
     Fetcher.importSnapshot w
     = Fetcher.Ok (Fetcher.DocValue (Fetcher.DataArray records)) ->
     rejects records = false ->
     exists registry,
       Fetcher.loadFromSnapshot w = Fetcher.Ok (Some registry) /\
       Registry.source (Registry.metadata registry) = snapshot /\
       Registry.modelCount (Registry.metadata registry)
       = Z.of_nat (length records)) /\
  (forall records,
     Fetcher.importSnapshot w
     = Fetcher.Ok (Fetcher.DocValue (Fetcher.DataArray records)) ->
     rejects records = true ->
     Fetcher.loadFromSnapshot w = Fetcher.Ok None) /\
  ((forall records,
      Fetcher.importSnapshot w
      <> Fetcher.Ok (Fetcher.DocValue (Fetcher.DataArray records))) ->
   Fetcher.loadFromSnapshot w = Fetcher.Ok None).
Proof.
  split; [apply loadFromSnapshot_never_throws|].
  rewrite loadFromSnapshot_call. split; [|split].
  - intros records -> ->. eexists. split; [reflexivity|]. split; [done|].
    simpl. by rewrite length_transformModels.
  - by intros records -> ->.
  - intros Hnone.
    destruct (Fetcher.importSnapshot w) as [[|[| |records]]|e]; try done.
    by destruct (Hnone records).
Qed.

Lemma loadFromSnapshot_outcomes_witness :
  (exists registry,
     Fetcher.loadFromSnapshot Samples.snapshotOnly = Fetcher.Ok (Some registry) /\
     Registry.source (Registry.metadata registry) = snapshot /\
     Registry.modelCount (Registry.metadata registry) = 1) /\
  Fetcher.loadFromSnapshot Samples.prototypeNamed = Fetcher.Ok None.
Proof.
  split.
  - exact (proj1 (proj2 (loadFromSnapshot_outcomes Samples.snapshotOnly))
             [Samples.rawRecord "anthropic/claude-3.5-sonnet" 200000
                "0.000003" "0.000015"] eq_refl eq_refl).
  - exact (proj1 (proj2 (proj2 (loadFromSnapshot_outcomes Samples.prototypeNamed)))
             [Samples.rawRecord "constructor/x" 4096 "0" "0"] eq_refl eq_refl).
Defined.

(** X18: when the API stage fails and the snapshot holds an empty array,
    the chain serves the empty snapshot registry, not the hardcoded
    models. *)
Theorem empty_snapshot_is_served (w : Fetcher.World) :
  apiFails w ->
  Fetcher.importSnapshot w = Fetcher.Ok (Fetcher.DocValue (Fetcher.DataArray [])) ->
  exists registry,
    Fetcher.fetchRegistryWithFallback w = Fetcher.Ok registry /\
    Registry.source (Registry.metadata registry) = snapshot /\
    Registry.models registry = [].
Proof.
  intros [e He]%fetchRegistry_throws Hsnapshot.
  unfold Fetcher.fetchRegistryWithFallback. rewrite He.
  rewrite loadFromSnapshot_call, Hsnapshot. by eexists.
Qed.

Lemma empty_snapshot_is_served_witness :
  exists registry,
    Fetcher.fetchRegistryWithFallback Samples.emptySnapshot = Fetcher.Ok registry /\
    Registry.source (Registry.metadata registry) = snapshot /\
    Registry.models registry = [].
Proof. apply (empty_snapshot_is_served Samples.emptySnapshot); [exact I | reflexivity]. Defined.

(* ===================================================================== *)
(** * Properties of the client cache *)
(* ===================================================================== *)

Lemma expiresAt_buildRegistry now models source :
  Registry.expiresAt (Registry.metadata (Parser.buildRegistry now models source))
  = now + 86400000.
Proof. reflexivity. Qed.

(** X19: whatever stage of the chain a registry comes from, the hardcoded
    one included, it is fresh for exactly 24 hours after it is built: at an
    instant [t] it is fresh when [t] is less than 86,400,000 milliseconds
    after the build instant, and stale from that instant on. *)
Theorem registry_fresh_for_a_day
    (w : Fetcher.World) (registry : Registry.ModelRegistry) (t : Timestamp) :
  Fetcher.fetchRegistryWithFallback w = Fetcher.Ok registry ->
  (Cache.isCacheFresh t registry = true <-> t < Fetcher.buildClock w + 86400000).
Proof.
  intros Hrun. unfold Cache.isCacheFresh.
  assert (Hexpires : Registry.expiresAt (Registry.metadata registry)
                     = Fetcher.buildClock w + 86400000).
  { revert Hrun.
    unfold Fetcher.fetchRegistryWithFallback.
    rewrite fetchRegistry_call, loadFromSnapshot_call, getFallbackRegistry_call.
    unfold Fetcher.bind.
    destruct (Fetcher.fetchFromOpenRouter w) as [[records|]|e];
      try destruct (rejects records);
      try (by intros [= <-]);
      destruct (Fetcher.importSnapshot w) as [[|[| |rawModels]]|e'];
      try destruct (rejects rawModels);
      by intros [= <-]. }
  rewrite Hexpires. apply Z.ltb_lt.
Qed.

Lemma registry_fresh_for_a_day_witness :
  Cache.isCacheFresh 86399999
    (Parser.buildRegistry 0 (Fallback.FALLBACK_MODELS (λ _, 0)) (Some fallback))
  = true.
Proof.
  apply (registry_fresh_for_a_day Samples.offline _ 86399999).
  - apply getFallbackRegistry_call.
  - simpl. lia.
Defined.

(* ===================================================================== *)
(** * Properties of the icon and colour helpers *)
(* ===================================================================== *)

Section Overrides.

Lemma startsWith_refl s : JS.startsWith s s = true.
Proof. induction s as [|c s IH]; simpl; [done|]. by rewrite Ascii.eqb_refl. Qed.

Lemma inherited_objectPrototype key :
  JS.inherited key = true <-> key ∈ JS.objectPrototype.
Proof.
  unfold JS.inherited. rewrite existsb_exists. split.
  - intros (k & Hk%list_elem_of_In & ->%String.eqb_eq). done.
  - intros Hkey. exists key. split; [by apply list_elem_of_In|].
    apply String.eqb_refl.
Qed.

Lemma lookupKey_Own table k v :
  Provider.lookupKey table k = JS.Own v -> (k, v) ∈ table.
Proof.
  unfold Provider.lookupKey, JS.read.
  destruct (list_to_map table !! k) as [v'|] eqn:Hk.
  - intros [= <-]. by apply elem_of_list_to_map_2.
  - by destruct (JS.inherited k).
Qed.

(** Reading a key of the table gives its value. *)
Lemma lookupKey_key table k :
  k ∈ table.*1 -> exists v, Provider.lookupKey table k = JS.Own v.
Proof.
  intros Hk. unfold Provider.lookupKey, JS.read.
  destruct (list_to_map table !! k) as [v|] eqn:Hlook; [by exists v|].
  by apply not_elem_of_list_to_map_2 in Hlook.
Qed.

(** Reading a name that is no key, and no member of [Object.prototype],
    gives nothing. *)
Lemma lookupKey_Absent table k :
  k ∉ table.*1 -> JS.inherited k = false -> Provider.lookupKey table k = JS.Absent.
Proof.
  intros Hk Hinh. unfold Provider.lookupKey, JS.read.
  rewrite (not_elem_of_list_to_map_1 _ _ Hk). by rewrite Hinh.
Qed.

(** Where no key is a prefix of the slug, and the slug names no member of
    [Object.prototype], there is no override. *)
Lemma override_None table slug :
  JS.inherited slug = false ->
  Provider.findPrefix table slug = None -> Provider.override table slug = None.
Proof.
  unfold Provider.override, Provider.findPrefix. intros Hinh Hnone.
  rewrite Hnone. rewrite lookupKey_Absent; [done| |done].
  intros Hin%list_elem_of_In.
  pose proof (List.find_none _ _ Hnone slug Hin) as Hslug. simpl in Hslug.
  by rewrite startsWith_refl in Hslug.
Qed.

(** An override comes from an entry whose key is a prefix of the slug. *)
Lemma override_Some table slug found :
  JS.inherited slug = false ->
  Provider.override table slug = Some found ->
  exists k v, found = JS.Own v /\ (k, v) ∈ table /\ JS.startsWith slug k = true.
Proof.
  intros Hinh. unfold Provider.override.
  assert (Hprefix :
    match Provider.findPrefix table slug with
    | Some prefix =>
        if JS.truthy_string prefix
        then Some (Provider.lookupKey table prefix) else None
    | None => None
    end = Some found ->
    exists k v, found = JS.Own v /\ (k, v) ∈ table /\ JS.startsWith slug k = true).
  { destruct (Provider.findPrefix table slug) as [k|] eqn:Hk; [|done].
    apply List.find_some in Hk as [Hin%list_elem_of_In Hk].
    destruct (JS.truthy_string k); [|done].
    destruct (lookupKey_key table k Hin) as [v Hv]. rewrite Hv.
    intros [= <-]. exists k, v. split; [done|]. split; [|done].
    by apply lookupKey_Own. }
  destruct (Provider.lookupKey table slug) as [exact| |] eqn:Hexact.
  - destruct (JS.truthy_string exact); [|done].
    intros [= <-]. exists slug, exact. split; [done|].
    split; [by apply lookupKey_Own | apply startsWith_refl].
  - unfold Provider.lookupKey, JS.read in Hexact. rewrite Hinh in Hexact.
    by destruct (list_to_map table !! slug).
  - done.
Qed.

(** Where a key is a prefix of the slug there is an override. *)
Lemma override_prefix table slug k :
  Forall (λ k, JS.truthy_string k = true) table.*1 ->
  Provider.findPrefix table slug = Some k ->
  is_Some (Provider.override table slug).
Proof.
  intros Htruthy Hk. unfold Provider.override. rewrite Hk.
  destruct (Provider.lookupKey table slug) as [exact| |];
    [destruct (JS.truthy_string exact); [by eexists|] | by eexists |].
  all: apply List.find_some in Hk as [Hin%list_elem_of_In _].
  all: rewrite (proj1 (Forall_forall _ _) Htruthy k Hin); by eexists.
Qed.

(** Under the name of a member of [Object.prototype] the tables hold
    nothing of their own, so the read finds the member. *)
Lemma override_inherited slug :
  JS.inherited slug = true ->
  Provider.override Provider.MODEL_ICONS slug = Some JS.Inherited /\
  Provider.override Provider.MODEL_COLORS slug = Some JS.Inherited.
Proof.
  intros Hslug%inherited_objectPrototype. unfold JS.objectPrototype in Hslug.
  repeat (apply elem_of_cons in Hslug as [->|Hslug]; [by vm_compute|]).
  by apply elem_of_nil in Hslug.
Qed.

End Overrides.

(** X21: [getModelIcon] and [getModelColor] are typed [string], but for a
    slug that names a member of [Object.prototype] they return that member,
    whatever the provider.  For any other slug: when no key of the override
    table is a prefix of the slug they give the icon and colour that
    [getProviderInfo] reports for the provider (the icon defaulting to the
    OpenRouter one; the provider id naming no member of
    [Object.prototype]); otherwise they give the value of an entry whose
    key is a prefix of the slug, whatever the provider. *)
Theorem branding_falls_back_to_provider (modelSlug providerId : string) :
  (JS.inherited modelSlug = true ->
   Provider.getModelIcon modelSlug providerId = JS.Inherited /\
   Provider.getModelColor modelSlug providerId = JS.Inherited) /\
  (JS.inherited modelSlug = false ->
   (JS.inherited providerId = false ->
    Provider.findPrefix Provider.MODEL_ICONS modelSlug = None ->
    Provider.getModelIcon modelSlug providerId
    = JS.Own (default "lobe-icons:openrouter"
                (Provider.icon (Parser.getProviderInfo providerId)))) /\
   (JS.inherited providerId = false ->
    Provider.findPrefix Provider.MODEL_COLORS modelSlug = None ->
    Provider.getModelColor modelSlug providerId
    = JS.Own (Provider.color (Parser.getProviderInfo providerId))) /\
   (forall k, Provider.findPrefix Provider.MODEL_ICONS modelSlug = Some k ->
      exists k' icon,
        (k', icon) ∈ Provider.MODEL_ICONS /\ JS.startsWith modelSlug k' = true /\
        forall anyProvider,
          Provider.getModelIcon modelSlug anyProvider = JS.Own icon) /\
   (forall k, Provider.findPrefix Provider.MODEL_COLORS modelSlug = Some k ->
      exists k' color,
        (k', color) ∈ Provider.MODEL_COLORS /\ JS.startsWith modelSlug k' = true /\
        forall anyProvider,
          Provider.getModelColor modelSlug anyProvider = JS.Own color)).
Proof.
  split.
  - intros [Hicon Hcolor]%override_inherited.
    unfold Provider.getModelIcon, Provider.getModelColor.
    by rewrite Hicon, Hcolor.
  - intros Hslug. split; [|split; [|split]].
    + intros Hprovider Hnone%override_None; [|done].
      unfold Provider.getModelIcon, Parser.getProviderInfo, JS.read.
      rewrite Hnone, Hprovider.
      by destruct (Provider.KNOWN_PROVIDERS !! providerId) as [[[? ?] [?|]]|].
    + intros Hprovider Hnone%override_None; [|done].
      unfold Provider.getModelColor, Parser.getProviderInfo, JS.read.
      rewrite Hnone, Hprovider.
      by destruct (Provider.KNOWN_PROVIDERS !! providerId) as [[[? ?] ?]|].
    + intros k Hk.
      destruct (override_prefix Provider.MODEL_ICONS modelSlug k)
        as [found Hfound]; [by repeat constructor | done |].
      destruct (override_Some _ _ _ Hslug Hfound) as (k' & icon & -> & Hin & Hprefix).
      exists k', icon. split; [done|]. split; [done|].
      intros anyProvider. unfold Provider.getModelIcon. by rewrite Hfound.
    + intros k Hk.
      destruct (override_prefix Provider.MODEL_COLORS modelSlug k)
        as [found Hfound]; [by repeat constructor | done |].
      destruct (override_Some _ _ _ Hslug Hfound) as (k' & color & -> & Hin & Hprefix).
      exists k', color. split; [done|]. split; [done|].
      intros anyProvider. unfold Provider.getModelColor. by rewrite Hfound.
Qed.

Lemma branding_falls_back_to_provider_witness :
  Provider.getModelIcon "constructor" "openai" = JS.Inherited /\
  Provider.getModelColor "gpt-4o" "openai"
  = JS.Own (Provider.color (Parser.getProviderInfo "openai")).
Proof.
  split.
  - apply (proj1 (branding_falls_back_to_provider "constructor" "openai")).
    reflexivity.
  - apply (proj1 (proj2 (proj2 (branding_falls_back_to_provider "gpt-4o" "openai")
                           eq_refl)));
      reflexivity.
Defined.

(* ===================================================================== *)
(** * The snapshot script and the registry *)
(* ===================================================================== *)

Section ScriptTiers.

(** The bin the script counts for a tier. *)
Let inBin (tier : ModelSizeTier) (n : Z) : bool :=
  match tier with
  | massive => 500000 <=? n
  | large => (128000 <=? n) && (n <? 500000)
  | medium => (32000 <=? n) && (n <? 128000)
  | small => (8000 <=? n) && (n <? 32000)
  | tiny => n <? 8000
  end.

Lemma getSizeTier_inBin tier n :
  Parser.getSizeTier n = tier <-> inBin tier n = true.
Proof.
  rewrite getSizeTier_bins. subst inBin. simpl.
  destruct tier; repeat case_decide; split; try done; try lia;
    rewrite ?andb_true_iff, ?Z.leb_le, ?Z.ltb_lt; lia.
Qed.

Lemma length_ofTier_imap clock tier raws :
  length (ofTier tier (imap (λ i raw, Parser.transformModel (clock i) raw) raws))
  = length (List.filter (λ m, inBin tier (Raw.context_length m)) raws).
Proof.
  unfold ofTier. revert clock.
  induction raws as [|raw raws IH]; intros clock; [done|].
  rewrite imap_cons, filter_cons. simpl.
  specialize (IH (clock ∘ S)).
  destruct (inBin tier (Raw.context_length raw)) eqn:Hbin.
  - apply getSizeTier_inBin in Hbin.
    rewrite decide_True by done. simpl. by rewrite <- IH.
  - rewrite decide_False; [by rewrite <- IH|].
    intros Htier%getSizeTier_inBin. congruence.
Qed.

Lemma tiers_inBin data tier :
  SnapshotScript.tiers data tier
  = Z.of_nat (length (List.filter (λ m, inBin tier (Raw.context_length m)) data)).
Proof. by destruct tier. Qed.

End ScriptTiers.

(** X22: the counts the snapshot script stores and prints agree with the
    registry built from the same records: its model count is the
    registry's [modelCount], and its count for each tier is the size of
    that tier's bucket. *)
Theorem snapshot_script_agrees
    (clock : nat -> Timestamp) (now : Timestamp)
    (data : list Raw.OpenRouterModel) (source : option Source) :
  let registry :=
    Parser.buildRegistry now (Parser.transformModels clock data) source in
  SnapshotScript.modelCount data
  = Registry.modelCount (Registry.metadata registry) /\
  (forall tier,
     SnapshotScript.tiers data tier
     = Z.of_nat (length (Registry.byTier registry tier))).
Proof.
  intros registry. split.
  - subst registry. simpl. unfold SnapshotScript.modelCount.
    by rewrite length_transformModels.
  - intros tier.
    pose proof (wf_byTier _ (buildRegistry_wellFormed
                               now (Parser.transformModels clock data) source) tier)
      as Hbucket.
    fold registry in Hbucket. rewrite Hbucket, tiers_inBin.
    change (Registry.models registry) with (Parser.transformModels clock data).
    unfold Parser.transformModels, ofTier.
    rewrite sort_perm. fold (ofTier tier
      (imap (λ i raw, Parser.transformModel (clock i) raw) data)).
    by rewrite length_ofTier_imap.
Qed.

(* ===================================================================== *)
(** * Further properties of the lookup helper *)
(* ===================================================================== *)

Section Characters.

Lemma lowerChar_whiteSpace c : JS.isWhiteSpace c = true -> JS.lowerChar c = c.
Proof.
  destruct c as [[] [] [] [] [] [] [] []]; vm_compute; intros H;
    first [discriminate H | reflexivity].
Qed.

Lemma lowerChar_upperChar c : JS.lowerChar (JS.upperChar c) = JS.lowerChar c.
Proof. by destruct c as [[] [] [] [] [] [] [] []]. Qed.

Lemma mapChars_app f s t :
  JS.mapChars f (s +:+ t) = JS.mapChars f s +:+ JS.mapChars f t.
Proof. induction s as [|c s IH]; simpl; [done | by rewrite IH]. Qed.

Lemma toLowerCase_upper s :
  JS.toLowerCase (JS.mapChars JS.upperChar s) = JS.toLowerCase s.
Proof.
  unfold JS.toLowerCase.
  induction s as [|c s IH]; simpl; [done|].
  by rewrite lowerChar_upperChar, IH.
Qed.

Lemma toLowerCase_whiteSpace s :
  allWhiteSpace s = true -> JS.toLowerCase s = s.
Proof.
  unfold JS.toLowerCase.
  induction s as [|c s IH]; simpl; [done|].
  intros [Hc Hs]%andb_true_iff.
  by rewrite lowerChar_whiteSpace, IH.
Qed.

Lemma toLowerCase_empty s : JS.toLowerCase s = EmptyString -> s = EmptyString.
Proof. by destruct s. Qed.

End Characters.

Section Trim.

Lemma trimStart_whiteSpace ws s :
  allWhiteSpace ws = true -> JS.trimStart (ws +:+ s) = JS.trimStart s.
Proof.
  induction ws as [|c ws IH]; simpl; [done|].
  intros [Hc Hws]%andb_true_iff. rewrite Hc. by apply IH.
Qed.

Lemma trimStart_blank ws : allWhiteSpace ws = true -> JS.trimStart ws = EmptyString.
Proof.
  induction ws as [|c ws IH]; simpl; [done|].
  intros [Hc Hws]%andb_true_iff. rewrite Hc. by apply IH.
Qed.

Lemma trimEnd_blank ws : allWhiteSpace ws = true -> JS.trimEnd ws = EmptyString.
Proof.
  induction ws as [|c ws IH]; simpl; [done|].
  intros [Hc Hws]%andb_true_iff. by rewrite IH, Hc.
Qed.

Lemma trimEnd_whiteSpace s ws :
  allWhiteSpace ws = true -> JS.trimEnd (s +:+ ws) = JS.trimEnd s.
Proof.
  intros Hws. induction s as [|c s IH]; simpl.
  - by apply trimEnd_blank.
  - by rewrite IH.
Qed.

Lemma trim_app_whiteSpace s ws :
  allWhiteSpace ws = true -> JS.trim (s +:+ ws) = JS.trim s.
Proof.
  intros Hws. unfold JS.trim.
  induction s as [|c s IH].
  - simpl. by rewrite trimStart_blank.
  - simpl. destruct (JS.isWhiteSpace c); [exact IH|].
    by apply (trimEnd_whiteSpace (String c s)).
Qed.

Lemma trim_whiteSpace before s after :
  allWhiteSpace before = true -> allWhiteSpace after = true ->
  JS.trim (before +:+ s +:+ after) = JS.trim s.
Proof.
  intros Hbefore Hafter.
  rewrite <- (trim_app_whiteSpace s after Hafter).
  unfold JS.trim. by rewrite trimStart_whiteSpace.
Qed.

Lemma trim_blank s : allWhiteSpace s = true -> JS.trim s = EmptyString.
Proof.
  intros Hs.
  pose proof (trim_app_whiteSpace EmptyString s Hs) as H.
  exact H.
Qed.

End Trim.

Section Contains.

Lemma startsWith_empty s : JS.startsWith s EmptyString = true.
Proof. by destruct s. Qed.

Lemma includes_empty s : JS.includes s EmptyString = true.
Proof. destruct s; simpl; by rewrite ?startsWith_empty. Qed.

End Contains.

(** X23: what [findModel] returns is a model of the list that matches the
    lower-cased, trimmed query in one of the five passes, and it returns
    nothing exactly when no model of the list matches in any pass. *)
Theorem findModel_sound_complete (query : string) (models : list Model.LLMModel) :
  (forall m, Utils.findModel query models = Some m ->
             m ∈ models /\ matchesSomePass query m = true) /\
  (Utils.findModel query models = None <->
   forall m, m ∈ models -> matchesSomePass query m = false).
Proof.
  unfold Utils.findModel, matchesSomePass.
  set (normalized := JS.trim (JS.toLowerCase query)).
  destruct (List.find (Utils.matchesExactId normalized) models) as [m1|] eqn:E1;
  [|destruct (List.find (Utils.matchesExactSlug normalized) models) as [m2|] eqn:E2;
  [|destruct (List.find (Utils.matchesPartialId normalized) models) as [m3|] eqn:E3;
  [|destruct (List.find (Utils.matchesName normalized) models) as [m4|] eqn:E4;
  [|destruct (List.find (Utils.matchesFuzzy (Utils.stripPunctuation normalized))
               models) as [m5|] eqn:E5]]]].
  all: repeat match goal with
       | H : List.find _ _ = Some _ |- _ =>
           apply List.find_some in H as [?%list_elem_of_In ?]
       | H : List.find _ _ = None |- _ =>
           pose proof (List.find_none _ _ H); clear H
       end.
  1-5: split; [intros m [= <-]; split; [done|];
               repeat (apply orb_true_iff; first [by right | left]); done|];
       split; [done|]; intros Hnone;
       match goal with
       | Hin : ?m ∈ _ |- _ => specialize (Hnone m Hin)
       end;
       repeat (apply orb_false_iff in Hnone as [Hnone ?]); congruence.
  split; [done|]. split; [|done]. intros _ m Hm%list_elem_of_In.
  rewrite !orb_false_iff. repeat split; auto.
Qed.

Lemma findModel_sound_complete_witness :
  Samples.gpt4o ∈ [Samples.claude; Samples.gpt4o] /\
  matchesSomePass "gpt-4o" Samples.gpt4o = true.
Proof.
  apply (proj1 (findModel_sound_complete "gpt-4o" [Samples.claude; Samples.gpt4o])
           Samples.gpt4o).
  vm_compute. reflexivity.
Defined.

(** X24: [findModel] ignores the letter case of the query and the white
    space around it: the query in upper case, with white space before and
    after, finds what the query itself finds. *)
Theorem findModel_normalises_query
    (before query after : string) (models : list Model.LLMModel) :
  allWhiteSpace before = true ->
  allWhiteSpace after = true ->
  Utils.findModel (before +:+ JS.mapChars JS.upperChar query +:+ after) models
  = Utils.findModel query models.
Proof.
  intros Hbefore Hafter. unfold Utils.findModel.
  replace (JS.trim (JS.toLowerCase
                      (before +:+ JS.mapChars JS.upperChar query +:+ after)))
    with (JS.trim (JS.toLowerCase query)); [reflexivity|].
  unfold JS.toLowerCase at 2. rewrite !mapChars_app.
  fold (JS.toLowerCase before) (JS.toLowerCase after)
       (JS.toLowerCase (JS.mapChars JS.upperChar query)).
  rewrite toLowerCase_upper, (toLowerCase_whiteSpace before),
    (toLowerCase_whiteSpace after) by done.
  by rewrite trim_whiteSpace.
Qed.

Lemma findModel_normalises_query_witness :
  Utils.findModel "  GPT-4O " [Samples.claude; Samples.gpt4o]
  = Utils.findModel "gpt-4o" [Samples.claude; Samples.gpt4o].
Proof.
  apply (findModel_normalises_query "  " "gpt-4o" " "
           [Samples.claude; Samples.gpt4o]); reflexivity.
Defined.

Lemma fmap_NoDup_inj {A B} (f : A -> B) (l : list A) x y :
  NoDup (f <$> l) -> x ∈ l -> y ∈ l -> f x = f y -> x = y.
Proof.
  induction l as [|z l IH]; [by intros _ ?%elem_of_nil|].
  rewrite fmap_cons. intros [Hz Hl]%NoDup_cons Hx Hy Hxy.
  apply elem_of_cons in Hx as [->|Hx]; apply elem_of_cons in Hy as [->|Hy].
  - done.
  - exfalso. apply Hz. rewrite Hxy. by apply list_elem_of_fmap_2.
  - exfalso. apply Hz. rewrite <- Hxy. by apply list_elem_of_fmap_2.
  - by apply IH.
Qed.

(** X25: a query that, lower-cased and trimmed, is the lower-cased
    identifier of a model of the list finds that model, and
    [getContextLimit] returns its context length, when no two models of the
    list have the same identifier up to letter case. *)
Theorem findModel_by_identifier
    (query : string) (models : list Model.LLMModel) (m : Model.LLMModel) :
  NoDup ((λ m', JS.toLowerCase (Model.id m')) <$> models) ->
  m ∈ models ->
  JS.trim (JS.toLowerCase query) = JS.toLowerCase (Model.id m) ->
  Utils.findModel query models = Some m /\
  Utils.getContextLimit query models = Some (Model.contextLength m).
Proof.
  intros Hnodup Hm Hquery.
  assert (Hfound : Utils.findModel query models = Some m).
  { unfold Utils.findModel. rewrite Hquery.
    destruct (List.find (Utils.matchesExactId (JS.toLowerCase (Model.id m)))
                models) as [m'|] eqn:Hfind.
    - apply List.find_some in Hfind as [Hm'%list_elem_of_In Heq].
      apply String.eqb_eq in Heq.
      f_equal.
      by apply (fmap_NoDup_inj (λ m', JS.toLowerCase (Model.id m')) models).
    - apply List.find_none with (x := m) in Hfind; [|by apply list_elem_of_In].
      unfold Utils.matchesExactId in Hfind.
      by rewrite String.eqb_refl in Hfind. }
  split; [done|]. unfold Utils.getContextLimit. by rewrite Hfound.
Qed.

Lemma findModel_by_identifier_witness :
  Utils.findModel " OpenAI/GPT-4o " [Samples.claude; Samples.gpt4o; Samples.gpt4oMini]
  = Some Samples.gpt4o /\
  Utils.getContextLimit " OpenAI/GPT-4o "
    [Samples.claude; Samples.gpt4o; Samples.gpt4oMini]
  = Some 128000.
Proof.
  apply (findModel_by_identifier " OpenAI/GPT-4o "
           [Samples.claude; Samples.gpt4o; Samples.gpt4oMini] Samples.gpt4o).
  - refine (bool_decide_unpack _ _). vm_compute. exact I.
  - apply list_elem_of_further, list_elem_of_here.
  - reflexivity.
Defined.

(** X26: a query that is empty or all white space never fails on a list
    that is not empty: it returns nothing only for the empty list, and when
    no model has an empty identifier, an empty slug or an identifier ending
    in "/", it returns the first model of the list. *)
Theorem findModel_blank_query (query : string) (models : list Model.LLMModel) :
  allWhiteSpace query = true ->
  (Utils.findModel query models = None <-> models = []) /\
  (Forall (λ m, Model.id m <> EmptyString /\ Model.slug m <> EmptyString /\
                JS.endsWith (JS.toLowerCase (Model.id m)) "/" = false) models ->
   Utils.findModel query models = head models).
Proof.
  intros Hblank.
  assert (Hnormalized : JS.trim (JS.toLowerCase query) = EmptyString).
  { rewrite toLowerCase_whiteSpace by done. by apply trim_blank. }
  unfold Utils.findModel. rewrite Hnormalized. split.
  - split; [|by intros ->].
    destruct models as [|m models]; [done|]. intros Hnone. exfalso.
    repeat match type of Hnone with
           | match ?f with Some _ => _ | None => _ end = None =>
               destruct f eqn:?; [discriminate Hnone|]
           end.
    match goal with
    | H : List.find (Utils.matchesName _) _ = None |- _ =>
        apply List.find_none with (x := m) in H; [|by left];
        unfold Utils.matchesName in H; by rewrite includes_empty in H
    end.
  - intros Hnamed.
    rewrite (find_noMatch (Utils.matchesExactId EmptyString)),
            (find_noMatch (Utils.matchesExactSlug EmptyString)),
            (find_noMatch (Utils.matchesPartialId EmptyString)).
    + destruct models as [|m models]; [done|]. simpl.
      unfold Utils.matchesName at 1. by rewrite includes_empty.
    + eapply Forall_impl; [exact Hnamed|]. by intros m (_ & _ & Hslash).
    + eapply Forall_impl; [exact Hnamed|]. intros m (_ & Hslug & _).
      unfold Utils.matchesExactSlug. apply String.eqb_neq.
      intros Heq. by apply Hslug, toLowerCase_empty.
    + eapply Forall_impl; [exact Hnamed|]. intros m (Hid & _ & _).
      unfold Utils.matchesExactId. apply String.eqb_neq.
      intros Heq. by apply Hid, toLowerCase_empty.
Qed.

Lemma findModel_blank_query_witness :
  Utils.findModel "  " [Samples.claude; Samples.gpt4o] = Some Samples.claude.
Proof.
  apply (proj2 (findModel_blank_query "  " [Samples.claude; Samples.gpt4o]
                  eq_refl)).
  repeat constructor; done.
Defined.

(* ===================================================================== *)
(** * Further properties of the query helper *)
(* ===================================================================== *)

Section Slices.

Context {A : Type}.

Lemma slice0_sublist (l : list A) n : JS.slice0 l n `sublist_of` l.
Proof. unfold JS.slice0. apply sublist_take. Qed.

Lemma slice0_negative (l : list A) n :
  n < 0 -> JS.slice0 l n = take (length l - Z.to_nat (- n)) l.
Proof.
  intros Hn. unfold JS.slice0.
  rewrite (proj2 (Z.ltb_lt n 0)) by done. f_equal. lia.
Qed.

Lemma filter_sublist (p : A -> bool) (l : list A) :
  List.filter p l `sublist_of` l.
Proof.
  induction l as [|x l IH]; simpl; [done|].
  destruct (p x); [by apply sublist_skip | by apply sublist_cons].
Qed.

Lemma take_StronglySorted (R : relation A) n (l : list A) :
  StronglySorted R l -> StronglySorted R (take n l).
Proof.
  intros Hsorted. rewrite <- (take_drop n l) in Hsorted.
  by apply StronglySorted_app_1_l in Hsorted.
Qed.

Lemma StronglySorted_weaken (R S : relation A) (l : list A) :
  (forall x y, R x y -> S x y) -> StronglySorted R l -> StronglySorted S l.
Proof.
  intros HRS. induction 1 as [|x l _ IH Hx]; constructor; [done|].
  eapply Forall_impl; [exact Hx | by auto].
Qed.

End Slices.

Section SortByKey.

Context {A : Type} (key : A -> Z) (cmp : A -> A -> Z).

Hypothesis cmp_key : forall x y, (cmp x y <=? 0) = (key x <=? key y).

Lemma sort_insert_key x l :
  StronglySorted (λ a b, key a <= key b) l ->
  StronglySorted (λ a b, key a <= key b) (JS.sort_insert cmp x l).
Proof.
  induction l as [|y l IH]; simpl.
  - intros _. by repeat constructor.
  - intros [Hy Hl]%StronglySorted_cons. rewrite cmp_key.
    destruct (Z.leb_spec (key x) (key y)).
    + apply StronglySorted_cons. split.
      * constructor; [done|].
        eapply Forall_impl; [exact Hy|]. simpl. intros; lia.
      * by apply StronglySorted_cons.
    + apply StronglySorted_cons. split; [|by apply IH].
      rewrite sort_insert_perm. constructor; [lia | done].
Qed.

Lemma sort_key l : StronglySorted (λ a b, key a <= key b) (JS.sort cmp l).
Proof.
  induction l as [|x l IH]; simpl; [constructor | by apply sort_insert_key].
Qed.

(** Insertion never moves an element past another of the same key. *)
Lemma filter_key_sort_insert k x l :
  filter (λ a, key a = k) (JS.sort_insert cmp x l)
  = filter (λ a, key a = k) (x :: l).
Proof.
  induction l as [|y l IH]; simpl; [done|]. rewrite cmp_key.
  destruct (Z.leb_spec (key x) (key y)); [done|].
  rewrite (filter_cons _ y), IH, !(filter_cons _ x), (filter_cons _ y).
  repeat case_decide; try done; lia.
Qed.

Lemma filter_key_sort k l :
  filter (λ a, key a = k) (JS.sort cmp l) = filter (λ a, key a = k) l.
Proof.
  induction l as [|x l IH]; simpl; [done|].
  rewrite filter_key_sort_insert. by rewrite !(filter_cons _ x), IH.
Qed.

End SortByKey.

Section QueryShape.

Variable localeCompare : string -> string -> Z.

Implicit Types (l : list Model.LLMModel) (options : Query.ModelQueryOptions).

(** The limit is applied last, to what the call returns without it. *)
Lemma queryResult_limit l options :
  Utils.queryResult localeCompare l options
  = let all := Utils.queryResult localeCompare l (Samples.withLimit None options) in
    match Query.limit options with
    | Some limit => if JS.truthy_int limit then JS.slice0 all limit else all
    | None => all
    end.
Proof. by destruct options as [? ? ? ? ? ? ? ? ? ? ? ? ? []]. Qed.

(** Without a limit the result is the input with the models that fail a
    filter removed, sorted when [sortBy] is given. *)
Lemma queryResult_ordered l options :
  Utils.queryResult localeCompare l (Samples.withLimit None options)
  = let passed := List.filter (passesFilters options) l in
    match Query.sortBy options with
    | Some sortBy =>
        JS.sort (Utils.compareBy localeCompare sortBy
                   (Utils.isDesc (Query.sortOrder options))) passed
    | None => passed
    end.
Proof.
  remember (passesFilters options) as passes eqn:Hpasses.
  destruct options as [provider minContext maxContext tier isFree supportsImages
                         ? ? ? ? search sortBy sortOrder limit].
  unfold Utils.queryResult. simpl.
  rewrite (when_truthy_filter provider Utils.truthy_strings
             (λ provider, Utils.providerMatches (Utils.toArray provider))).
  rewrite (when_filter minContext (λ minContext m, minContext <=? Model.contextLength m)).
  rewrite (when_filter maxContext (λ maxContext m, Model.contextLength m <=? maxContext)).
  rewrite (when_filter tier (λ tier, Utils.tierMatches (Utils.toArray tier))).
  rewrite (when_filter isFree
             (λ isFree m, Bool.eqb (Model.isFree (Model.pricing m)) isFree)).
  rewrite (when_filter supportsImages
             (λ supportsImages m,
                Bool.eqb (Model.supportsImages (Model.capabilities m))
                         supportsImages)).
  rewrite (when_truthy_filter search JS.truthy_string
             (λ s, Utils.searchMatches (JS.toLowerCase s))).
  rewrite !filter_both.
  destruct sortBy; [f_equal|]; apply List.filter_ext;
    intros m; subst passes; unfold passesFilters; simpl;
    by rewrite !andb_assoc.
Qed.

Lemma queryResult_unsorted l options :
  Query.sortBy options = None ->
  Utils.queryResult localeCompare l (Samples.withLimit None options)
  = List.filter (passesFilters options) l.
Proof. intros Hsort. rewrite queryResult_ordered. cbv zeta. by rewrite Hsort. Qed.

Lemma queryResult_sorted l options sortBy :
  Query.sortBy options = Some sortBy ->
  Utils.queryResult localeCompare l (Samples.withLimit None options)
  = JS.sort (Utils.compareBy localeCompare sortBy
               (Utils.isDesc (Query.sortOrder options)))
      (List.filter (passesFilters options) l).
Proof. intros Hsort. rewrite queryResult_ordered. cbv zeta. by rewrite Hsort. Qed.

Lemma queryResult_submseteq l options :
  Utils.queryResult localeCompare l options ⊆+ List.filter (passesFilters options) l.
Proof.
  rewrite queryResult_limit. cbv zeta.
  transitivity (Utils.queryResult localeCompare l (Samples.withLimit None options)).
  - destruct (Query.limit options) as [n|]; [|done].
    destruct (JS.truthy_int n); [|done].
    apply sublist_submseteq, slice0_sublist.
  - apply Permutation_submseteq, queryResult_unlimited.
Qed.

Lemma queryResult_sublist l options :
  Query.sortBy options = None ->
  Utils.queryResult localeCompare l options
    `sublist_of` List.filter (passesFilters options) l.
Proof.
  intros Hsort. rewrite queryResult_limit. cbv zeta.
  rewrite queryResult_unsorted by done.
  destruct (Query.limit options) as [n|]; [|done].
  destruct (JS.truthy_int n); [|done]. apply slice0_sublist.
Qed.

Lemma queryResult_rejects_all l options :
  (forall m, m ∈ l -> passesFilters options m = false) ->
  Utils.queryResult localeCompare l options = [].
Proof.
  intros Hnone.
  pose proof (queryResult_submseteq l options) as Hsub.
  destruct (Utils.queryResult localeCompare l options) as [|m result]; [done|].
  assert (Hm : m ∈ List.filter (passesFilters options) l).
  { eapply elem_of_submseteq; [|exact Hsub]. by left. }
  apply list_elem_of_In, List.filter_In in Hm as [Hm%list_elem_of_In Hpass].
  by rewrite Hnone in Hpass.
Qed.

Lemma compareBy_context_ascending a b :
  (Utils.compareBy localeCompare by_context false a b <=? 0)
  = (Model.contextLength a <=? Model.contextLength b).
Proof.
  simpl.
  destruct (Z.leb_spec ((Model.contextLength a - Model.contextLength b) * 1) 0),
           (Z.leb_spec (Model.contextLength a) (Model.contextLength b));
    first [done | lia].
Qed.

Lemma compareBy_context_descending a b :
  (Utils.compareBy localeCompare by_context true a b <=? 0)
  = (- Model.contextLength a <=? - Model.contextLength b).
Proof.
  simpl.
  destruct (Z.leb_spec ((Model.contextLength a - Model.contextLength b) * -1) 0),
           (Z.leb_spec (- Model.contextLength a) (- Model.contextLength b));
    first [done | lia].
Qed.

End QueryShape.

(** X27: every model [queryModels] returns is a model of the input that
    passes the filters, and occurs in the result no more often than in the
    input; without [sortBy] the models of the result are in the order they
    have in the input. *)
Theorem queryModels_selects
    (localeCompare : string -> string -> Z)
    (h : Store.Heap Model.LLMModel) (models : Store.ArrayRef)
    (input : list Model.LLMModel) (options : Query.ModelQueryOptions) :
  h !! models = Some input ->
  exists result,
    returned (Utils.queryModels localeCompare models options h) = Some result /\
    result ⊆+ List.filter (passesFilters options) input /\
    (forall m, m ∈ result -> m ∈ input /\ passesFilters options m = true) /\
    (Query.sortBy options = None -> result `sublist_of` input).
Proof.
  intros Hinput. eexists. split; [by apply queryModels_returned|].
  split; [apply queryResult_submseteq|]. split.
  - intros m Hm.
    assert (Hin : m ∈ List.filter (passesFilters options) input).
    { eapply elem_of_submseteq; [exact Hm | apply queryResult_submseteq]. }
    apply list_elem_of_In, List.filter_In in Hin as [Hin Hpass].
    split; [by apply list_elem_of_In | done].
  - intros Hsort. etransitivity; [by apply queryResult_sublist|].
    apply filter_sublist.
Qed.

Lemma queryModels_selects_witness :
  exists result,
    returned (Utils.queryModels (λ _ _, 0) 0%nat
                (Samples.options None (Some 150000) None None None None None
                   None None None)
                [[Samples.gpt4o; Samples.claude]])
    = Some result /\
    result `sublist_of` [Samples.gpt4o; Samples.claude].
Proof.
  destruct (queryModels_selects (λ _ _, 0) [[Samples.gpt4o; Samples.claude]]
              0%nat [Samples.gpt4o; Samples.claude]
              (Samples.options None (Some 150000) None None None None None
                 None None None) eq_refl)
    as (result & Hresult & _ & _ & Hsublist).
  exists result. split; [exact Hresult | by apply Hsublist].
Defined.

(** X28: a negative limit removes results from the end: with limit [n < 0]
    [queryModels] returns what it returns without a limit, less the last
    [-n] models (nothing when there are no more than [-n]). *)
Theorem queryModels_negative_limit
    (localeCompare : string -> string -> Z)
    (h : Store.Heap Model.LLMModel) (models : Store.ArrayRef)
    (input : list Model.LLMModel) (options : Query.ModelQueryOptions) (n : Z) :
  h !! models = Some input ->
  Query.limit options = Some n ->
  n < 0 ->
  returned (Utils.queryModels localeCompare models options h)
  = (λ all, take (length all - Z.to_nat (- n)) all)
    <$> returned (Utils.queryModels localeCompare models
                    (Samples.withLimit None options) h).
Proof.
  intros Hinput Hlimit Hn.
  rewrite !(queryModels_returned localeCompare h models _ input Hinput).
  simpl. f_equal. rewrite queryResult_limit. cbv zeta. rewrite Hlimit.
  unfold JS.truthy_int. rewrite (proj2 (Z.eqb_neq n 0)) by lia. simpl.
  by apply slice0_negative.
Qed.

Lemma queryModels_negative_limit_witness :
  returned (Utils.queryModels (λ _ _, 0) 0%nat
              (Samples.withLimit (Some (-1)) Samples.noOptions)
              [[Samples.gpt4o; Samples.claude; Samples.gpt4oMini]])
  = Some [Samples.gpt4o; Samples.claude].
Proof.
  rewrite (queryModels_negative_limit (λ _ _, 0)
             [[Samples.gpt4o; Samples.claude; Samples.gpt4oMini]] 0%nat
             [Samples.gpt4o; Samples.claude; Samples.gpt4oMini]
             (Samples.withLimit (Some (-1)) Samples.noOptions) (-1)
             eq_refl eq_refl eq_refl).
  reflexivity.
Defined.

(** X29: a provider filter or a tier filter that is an empty array, and a
    [minContext] above the [maxContext], let no model through: the result
    is empty whatever the input and the other options. *)
Theorem queryModels_empty_filters
    (localeCompare : string -> string -> Z)
    (h : Store.Heap Model.LLMModel) (models : Store.ArrayRef)
    (input : list Model.LLMModel) (options : Query.ModelQueryOptions) :
  h !! models = Some input ->
  Query.provider options = Some (Many []) \/
  Query.tier options = Some (Many []) \/
  (exists lo hi, Query.minContext options = Some lo /\
                 Query.maxContext options = Some hi /\ hi < lo) ->
  returned (Utils.queryModels localeCompare models options h) = Some [].
Proof.
  intros Hinput Hempty.
  rewrite (queryModels_returned localeCompare h models _ input Hinput).
  f_equal. apply queryResult_rejects_all. intros m _.
  unfold passesFilters.
  destruct Hempty as [-> | [-> | (lo & hi & -> & -> & Hlt)]]; simpl.
  - done.
  - by rewrite !andb_false_r.
  - destruct (Z.leb_spec lo (Model.contextLength m)),
             (Z.leb_spec (Model.contextLength m) hi);
      rewrite ?andb_false_r, ?andb_false_l; first [done | lia].
Qed.

Lemma queryModels_empty_filters_witness :
  returned (Utils.queryModels (λ _ _, 0) 0%nat
              (Samples.options (Some (Many [])) None None None None None None
                 None None None)
              [[Samples.gpt4o; Samples.claude]])
  = Some [].
Proof.
  apply (queryModels_empty_filters (λ _ _, 0) [[Samples.gpt4o; Samples.claude]]
           0%nat [Samples.gpt4o; Samples.claude]
           (Samples.options (Some (Many [])) None None None None None None
              None None None) eq_refl).
  by left.
Defined.

(** X30: with [sortBy: 'context'] the result is sorted by context length,
    descending when [sortOrder] is 'desc' and ascending otherwise, also
    when a limit cuts it; without a limit the sort is stable: the models
    of one context length come in the order they have in the input. *)
Theorem queryModels_sorted_by_context
    (localeCompare : string -> string -> Z)
    (h : Store.Heap Model.LLMModel) (models : Store.ArrayRef)
    (input : list Model.LLMModel) (options : Query.ModelQueryOptions) :
  h !! models = Some input ->
  Query.sortBy options = Some by_context ->
  exists result,
    returned (Utils.queryModels localeCompare models options h) = Some result /\
    (if Utils.isDesc (Query.sortOrder options)
     then contextDescending result
     else contextAscending result) /\
    (Query.limit options = None ->
     forall c, withContext c result
               = withContext c (List.filter (passesFilters options) input)).
Proof.
  intros Hinput Hsort. eexists. split; [by apply queryModels_returned|].
  rewrite queryResult_limit. cbv zeta.
  rewrite (queryResult_sorted localeCompare input options by_context Hsort).
  set (passed := List.filter (passesFilters options) input).
  assert (Hsorted :
    if Utils.isDesc (Query.sortOrder options)
    then contextDescending
           (JS.sort (Utils.compareBy localeCompare by_context
                       (Utils.isDesc (Query.sortOrder options))) passed)
    else contextAscending
           (JS.sort (Utils.compareBy localeCompare by_context
                       (Utils.isDesc (Query.sortOrder options))) passed)).
  { destruct (Utils.isDesc (Query.sortOrder options)).
    - eapply StronglySorted_weaken;
        [|apply (sort_key (λ m, - Model.contextLength m)),
            compareBy_context_descending].
      simpl. intros; lia.
    - apply (sort_key Model.contextLength), compareBy_context_ascending. }
  split.
  - destruct (Query.limit options) as [n|]; [|done].
    destruct (JS.truthy_int n); [|done].
    unfold JS.slice0, contextDescending, contextAscending in *.
    destruct (Utils.isDesc (Query.sortOrder options));
      by apply take_StronglySorted.
  - intros -> c. unfold withContext.
    destruct (Utils.isDesc (Query.sortOrder options)).
    + rewrite !(list_filter_iff (λ m, Model.contextLength m = c)
                               (λ m, - Model.contextLength m = - c))
        by (intros; lia).
      apply (filter_key_sort (λ m, - Model.contextLength m)),
        compareBy_context_descending.
    + apply (filter_key_sort Model.contextLength),
        compareBy_context_ascending.
Qed.

Lemma queryModels_sorted_by_context_witness :
  exists result,
    returned (Utils.queryModels (λ _ _, 0) 0%nat
                (Samples.options None None None None None None None
                   (Some by_context) (Some desc) None)
                [[Samples.gpt4o; Samples.claude]])
    = Some result /\
    contextDescending result.
Proof.
  destruct (queryModels_sorted_by_context (λ _ _, 0)
              [[Samples.gpt4o; Samples.claude]] 0%nat
              [Samples.gpt4o; Samples.claude]
              (Samples.options None None None None None None None
                 (Some by_context) (Some desc) None) eq_refl eq_refl)
    as (result & Hresult & Hsorted & _).
  exists result. split; [exact Hresult | exact Hsorted].
Defined.
